(** * Shopify webhook plugin: intake, retry policy and promotion translation

    A shallow embedding of the Python sources of the Shopify webhook
    application (views.py, middleware.py, tasks.py, utils.py and
    services/promotion_sync.py) together with the properties established
    about them.

    Conventions.
    - A Python call that may raise returns [result A]: [Ok a] for a normal
      return and [Raise e] for a propagated exception [e].
    - Python [bytes] are [list Z] with every element in 0..255; Python [str]
      is [string] (one character per element, code points 0..255, which is
      what a WSGI server hands over for header values).
    - JSON payloads and the dictionaries built from them are [pyval].
    - Code that talks to the network threads a [world]: the answers still to
      come and the trace of effects issued so far. *)

From Stdlib Require Import ZArith NArith List String Ascii Bool Lia.
From Stdlib Require Import DecimalString QArith Qabs Qround.
Import ListNotations.

Set Warnings "-register-all".

Local Open Scope string_scope.
Local Open Scope Z_scope.

(* ===================================================================== *)
(** ** Python exceptions and results                                      *)
(* ===================================================================== *)

(** The exception classes the sources mention or can meet.  The classes
    prefixed [Req] are those of [requests.exceptions]. *)
Inductive exc_class : Type :=
  | BaseException_
  | Exception_
  | ArithmeticError_
  | ZeroDivisionError_
  | OverflowError_
  | InvalidOperation_        (* decimal.InvalidOperation *)
  | LookupError_
  | KeyError_
  | IndexError_
  | AttributeError_
  | TypeError_
  | ValueError_
  | UnicodeEncodeError_
  | JSONDecodeError_         (* json.JSONDecodeError, a ValueError *)
  | IntegrityError_          (* django.db.IntegrityError *)
  | MultipleObjectsReturned_ (* django.core.exceptions.MultipleObjectsReturned *)
  | OSError_
  | FileNotFoundError_
  | PermissionError_
  | BuiltinConnectionError_  (* builtins.ConnectionError *)
  | BuiltinTimeoutError_     (* builtins.TimeoutError *)
  | ReqRequestException
  | ReqHTTPError
  | ReqConnectionError
  | ReqTimeout
  | ReqConnectTimeout
  | ReqReadTimeout
  | ReqSSLError.

Definition exc_class_eqb (a b : exc_class) : bool :=
  match a, b with
  | BaseException_, BaseException_ | Exception_, Exception_
  | ArithmeticError_, ArithmeticError_
  | ZeroDivisionError_, ZeroDivisionError_
  | OverflowError_, OverflowError_
  | InvalidOperation_, InvalidOperation_
  | LookupError_, LookupError_ | KeyError_, KeyError_
  | IndexError_, IndexError_ | AttributeError_, AttributeError_
  | TypeError_, TypeError_ | ValueError_, ValueError_
  | UnicodeEncodeError_, UnicodeEncodeError_
  | JSONDecodeError_, JSONDecodeError_
  | IntegrityError_, IntegrityError_
  | MultipleObjectsReturned_, MultipleObjectsReturned_
  | OSError_, OSError_ | FileNotFoundError_, FileNotFoundError_
  | PermissionError_, PermissionError_
  | BuiltinConnectionError_, BuiltinConnectionError_
  | BuiltinTimeoutError_, BuiltinTimeoutError_
  | ReqRequestException, ReqRequestException
  | ReqHTTPError, ReqHTTPError
  | ReqConnectionError, ReqConnectionError
  | ReqTimeout, ReqTimeout
  | ReqConnectTimeout, ReqConnectTimeout
  | ReqReadTimeout, ReqReadTimeout
  | ReqSSLError, ReqSSLError => true
  | _, _ => false
  end.

(** Direct base classes, as declared by Python and by [requests]:
    [class RequestException(IOError)], [class HTTPError(RequestException)],
    [class ConnectTimeout(ConnectionError, Timeout)], and so on
    ([IOError] is [OSError]). *)
Definition bases (c : exc_class) : list exc_class :=
  match c with
  | BaseException_ => []
  | Exception_ => [BaseException_]
  | ArithmeticError_ => [Exception_]
  | ZeroDivisionError_ => [ArithmeticError_]
  | OverflowError_ => [ArithmeticError_]
  | InvalidOperation_ => [ArithmeticError_]
  | LookupError_ => [Exception_]
  | KeyError_ => [LookupError_]
  | IndexError_ => [LookupError_]
  | AttributeError_ => [Exception_]
  | TypeError_ => [Exception_]
  | ValueError_ => [Exception_]
  | UnicodeEncodeError_ => [ValueError_]
  | JSONDecodeError_ => [ValueError_]
  | IntegrityError_ => [Exception_]
  | MultipleObjectsReturned_ => [Exception_]
  | OSError_ => [Exception_]
  | FileNotFoundError_ => [OSError_]
  | PermissionError_ => [OSError_]
  | BuiltinConnectionError_ => [OSError_]
  | BuiltinTimeoutError_ => [OSError_]
  | ReqRequestException => [OSError_]
  | ReqHTTPError => [ReqRequestException]
  | ReqConnectionError => [ReqRequestException]
  | ReqTimeout => [ReqRequestException]
  | ReqConnectTimeout => [ReqConnectionError; ReqTimeout]
  | ReqReadTimeout => [ReqTimeout]
  | ReqSSLError => [ReqConnectionError]
  end.

(** [issubclass c d]: the hierarchy has depth at most six. *)
Fixpoint issubclass_fuel (fuel : nat) (c d : exc_class) : bool :=
  exc_class_eqb c d ||
  match fuel with
  | O => false
  | S fuel' => existsb (fun b => issubclass_fuel fuel' b d) (bases c)
  end.

Definition issubclass (c d : exc_class) : bool := issubclass_fuel 6 c d.

(** A raised exception: its class and [str(e)]. *)
Record pyexc : Type := Exc { exc_cls : exc_class; exc_msg : string }.

Inductive result (A : Type) : Type :=
  | Ok (a : A)
  | Raise (e : pyexc).
Arguments Ok {A} a.
Arguments Raise {A} e.

Definition bind {A B : Type} (r : result A) (k : A -> result B) : result B :=
  match r with
  | Ok a => k a
  | Raise e => Raise e
  end.

Notation "x <- r ;; k" := (bind r (fun x => k))
  (at level 61, r at next level, right associativity).

Definition is_ok {A : Type} (r : result A) : bool :=
  match r with Ok _ => true | Raise _ => false end.

(* ===================================================================== *)
(** ** Strings                                                            *)
(* ===================================================================== *)

(** [str(n)] for a Python int. *)
Definition str_of_int (n : Z) : string := NilZero.string_of_int (Z.to_int n).

(** [sep in s] for a one-character [sep]. *)
Fixpoint contains_char (sep : ascii) (s : string) : bool :=
  match s with
  | EmptyString => false
  | String c rest => Ascii.eqb c sep || contains_char sep rest
  end.

(** [s.split(sep)] for a one-character separator: every occurrence of [sep]
    ends a field; the result always has at least one field. *)
Fixpoint split (sep : ascii) (s : string) : list string :=
  match s with
  | EmptyString => [EmptyString]
  | String c rest =>
      if Ascii.eqb c sep then EmptyString :: split sep rest
      else match split sep rest with
           | field :: fields => String c field :: fields
           | [] => [String c EmptyString]
           end
  end.

(** [parts[-1]]: IndexError on the empty list. *)
Definition last_item (parts : list string) : result string :=
  match parts with
  | [] => Raise (Exc IndexError_ "list index out of range")
  | p :: ps => Ok (last ps p)
  end.

(* ===================================================================== *)
(** ** utils.py and the GID helper of promotion_sync.py                   *)
(* ===================================================================== *)

Module Gid.

(** The identifier handed to [to_shopify_gid]: "Numeric ID (int or str)". *)
Inductive numeric_id : Type :=
  | IdInt (n : Z)
  | IdStr (s : string).

(** What an f-string substitutes for [{numeric_id}]. *)
Definition format_id (n : numeric_id) : string :=
  match n with
  | IdInt z => str_of_int z
  | IdStr s => s
  end.

(** [return f"gid://shopify/{resource_type}/{numeric_id}"] *)
Definition to_shopify_gid (resource_type : string) (n : numeric_id) : string :=
  "gid://shopify/" ++ resource_type ++ "/" ++ format_id n.

(** [parts = gid_string.split("/"); return parts[-1]] *)
Definition extract_id (gid_string : string) : result string :=
  last_item (split "/" gid_string).

End Gid.

(* ===================================================================== *)
(** ** tasks.py: retry classification                                     *)
(* ===================================================================== *)

Module Tasks.

(** The part of an exception object that [should_retry] looks at: its class
    and its [response] attribute.  [exc_response = None] is an object
    without the attribute ([hasattr] is false), [Some None] is
    [response is None], [Some (Some c)] is a response whose [status_code]
    is [c]. *)
Record exception : Type := {
  exc_class_of : exc_class;
  exc_response : option (option Z)
}.

(** [isinstance(exception, (c1, ..., cn))] *)
Definition isinstance (e : exception) (classes : list exc_class) : bool :=
  existsb (issubclass (exc_class_of e)) classes.

(** [from requests.exceptions import ConnectionError, Timeout]: the two
    names in the tuple are the [requests] classes, [OSError] the builtin. *)
Definition should_retry (retries_so_far : Z) (e : exception) : bool :=
  if isinstance e [ReqConnectionError; ReqTimeout; OSError_] then true
  else
    match exc_response e with
    | Some (Some status_code) =>
        if (status_code =? 429) || ((500 <=? status_code) && (status_code <? 600))
        then true else false
    | _ => false
    end.

(** The classification the docstring of [should_retry] gives:
    "Transient (retry): ConnectionError, Timeout, HTTP 5xx, HTTP 429.
     Permanent (fail): ValueError, KeyError, HTTP 4xx (except 429), etc." *)
Definition is_connection_failure (e : exception) : bool :=
  isinstance e [ReqConnectionError; BuiltinConnectionError_].

Definition is_timeout (e : exception) : bool :=
  isinstance e [ReqTimeout; BuiltinTimeoutError_].

Definition carries_transient_status (e : exception) : bool :=
  match exc_response e with
  | Some (Some c) => (c =? 429) || ((500 <=? c) && (c <? 600))
  | _ => false
  end.

Definition transient_by_docstring (e : exception) : bool :=
  is_connection_failure e || is_timeout e || carries_transient_status e.

(** What [response.raise_for_status()] raises for a 4xx or 5xx answer, as
    [handle_collection_update] uses it. *)
Definition http_error (status_code : Z) : exception :=
  {| exc_class_of := ReqHTTPError; exc_response := Some (Some status_code) |}.

End Tasks.

(* ===================================================================== *)
(** ** Python values                                                      *)
(* ===================================================================== *)

(** The value of a Python [float] or [decimal.Decimal]: a finite number, a
    quiet NaN or an infinity.  Finite values are kept as exact rationals:
    the binary rounding of [float] and the 28-digit rounding of the default
    decimal context are not represented (the amounts handled here have two
    fractional digits and stay far below 2^53, where truncating the rounded
    value and truncating the exact value agree). *)
Inductive number : Type :=
  | Fin (q : Q)
  | NaN
  | Inf (negative : bool).

(** JSON-shaped Python values, plus [float] and [Decimal].  Dictionaries
    have string keys; the first binding of a key is the one in force. *)
Inductive pyval : Type :=
  | VNone
  | VBool (b : bool)
  | VInt (n : Z)
  | VFloat (x : number)
  | VDecimal (x : number)
  | VStr (s : string)
  | VList (l : list pyval)
  | VDict (d : list (string * pyval)).

Definition number_is_zero (x : number) : bool :=
  match x with
  | Fin q => Qeq_bool q 0
  | _ => false
  end.

(** [bool(v)], the truth value [if v:] tests. *)
Definition truthy (v : pyval) : bool :=
  match v with
  | VNone => false
  | VBool b => b
  | VInt n => negb (n =? 0)
  | VFloat x | VDecimal x => negb (number_is_zero x)
  | VStr s => negb (String.eqb s "")
  | VList l => match l with [] => false | _ => true end
  | VDict d => match d with [] => false | _ => true end
  end.

Definition type_name (v : pyval) : string :=
  match v with
  | VNone => "NoneType"
  | VBool _ => "bool"
  | VInt _ => "int"
  | VFloat _ => "float"
  | VDecimal _ => "decimal.Decimal"
  | VStr _ => "str"
  | VList _ => "list"
  | VDict _ => "dict"
  end.

(** [str(v)].  Exact for [None], booleans, ints and strings, which is what
    the sources format (identifiers, status codes, barcodes); the textual
    form of floats, decimals and containers is only tagged by type. *)
Definition py_str (v : pyval) : string :=
  match v with
  | VNone => "None"
  | VBool true => "True"
  | VBool false => "False"
  | VInt n => str_of_int n
  | VStr s => s
  | other => "<" ++ type_name other ++ ">"
  end.

Fixpoint assoc (key : string) (d : list (string * pyval)) : option pyval :=
  match d with
  | [] => None
  | (k, v) :: rest => if String.eqb k key then Some v else assoc key rest
  end.

Definition attribute_error (v : pyval) (attr : string) : pyexc :=
  Exc AttributeError_
      ("'" ++ type_name v ++ "' object has no attribute '" ++ attr ++ "'").

(** [obj.get(key, default)]: a method of dictionaries only. *)
Definition py_get_default (obj : pyval) (key : string) (default : pyval)
  : result pyval :=
  match obj with
  | VDict d => Ok (match assoc key d with Some v => v | None => default end)
  | other => Raise (attribute_error other "get")
  end.

(** [obj.get(key)] *)
Definition py_get (obj : pyval) (key : string) : result pyval :=
  py_get_default obj key VNone.

(** [obj[key]] with a string key. *)
Definition py_item (obj : pyval) (key : string) : result pyval :=
  match obj with
  | VDict d =>
      match assoc key d with
      | Some v => Ok v
      | None => Raise (Exc KeyError_ ("'" ++ key ++ "'"))
      end
  | VStr _ => Raise (Exc TypeError_ "string indices must be integers")
  | VList _ => Raise (Exc TypeError_ "list indices must be integers or slices, not str")
  | other =>
      Raise (Exc TypeError_ ("'" ++ type_name other ++ "' object is not subscriptable"))
  end.

Fixpoint chars_of (s : string) : list pyval :=
  match s with
  | EmptyString => []
  | String c rest => VStr (String c EmptyString) :: chars_of rest
  end.

(** The items [for x in v] or [list(v)] goes through. *)
Definition py_iter (v : pyval) : result (list pyval) :=
  match v with
  | VList l => Ok l
  | VDict d => Ok (map (fun kv => VStr (fst kv)) d)
  | VStr s => Ok (chars_of s)
  | other =>
      Raise (Exc TypeError_ ("'" ++ type_name other ++ "' object is not iterable"))
  end.

(* --------------------------------------------------------------------- *)
(** *** Numeric literals                                                  *)
(* --------------------------------------------------------------------- *)

Definition is_space (c : ascii) : bool :=
  let n := nat_of_ascii c in
  (n =? 32)%nat || ((9 <=? n)%nat && (n <=? 13)%nat).

Definition digit_of (c : ascii) : option Z :=
  let n := nat_of_ascii c in
  if ((48 <=? n) && (n <=? 57))%nat then Some (Z.of_nat n - 48) else None.

Definition lower (c : ascii) : ascii :=
  let n := nat_of_ascii c in
  if ((65 <=? n) && (n <=? 90))%nat then ascii_of_nat (n + 32) else c.

Fixpoint lower_string (s : string) : string :=
  match s with
  | EmptyString => EmptyString
  | String c rest => String (lower c) (lower_string rest)
  end.

Fixpoint lstrip (s : string) : string :=
  match s with
  | String c rest => if is_space c then lstrip rest else s
  | EmptyString => EmptyString
  end.

Fixpoint rstrip (s : string) : string :=
  match s with
  | EmptyString => EmptyString
  | String c rest =>
      match rstrip rest with
      | EmptyString => if is_space c then EmptyString else String c EmptyString
      | kept => String c kept
      end
  end.

Definition strip (s : string) : string := rstrip (lstrip s).

(** The leading digits of [s] as a number, how many there are, and the rest. *)
Fixpoint take_digits (acc : Z) (count : nat) (s : string) : Z * nat * string :=
  match s with
  | String c rest =>
      match digit_of c with
      | Some d => take_digits (10 * acc + d) (S count) rest
      | None => (acc, count, s)
      end
  | EmptyString => (acc, count, s)
  end.

(** [[+-]] *)
Definition take_sign (s : string) : bool * string :=
  match s with
  | String "-" rest => (true, rest)
  | String "+" rest => (false, rest)
  | _ => (false, s)
  end.

(** [mantissa * 10^exponent] as a rational. *)
Definition scale10 (mantissa exponent : Z) : Q :=
  if 0 <=? exponent then Qmake (mantissa * 10 ^ exponent) 1
  else Qmake mantissa (Z.to_pos (10 ^ (- exponent))).

(** [digits [. digits] [e [+-] digits]] with at least one mantissa digit. *)
Definition parse_unsigned (s : string) : option Q :=
  let '(int_part, int_count, after_int) := take_digits 0 0 s in
  let '(mantissa, frac_count, after_frac) :=
    match after_int with
    | String "." rest => take_digits int_part 0 rest
    | _ => (int_part, 0%nat, after_int)
    end in
  if ((int_count + frac_count)%nat =? 0)%nat then None
  else
    match after_frac with
    | EmptyString => Some (scale10 mantissa (- Z.of_nat frac_count))
    | String c rest =>
        if Ascii.eqb (lower c) "e" then
          let '(negative, after_sign) := take_sign rest in
          match take_digits 0 0 after_sign with
          | (_, O, _) => None
          | (e, _, EmptyString) =>
              Some (scale10 mantissa
                      ((if negative then - e else e) - Z.of_nat frac_count))
          | _ => None
          end
        else None
    end.

(** The numeric strings [float(s)] and [Decimal(s)] both accept: optional
    surrounding white space, an optional sign, then a decimal literal or
    one of [inf], [infinity], [nan] in any letter case.  (Digit-group
    underscores and NaN payloads are not covered and count as malformed.) *)
Definition parse_number (s : string) : option number :=
  let '(negative, body) := take_sign (strip s) in
  let word := lower_string body in
  if String.eqb word "nan" then Some NaN
  else if String.eqb word "inf" || String.eqb word "infinity" then Some (Inf negative)
  else
    match parse_unsigned body with
    | Some q => Some (Fin (if negative then Qopp q else q))
    | None => None
    end.

(** [float(v)] *)
Definition py_float (v : pyval) : result number :=
  match v with
  | VBool b => Ok (Fin (if b then 1 else 0)%Q)
  | VInt n => Ok (Fin (inject_Z n))
  | VFloat x | VDecimal x => Ok x
  | VStr s =>
      match parse_number s with
      | Some x => Ok x
      | None => Raise (Exc ValueError_ ("could not convert string to float: '" ++ s ++ "'"))
      end
  | other =>
      Raise (Exc TypeError_
               ("float() argument must be a string or a real number, not '"
                  ++ type_name other ++ "'"))
  end.

(** [decimal.Decimal(v)] in the default context, where a malformed literal
    raises [InvalidOperation]. *)
Definition py_decimal (v : pyval) : result number :=
  match v with
  | VBool b => Ok (Fin (if b then 1 else 0)%Q)
  | VInt n => Ok (Fin (inject_Z n))
  | VFloat x | VDecimal x => Ok x
  | VStr s =>
      match parse_number s with
      | Some x => Ok x
      | None => Raise (Exc InvalidOperation_ "[<class 'decimal.ConversionSyntax'>]")
      end
  | VList _ =>
      Raise (Exc ValueError_
               "argument must be a sequence of length 3")
  | other =>
      Raise (Exc TypeError_
               ("conversion from " ++ type_name other ++ " to Decimal is not supported"))
  end.

(** Rounding toward zero, as [int(x)] does. *)
Definition Qtrunc (q : Q) : Z := Z.quot (Qnum q) (Zpos (Qden q)).

(** [int(x)] for a float or a Decimal. *)
Definition py_int_of_number (x : number) : result Z :=
  match x with
  | Fin q => Ok (Qtrunc q)
  | NaN => Raise (Exc ValueError_ "cannot convert NaN to integer")
  | Inf _ => Raise (Exc OverflowError_ "cannot convert infinity to integer")
  end.

(** [abs(x)] *)
Definition number_abs (x : number) : number :=
  match x with
  | Fin q => Fin (Qabs q)
  | NaN => NaN
  | Inf _ => Inf false
  end.

(** [n / d] for an int [n] and a Decimal [d]: division by zero signals
    [decimal.DivisionByZero], a [ZeroDivisionError]. *)
Definition decimal_rdiv (n : Z) (d : number) : result number :=
  match d with
  | Fin q =>
      if Qeq_bool q 0 then
        if n =? 0
        then Raise (Exc InvalidOperation_ "[<class 'decimal.DivisionUndefined'>]")
        else Raise (Exc ZeroDivisionError_ "[<class 'decimal.DivisionByZero'>]")
      else Ok (Fin (Qred (inject_Z n / q)))
  | NaN => Ok NaN
  | Inf _ => Ok (Fin 0)
  end.

(** [try: body except (c1, ..., cn): handler] *)
Definition try_except {A : Type} (body : result A) (classes : list exc_class)
    (handler : result A) : result A :=
  match body with
  | Ok a => Ok a
  | Raise e =>
      if existsb (issubclass (exc_cls e)) classes then handler else Raise e
  end.

(* ===================================================================== *)
(** ** Python's datetime, as far as the sources use it                    *)
(* ===================================================================== *)

Module Datetime.

(** A time-zone aware [datetime]: the proleptic Gregorian ordinal of its
    date ([date.toordinal()], day 1 is 0001-01-01), the second of the day
    and the UTC offset in seconds. *)
Record datetime : Type := {
  ordinal : Z;
  second_of_day : Z;
  utcoffset : Z
}.

Definition MAXORDINAL : Z := 3652059.   (* date(9999, 12, 31).toordinal() *)

Definition is_leap (year : Z) : bool :=
  (year mod 4 =? 0) && (negb (year mod 100 =? 0) || (year mod 400 =? 0)).

Definition days_before_year (year : Z) : Z :=
  let y := year - 1 in y * 365 + y / 4 - y / 100 + y / 400.

Definition days_in_month (year month : Z) : Z :=
  if month =? 2 then (if is_leap year then 29 else 28)
  else if (month =? 4) || (month =? 6) || (month =? 9) || (month =? 11) then 30
  else 31.

Fixpoint days_before_month_upto (year : Z) (months : nat) : Z :=
  match months with
  | O => 0
  | S k => days_before_month_upto year k + days_in_month year (Z.of_nat (S k))
  end.

Definition days_before_month (year month : Z) : Z :=
  days_before_month_upto year (Z.to_nat (month - 1)).

Definition ymd2ord (year month day : Z) : Z :=
  days_before_year year + days_before_month year month + day.

(** One or two digits, the longer match first. *)
Definition take_upto2 (s : string) : option (Z * string) :=
  match s with
  | String c1 r1 =>
      match digit_of c1 with
      | Some d1 =>
          match r1 with
          | String c2 r2 =>
              match digit_of c2 with
              | Some d2 => Some (10 * d1 + d2, r2)
              | None => Some (d1, r1)
              end
          | EmptyString => Some (d1, r1)
          end
      | None => None
      end
  | EmptyString => None
  end.

(** The directive [%d]: as [take_upto2], or a blank and a digit from 1. *)
Definition take_day (s : string) : option (Z * string) :=
  match s with
  | String " " (String c rest) =>
      match digit_of c with
      | Some d => if 1 <=? d then Some (d, rest) else None
      | None => None
      end
  | _ => take_upto2 s
  end.

(** Exactly two digits. *)
Definition take2 (s : string) : option (Z * string) :=
  match s with
  | String c1 (String c2 rest) =>
      match digit_of c1, digit_of c2 with
      | Some d1, Some d2 => Some (10 * d1 + d2, rest)
      | _, _ => None
      end
  | _ => None
  end.

(** Exactly four digits. *)
Definition take4 (s : string) : option (Z * string) :=
  match take2 s with
  | Some (hi, rest) =>
      match take2 rest with
      | Some (lo, rest') => Some (100 * hi + lo, rest')
      | None => None
      end
  | None => None
  end.

(** A literal character of the format; matching ignores letter case. *)
Definition expect (c : ascii) (s : string) : option string :=
  match s with
  | String c' rest => if Ascii.eqb (lower c') (lower c) then Some rest else None
  | EmptyString => None
  end.

Definition skip_colon (s : string) : string :=
  match s with
  | String ":" rest => rest
  | _ => s
  end.

(** The directive [%z]: [Z], or a sign, two digits of hours, an optional
    colon, two digits of minutes and optionally two digits of seconds; the
    value is the offset in seconds and nothing may follow. *)
Definition parse_zone (s : string) : option Z :=
  match s with
  | String "Z" EmptyString => Some 0
  | String sign rest =>
      if Ascii.eqb sign "+" || Ascii.eqb sign "-" then
        match take2 rest with
        | Some (hh, after_hh) =>
            match take2 (skip_colon after_hh) with
            | Some (mm, after_mm) =>
                let finish (ss : Z) :=
                  let total := hh * 3600 + mm * 60 + ss in
                  if (mm <? 60) && (ss <? 60) && (total <? 86400)
                  then Some (if Ascii.eqb sign "-" then - total else total)
                  else None in
                match after_mm with
                | EmptyString => finish 0
                | _ =>
                    match take2 (skip_colon after_mm) with
                    | Some (ss, EmptyString) => finish ss
                    | _ => None
                    end
                end
            | None => None
            end
        | None => None
        end
      else None
  | EmptyString => None
  end.

Definition option_bind {A B : Type} (o : option A) (k : A -> option B) : option B :=
  match o with
  | Some a => k a
  | None => None
  end.

(** The fields of a string in the format ["%Y-%m-%dT%H:%M:%S%z"]: a
    four-digit year, then month, day, hour, minute and second of one or two
    digits each, then the zone.  (Fractional seconds in the offset, which
    [strptime] also takes, are not covered.) *)
Definition parse_iso (s : string) : option datetime :=
  option_bind (take4 s) (fun '(year, s1) =>
  option_bind (expect "-" s1) (fun s2 =>
  option_bind (take_upto2 s2) (fun '(month, s3) =>
  option_bind (expect "-" s3) (fun s4 =>
  option_bind (take_day s4) (fun '(day, s5) =>
  option_bind (expect "T" s5) (fun s6 =>
  option_bind (take_upto2 s6) (fun '(hour, s7) =>
  option_bind (expect ":" s7) (fun s8 =>
  option_bind (take_upto2 s8) (fun '(minute, s9) =>
  option_bind (expect ":" s9) (fun s10 =>
  option_bind (take_upto2 s10) (fun '(sec, s11) =>
  option_bind (parse_zone s11) (fun offset =>
    if (1 <=? year) && (1 <=? month) && (month <=? 12)
       && (1 <=? day) && (day <=? days_in_month year month)
       && (hour <=? 23) && (minute <=? 59) && (sec <=? 59)
    then Some {| ordinal := ymd2ord year month day;
                 second_of_day := hour * 3600 + minute * 60 + sec;
                 utcoffset := offset |}
    else None)))))))))))).

(** [datetime.datetime.strptime(value, "%Y-%m-%dT%H:%M:%S%z")] *)
Definition strptime (value : pyval) : result datetime :=
  match value with
  | VStr s =>
      match parse_iso s with
      | Some dt => Ok dt
      | None =>
          Raise (Exc ValueError_
                   ("time data '" ++ s ++ "' does not match format '%Y-%m-%dT%H:%M:%S%z'"))
      end
  | other =>
      Raise (Exc TypeError_
               ("strptime() argument 1 must be str, not " ++ type_name other))
  end.

(** [dt + datetime.timedelta(days=n)] *)
Definition add_days (dt : datetime) (n : Z) : result datetime :=
  let o := ordinal dt + n in
  if (0 <? o) && (o <=? MAXORDINAL)
  then Ok {| ordinal := o;
             second_of_day := second_of_day dt;
             utcoffset := utcoffset dt |}
  else Raise (Exc OverflowError_ "date value out of range").

(** Seconds between 0001-01-01T00:00:00 UTC (ordinal 1) and the instant the
    datetime denotes; aware datetimes are ordered by this value. *)
Definition utc_instant (dt : datetime) : Z :=
  (ordinal dt - 1) * 86400 + second_of_day dt - utcoffset dt.

Definition le (a b : datetime) : bool := utc_instant a <=? utc_instant b.

End Datetime.

(* ===================================================================== *)
(** ** The promotion model of mishipay_items                              *)
(* ===================================================================== *)

(** The enumerations of [mishipay_items.mpay_promo_enums] and the classes
    [Promotion], [Group] and [Node] of [mishipay_items.mpay_promo] are
    declared outside this application.  The sources only store and compare
    enumeration members, so each enumeration is an inductive type with the
    members the sources name, and the classes are records of the
    attributes the sources assign. *)
Inductive DiscountType : Type :=
  | PERCENT_OFF
  | VALUE_OFF
  | OTHER_DISCOUNT_TYPE (value : string).

Inductive PromoFamily : Type :=
  | EASY
  | BASKET_THRESHOLD
  | REQUISITE_GROUPS_WITH_DISCOUNTED_TARGET.

Inductive Availability : Type := AVAILABILITY_ALL | AVAILABILITY_SPECIAL.
Inductive DiscountOn : Type := FP | MRP.
Inductive DiscountTypeStrategy : Type := ALL_ITEMS | EACH_ITEM.
Inductive GroupItemSelectionCriteria : Type := LEAST_EXPENSIVE | MOST_EXPENSIVE.
Inductive PromoEvaluateCriteria : Type := PRIORITY.
Inductive NodeType : Type := ITEM.
Inductive ApplicationType : Type := BASKET.

Record Node : Type := {
  node_type : NodeType;
  node_id : pyval
}.

Record Group : Type := {
  group_name : string;
  qty_or_value_min : pyval;
  qty_or_value_max : pyval;
  nodes : list Node
}.

(* ===================================================================== *)
(** ** services/promotion_sync.py: dates and priority                     *)
(* ===================================================================== *)

Module PromotionSync.

Definition DEFAULT_END_DATE : string := "2050-01-01T16:39:39+10:00".

(** [return datetime.datetime.strptime(start_date, "%Y-%m-%dT%H:%M:%S%z")] *)
Definition get_start_datetime (start_date : pyval) : result Datetime.datetime :=
  Datetime.strptime start_date.

(** [if end_date is None: end_date = DEFAULT_END_DATE], then parse and
    [date_time += datetime.timedelta(days=1)]. *)
Definition get_end_datetime (end_date : pyval) : result Datetime.datetime :=
  let end_date := match end_date with
                  | VNone => VStr DEFAULT_END_DATE
                  | given => given
                  end in
  date_time <- Datetime.strptime end_date ;;
  Datetime.add_days date_time 1.

(** [current_date = datetime.datetime.now(datetime.timezone.utc)], read from
    the clock, then [start_date <= current_date <= end_date]. *)
Definition is_promotion_active (current_date start_date end_date : Datetime.datetime)
  : bool :=
  Datetime.le start_date current_date && Datetime.le current_date end_date.

(** [compute_evaluate_priority]: the [try] covers all three branches and
    the handler catches [ZeroDivisionError] and [decimal.InvalidOperation]
    only. *)
Definition compute_evaluate_priority (discount_type : DiscountType)
    (discount_value : pyval) : result Z :=
  try_except
    (match discount_type with
     | PERCENT_OFF =>
         x <- py_float discount_value ;;
         n <- py_int_of_number x ;;
         Ok (Z.max 0 (100 - n))
     | VALUE_OFF =>
         d <- py_decimal discount_value ;;
         quotient <- decimal_rdiv 10000 d ;;
         py_int_of_number quotient
     | OTHER_DISCOUNT_TYPE _ =>
         d <- py_decimal discount_value ;;
         quotient <- decimal_rdiv 10000 d ;;
         py_int_of_number quotient
     end)
    [ZeroDivisionError_; InvalidOperation_]
    (Ok 32767).

End PromotionSync.

(* ===================================================================== *)
(** ** The outside world of the SKU resolver                              *)
(* ===================================================================== *)

(** What one call of [requests.get] produces: an HTTP response, with its
    status code and what [response.json()] gives, or an exception raised
    by the transport. *)
Inductive net_event : Type :=
  | Response (status_code : Z) (json : result pyval)
  | Transport (e : pyexc).

(** The effects the resolver issues, in order. *)
Inductive effect : Type :=
  | Get (url : string)                  (* requests.get(url, ...) *)
  | Sleep (seconds : Q)                 (* time.sleep(seconds) *)
  | Alert (message channel : string).   (* send_slack_message(message, channel) *)

(** [pending] are the answers the network will give, one per request, in
    the order the requests are made; [trace] are the effects so far;
    [env_type] is [django_settings.ENV_TYPE] and [now] what the clock
    shows. *)
Record world : Type := {
  env_type : string;
  now : Datetime.datetime;
  pending : list net_event;
  trace : list effect
}.

Definition emit (w : world) (effects : list effect) : world :=
  {| env_type := env_type w; now := now w;
     pending := pending w; trace := trace w ++ effects |}.

Definition with_pending (w : world) (events : list net_event) : world :=
  {| env_type := env_type w; now := now w;
     pending := events; trace := trace w |}.

(** How a call that uses the network ends: it returns or raises, or it
    waits for an answer that never comes ([NoAnswer], the list of answers
    is used up), or the model's iteration bound was too small
    ([OutOfFuel]). *)
Inductive outcome (A : Type) : Type :=
  | Done (r : result A)
  | NoAnswer
  | OutOfFuel.
Arguments Done {A} r.
Arguments NoAnswer {A}.
Arguments OutOfFuel {A}.

(** The [promotion_settings] dictionary, whose four keys
    [build_promotion_settings_from_config] always sets. *)
Record promotion_settings : Type := {
  access_token : string;
  products_in_collection_fetch_endpoint : string;
  products_sku_fetch_endpoint : string;
  variants_sku_fetch_endpoint : string
}.

Module Resolver.

Definition RETRY_DELAY : Q := 2.5.

Definition ALERT_CHANNEL : string := "#alerts_client_data".

(** [send_slack_message(f'[{django_settings.ENV_TYPE}]: ' + error, "#alerts_client_data")] *)
Definition alert (w : world) (error : string) : effect :=
  Alert ("[" ++ env_type w ++ "]: " ++ error) ALERT_CHANNEL.

(** [except Exception as e:] of the three resolvers: alert, then
    [raise Exception(error)] with [error] ending in [str(e)]. *)
Definition wrap_error (prefix : string) (e : pyexc) : pyexc :=
  Exc Exception_ (prefix ++ exc_msg e).

Definition SKU_ERROR : string :=
  "error in standard shopify promotion import while fetching skus in products - ".

Definition COLLECTION_ERROR : string :=
  "error in standard shopify promotion import while fetching products in collection - ".

(** [for variant in product.get("variants", []): if variant.get("barcode",
    None): skus["skus"].append(variant.get("barcode"))] *)
Fixpoint collect_barcodes (variants : list pyval) (skus : list pyval)
  : result (list pyval) :=
  match variants with
  | [] => Ok skus
  | variant :: rest =>
      barcode <- py_get_default variant "barcode" VNone ;;
      if truthy barcode
      then (barcode' <- py_get variant "barcode" ;;
            collect_barcodes rest (skus ++ [barcode']))
      else collect_barcodes rest skus
  end.

(** The statements of [get_products_sku] after the two status tests. *)
Definition product_barcodes (json : result pyval) (skus : list pyval)
  : result (list pyval) :=
  response_dict <- json ;;
  product <- py_get response_dict "product" ;;
  variants <- py_get_default product "variants" (VList []) ;;
  variant_list <- py_iter variants ;;
  collect_barcodes variant_list skus.

(** The [while product_ids:] loop of [get_products_sku].  [product_ids] is
    the caller's list, which the loop pops from the front; [skus] is
    [skus["skus"]].  Every iteration makes one request, so the loop
    descends on the answers. *)
Fixpoint get_products_sku_loop (url_base : string) (answers : list net_event)
    (w : world) (product_ids skus : list pyval) {struct answers}
  : outcome (list pyval) * world :=
  match product_ids with
  | [] => (Done (Ok skus), with_pending w answers)
  | product_id :: rest =>
      let url := url_base ++ "/" ++ py_str product_id ++ ".json" in
      let w := emit w [Get url] in
      match answers with
      | [] => (NoAnswer, with_pending w [])
      | Transport e :: answers' =>
          let error := wrap_error SKU_ERROR e in
          (Done (Raise error),
           with_pending (emit w [alert w (exc_msg error)]) answers')
      | Response status_code json :: answers' =>
          if status_code =? 429 then
            get_products_sku_loop url_base answers'
              (emit w [Sleep RETRY_DELAY]) (product_id :: rest) skus
          else if negb (status_code =? 200) then
            let error := " - get_products_sku status code - " ++ str_of_int status_code in
            get_products_sku_loop url_base answers'
              (emit w [alert w error]) rest skus
          else
            match product_barcodes json skus with
            | Ok skus' => get_products_sku_loop url_base answers' w rest skus'
            | Raise e =>
                let error := wrap_error SKU_ERROR e in
                (Done (Raise error),
                 with_pending (emit w [alert w (exc_msg error)]) answers')
            end
      end
  end.

(** [get_products_sku(product_ids, promotion_settings)]; the result is the
    list under the key ["skus"] of the dictionary returned. *)
Definition get_products_sku (product_ids : list pyval)
    (settings : promotion_settings) (w : world) : outcome (list pyval) * world :=
  get_products_sku_loop (products_sku_fetch_endpoint settings) (pending w) w
    product_ids [].

(** The [else] branch of [get_sku_from_variants]: the barcode is appended
    as it is. *)
Definition variant_barcode (json : result pyval) (skus : list pyval)
  : result (list pyval) :=
  response_dict <- json ;;
  variant <- py_get response_dict "variant" ;;
  barcode <- py_get_default variant "barcode" VNone ;;
  Ok (skus ++ [barcode])%list.

(** The [while variant_ids:] loop of [get_sku_from_variants]. *)
Fixpoint get_sku_from_variants_loop (base_url : string) (answers : list net_event)
    (w : world) (variant_ids skus : list pyval) {struct answers}
  : outcome (list pyval) * world :=
  match variant_ids with
  | [] => (Done (Ok skus), with_pending w answers)
  | variant_id :: rest =>
      let url := base_url ++ "/" ++ py_str variant_id ++ ".json" in
      let w := emit w [Get url] in
      match answers with
      | [] => (NoAnswer, with_pending w [])
      | Transport e :: answers' =>
          let error := wrap_error COLLECTION_ERROR e in
          (Done (Raise error),
           with_pending (emit w [alert w (exc_msg error)]) answers')
      | Response status_code json :: answers' =>
          if status_code =? 429 then
            get_sku_from_variants_loop base_url answers'
              (emit w [Sleep RETRY_DELAY]) (variant_id :: rest) skus
          else if negb (status_code =? 200) then
            let error := " - get_sku_from_variants status code - " ++ str_of_int status_code in
            get_sku_from_variants_loop base_url answers'
              (emit w [alert w error]) rest skus
          else
            match variant_barcode json skus with
            | Ok skus' => get_sku_from_variants_loop base_url answers' w rest skus'
            | Raise e =>
                let error := wrap_error COLLECTION_ERROR e in
                (Done (Raise error),
                 with_pending (emit w [alert w (exc_msg error)]) answers')
            end
      end
  end.

Definition get_sku_from_variants (variant_ids : list pyval)
    (settings : promotion_settings) (w : world) : outcome (list pyval) * world :=
  get_sku_from_variants_loop (variants_sku_fetch_endpoint settings) (pending w) w
    variant_ids [].

(** [for product in response_dict.get("products", []):
        product_ids["product_id"].append(product.get("id"))] *)
Fixpoint collect_product_ids (products : list pyval) (product_ids : list pyval)
  : result (list pyval) :=
  match products with
  | [] => Ok product_ids
  | product :: rest =>
      id <- py_get product "id" ;;
      collect_product_ids rest (product_ids ++ [id])
  end.

Definition collection_product_ids (json : result pyval) (product_ids : list pyval)
  : result (list pyval) :=
  response_dict <- json ;;
  products <- py_get_default response_dict "products" (VList []) ;;
  product_list <- py_iter products ;;
  collect_product_ids product_list product_ids.

(** The [while collection_ids:] loop of [get_products_from_collections].
    [product_ids] is [product_ids["product_id"]], the list handed to
    [get_products_sku], which pops it empty before it returns: after a
    successful inner call the loop goes on with the empty list.  The inner
    call uses up some of the answers, so the loop is bounded by [fuel]. *)
Fixpoint get_products_from_collections_loop (fuel : nat)
    (settings : promotion_settings) (w : world)
    (collection_ids product_ids skus : list pyval) {struct fuel}
  : outcome (list pyval) * world :=
  match fuel with
  | O => (OutOfFuel, w)
  | S fuel' =>
      match collection_ids with
      | [] => (Done (Ok skus), w)
      | collection_id :: rest =>
          let url := products_in_collection_fetch_endpoint settings
                       ++ "/" ++ py_str collection_id ++ "/products.json" in
          let w := emit w [Get url] in
          let fail (e : pyexc) (w' : world) :=
            let error := wrap_error COLLECTION_ERROR e in
            (Done (Raise error), emit w' [alert w' (exc_msg error)]) in
          match pending w with
          | [] => (NoAnswer, w)
          | Transport e :: answers' => fail e (with_pending w answers')
          | Response status_code json :: answers' =>
              let w := with_pending w answers' in
              if status_code =? 429 then
                get_products_from_collections_loop fuel' settings
                  (emit w [Sleep RETRY_DELAY]) (collection_id :: rest)
                  product_ids skus
              else if negb (status_code =? 200) then
                let error := " - get_products_from_collections status code - "
                               ++ str_of_int status_code in
                get_products_from_collections_loop fuel' settings
                  (emit w [alert w error]) rest product_ids skus
              else
                match collection_product_ids json product_ids with
                | Raise e => fail e w
                | Ok product_ids' =>
                    match get_products_sku product_ids' settings w with
                    | (Done (Ok product_sku), w') =>
                        get_products_from_collections_loop fuel' settings w'
                          rest [] (skus ++ map (fun item_sku => VStr (py_str item_sku)) product_sku)
                    | (Done (Raise e), w') => fail e w'
                    | (NoAnswer, w') => (NoAnswer, w')
                    | (OutOfFuel, w') => (OutOfFuel, w')
                    end
                end
          end
      end
  end.

(** Each iteration uses up at least one answer, so one more iteration than
    there are answers is enough. *)
Definition get_products_from_collections (collection_ids : list pyval)
    (settings : promotion_settings) (w : world) : outcome (list pyval) * world :=
  get_products_from_collections_loop (S (List.length (pending w))) settings w
    collection_ids [] [].

End Resolver.

(* ===================================================================== *)
(** ** services/promotion_sync.py: descriptors and the Easy builder       *)
(* ===================================================================== *)

(** [models.ShopifyWebhookConfig], one row per store. *)
Record ShopifyWebhookConfig : Type := {
  store_id : string;
  retailer_id : string;
  shopify_domain : string;
  api_access_token : string;
  webhook_secret : string;
  api_version : string;
  sync_inventory : bool;
  sync_promotions : bool;
  sync_orders_to_shopify : bool;
  extra_data : pyval;
  is_active : bool
}.

(** The attributes [build_easy_promotion] sets on a [mpay_promo.Promotion]. *)
Record Promotion : Type := {
  retailer : pyval;
  stores : list string;
  promo_id : string;
  family : PromoFamily;
  layer : pyval;
  date_start : Datetime.datetime;
  date_end : Datetime.datetime;
  availability : Availability;
  discount_value_on : DiscountOn;
  max_application_limit : Z;
  discount_type_strategy : DiscountTypeStrategy;
  discounted_group_item_selection_criteria : GroupItemSelectionCriteria;
  evaluate_criteria : PromoEvaluateCriteria;
  promo_is_active : bool;
  title : pyval;
  description : pyval;
  discount_type : DiscountType;
  discount_value : pyval;
  evaluate_priority : Z;
  groups : list Group
}.

(** Modelled from the spec: [get_rounded_value] of
    [mishipay_core.common_functions] is not part of these sources; the
    specification says that discount magnitudes "are parsed as decimals and
    rounded to two fractional digits".  Ties go to the even neighbour, the
    default of Python's decimal arithmetic. *)
Definition round_half_even (q : Q) : Z :=
  let f := Qfloor q in
  let twice := Qfloor (q * 2) in          (* 2f or 2f+1: which half q is in *)
  if twice =? 2 * f then
    f
  else if Qeq_bool q (inject_Z (2 * f + 1) / 2) then
    (if Z.even f then f else f + 1)
  else f + 1.

Definition get_rounded_value (value : number) (digits : Z) : pyval :=
  match value with
  | Fin q =>
      let unit := 10 ^ digits in
      VDecimal (Fin (Qred (inject_Z (round_half_even (q * inject_Z unit)) / inject_Z unit)))
  | other => VDecimal other
  end.

Module Builder.

(** [extract_id] applied to a value taken out of a payload: [split] is a
    method of strings. *)
Definition extract_id (gid_string : pyval) : result pyval :=
  match gid_string with
  | VStr s => id <- Gid.extract_id s ;; Ok (VStr id)
  | other => Raise (attribute_error other "split")
  end.

(** [build_promotion_settings_from_config] *)
Definition build_promotion_settings_from_config (config : ShopifyWebhookConfig)
  : promotion_settings :=
  let base_url := "https://" ++ shopify_domain config ++ "/admin/api/"
                    ++ api_version config in
  {| access_token := api_access_token config;
     products_in_collection_fetch_endpoint := base_url ++ "/collections";
     products_sku_fetch_endpoint := base_url ++ "/products";
     variants_sku_fetch_endpoint := base_url ++ "/variants" |}.

(** A call that fails before it reaches the network. *)
Definition failed {A : Type} (e : pyexc) (w : world) : outcome A * world :=
  (Done (Raise e), w).

(** [resolve_entitled_skus]: the three [price_rule.get(...)] tests in the
    order of the [if]/[elif] chain; the list handed on is a copy. *)
Definition resolve_entitled_skus (price_rule : pyval)
    (settings : promotion_settings) (w : world) : outcome (list pyval) * world :=
  match py_get price_rule "entitled_product_ids" with
  | Raise e => failed e w
  | Ok products =>
      if truthy products then
        match py_iter products with
        | Raise e => failed e w
        | Ok product_ids => Resolver.get_products_sku product_ids settings w
        end
      else
        match py_get price_rule "entitled_variant_ids" with
        | Raise e => failed e w
        | Ok variants =>
            if truthy variants then
              match py_iter variants with
              | Raise e => failed e w
              | Ok variant_ids => Resolver.get_sku_from_variants variant_ids settings w
              end
            else
              match py_get price_rule "entitled_collection_ids" with
              | Raise e => failed e w
              | Ok collections =>
                  if truthy collections then
                    match py_iter collections with
                    | Raise e => failed e w
                    | Ok collection_ids =>
                        Resolver.get_products_from_collections collection_ids settings w
                    end
                  else
                    failed (Exc ValueError_
                      "Price rule has no entitled items (products, variants, or collections)") w
              end
        end
  end.

(** [edge.get("edges", []) if edge else []] *)
Definition edges_of (edge : pyval) : result pyval :=
  if truthy edge then py_get_default edge "edges" (VList []) else Ok (VList []).

(** [[extract_id(c["node"]["id"]) for c in edges]] *)
Fixpoint node_ids (edges : list pyval) : result (list pyval) :=
  match edges with
  | [] => Ok []
  | c :: rest =>
      node <- py_item c "node" ;;
      gid <- py_item node "id" ;;
      id <- extract_id gid ;;
      ids <- node_ids rest ;;
      Ok (id :: ids)
  end.

Definition ids_of_edges (edges : pyval) : result (list pyval) :=
  edge_list <- py_iter edges ;;
  node_ids edge_list.

(** The first six statements of [resolve_skus_from_edges]: the edge lists
    [collections], [products] and [variants]. *)
Definition read_edges (customer_data_items : pyval)
  : result (pyval * pyval * pyval) :=
  collections_edge <- py_get customer_data_items "collections" ;;
  products_edge <- py_get customer_data_items "products" ;;
  variants_edge <- py_get customer_data_items "productVariants" ;;
  collections <- edges_of collections_edge ;;
  products <- edges_of products_edge ;;
  variants <- edges_of variants_edge ;;
  Ok (collections, products, variants).

(** [resolve_skus_from_edges]: the three edge lists are read first, then
    tested in the order collections, products, productVariants. *)
Definition resolve_skus_from_edges (customer_data_items : pyval)
    (settings : promotion_settings) (w : world) : outcome (list pyval) * world :=
  match read_edges customer_data_items with
  | Raise e => failed e w
  | Ok (collections, products, variants) =>
      if truthy collections then
        match ids_of_edges collections with
        | Raise e => failed e w
        | Ok collection_ids =>
            Resolver.get_products_from_collections collection_ids settings w
        end
      else if truthy products then
        match ids_of_edges products with
        | Raise e => failed e w
        | Ok product_ids => Resolver.get_products_sku product_ids settings w
        end
      else if truthy variants then
        match ids_of_edges variants with
        | Raise e => failed e w
        | Ok variant_ids => Resolver.get_sku_from_variants variant_ids settings w
        end
      else failed (Exc Exception_ "Promo: entitled/requisite items not found") w
  end.

(** The loop of [build_promo_groups]: [if not sku: continue]. *)
Fixpoint sku_nodes (skus : list pyval) : list Node :=
  match skus with
  | [] => []
  | sku :: rest =>
      if truthy sku
      then {| node_type := ITEM; node_id := sku |} :: sku_nodes rest
      else sku_nodes rest
  end.

(** [build_promo_groups(promo_id, resolved_skus, *, qty_or_value_min=1)];
    [resolved_skus] is the list under ["skus"]. *)
Definition build_promo_groups (promo_id : pyval) (resolved_skus : list pyval)
    (qty_or_value_min : pyval) : list Group :=
  [ {| group_name := py_str promo_id;
       qty_or_value_min := qty_or_value_min;
       qty_or_value_max := VNone;
       nodes := sku_nodes resolved_skus |} ].

(** The part of [build_easy_promotion] before SKU resolution: everything
    the promotion holds except its groups. *)
Definition build_easy_promotion_head (price_rule : pyval)
    (config : ShopifyWebhookConfig) (current_date : Datetime.datetime)
  : result (list Group -> Promotion) :=
  promo_retailer <- py_get_default (extra_data config) "promo_retailer"
                      (VStr (store_id config)) ;;
  id <- py_item price_rule "id" ;;
  starts_at <- py_item price_rule "starts_at" ;;
  start <- PromotionSync.get_start_datetime starts_at ;;
  ends_at <- py_get price_rule "ends_at" ;;
  finish <- PromotionSync.get_end_datetime ends_at ;;
  once_per_customer <- py_get price_rule "once_per_customer" ;;
  allocation_method <- py_get price_rule "allocation_method" ;;
  rule_title <- py_get_default price_rule "title" (VStr "") ;;
  rule_description <- py_get_default price_rule "title" (VStr "") ;;
  value <- py_item price_rule "value" ;;
  float_value <- py_float value ;;
  let magnitude := number_abs float_value in
  value_type <- py_item price_rule "value_type" ;;
  kind <- match value_type with
          | VStr "percentage" => Ok PERCENT_OFF
          | VStr "fixed_amount" => Ok VALUE_OFF
          | other =>
              Raise (Exc ValueError_ ("Unknown discount value_type: " ++ py_str other))
          end ;;
  let rounded := get_rounded_value magnitude 2 in
  priority <- PromotionSync.compute_evaluate_priority kind rounded ;;
  Ok (fun groups =>
        {| retailer := promo_retailer;
           stores := [store_id config];
           promo_id := py_str id;
           family := EASY;
           layer := VStr "1";
           date_start := start;
           date_end := finish;
           availability := AVAILABILITY_ALL;
           discount_value_on := FP;
           max_application_limit := if truthy once_per_customer then 1 else 65535;
           discount_type_strategy :=
             match allocation_method with
             | VStr "across" => ALL_ITEMS
             | VStr "each" => EACH_ITEM
             | _ => ALL_ITEMS
             end;
           discounted_group_item_selection_criteria := LEAST_EXPENSIVE;
           evaluate_criteria := PRIORITY;
           promo_is_active :=
             PromotionSync.is_promotion_active current_date start finish;
           title := rule_title;
           description := rule_description;
           discount_type := kind;
           discount_value := rounded;
           evaluate_priority := priority;
           groups := groups |}).

(** [build_easy_promotion(price_rule, config)] *)
Definition build_easy_promotion (price_rule : pyval)
    (config : ShopifyWebhookConfig) (w : world) : outcome Promotion * world :=
  let settings := build_promotion_settings_from_config config in
  match build_easy_promotion_head price_rule config (now w) with
  | Raise e => failed e w
  | Ok promo =>
      match resolve_entitled_skus price_rule settings w with
      | (Done (Ok resolved_skus), w') =>
          match py_item price_rule "id" with
          | Ok id => (Done (Ok (promo (build_promo_groups id resolved_skus (VInt 1)))), w')
          | Raise e => failed e w'
          end
      | (Done (Raise e), w') => failed e w'
      | (NoAnswer, w') => (NoAnswer, w')
      | (OutOfFuel, w') => (OutOfFuel, w')
      end
  end.

End Builder.

(* ===================================================================== *)
(** ** hashlib.sha256, hmac and base64                                    *)
(* ===================================================================== *)

(** Bytes are integers in 0..255, words integers in 0..2^32-1; the
    arithmetic of SHA-256 (FIPS 180-4) is written out modulo 2^32. *)
Module SHA256.

Definition mask32 : Z := 4294967295.

Definition add32 (a b : Z) : Z := Z.land (a + b) mask32.

Definition rotr (n x : Z) : Z :=
  Z.land (Z.lor (Z.shiftr x n) (Z.shiftl x (32 - n))) mask32.

Definition not32 (x : Z) : Z := Z.lxor x mask32.

Definition Ch (x y z : Z) : Z := Z.lxor (Z.land x y) (Z.land (not32 x) z).
Definition Maj (x y z : Z) : Z :=
  Z.lxor (Z.lxor (Z.land x y) (Z.land x z)) (Z.land y z).
Definition Sigma0 (x : Z) : Z := Z.lxor (Z.lxor (rotr 2 x) (rotr 13 x)) (rotr 22 x).
Definition Sigma1 (x : Z) : Z := Z.lxor (Z.lxor (rotr 6 x) (rotr 11 x)) (rotr 25 x).
Definition sigma0 (x : Z) : Z := Z.lxor (Z.lxor (rotr 7 x) (rotr 18 x)) (Z.shiftr x 3).
Definition sigma1 (x : Z) : Z := Z.lxor (Z.lxor (rotr 17 x) (rotr 19 x)) (Z.shiftr x 10).

(** The first sixty-four primes. *)
Definition primes : list Z :=
  [ 2; 3; 5; 7; 11; 13; 17; 19; 23; 29; 31; 37; 41; 43; 47; 53;
    59; 61; 67; 71; 73; 79; 83; 89; 97; 101; 103; 107; 109; 113; 127; 131;
    137; 139; 149; 151; 157; 163; 167; 173; 179; 181; 191; 193; 197; 199; 211; 223;
    227; 229; 233; 239; 241; 251; 257; 263; 269; 271; 277; 281; 283; 293; 307; 311 ].

(** The integer cube root of a number below 2^108, found bit by bit. *)
Definition cube_root (n : Z) : Z :=
  fold_left (fun r bit => let c := r + 2 ^ Z.of_nat bit in
                          if c * c * c <=? n then c else r)
            (rev (seq 0 36)) 0.

(** The round constants: the first 32 bits of the fractional parts of the
    cube roots of the first sixty-four primes. *)
Definition K : list Z :=
  map (fun p => Z.land (cube_root (p * 2 ^ 96)) mask32) primes.

(** The initial hash value: the first 32 bits of the fractional parts of
    the square roots of the first eight primes. *)
Definition H0 : list Z :=
  map (fun p => Z.land (Z.sqrt (p * 2 ^ 64)) mask32) (firstn 8 primes).

(** [n] as [count] big-endian bytes. *)
Fixpoint be_bytes (count : nat) (n : Z) : list Z :=
  match count with
  | O => []
  | S k => Z.land (Z.shiftr n (8 * Z.of_nat k)) 255 :: be_bytes k n
  end.

(** The message followed by the bit 1, zeros, and its length in bits as a
    64-bit number, a multiple of 64 bytes in all. *)
Definition pad (msg : list Z) : list Z :=
  let len := Z.of_nat (List.length msg) in
  let zeros := Z.to_nat ((55 - len) mod 64) in
  msg ++ [128] ++ repeat 0 zeros ++ be_bytes 8 (8 * len).

(** Big-endian 32-bit words of a byte string whose length is a multiple of
    four; a shorter tail is dropped. *)
Fixpoint words_of (fuel : nat) (bytes : list Z) : list Z :=
  match fuel, bytes with
  | S k, b0 :: b1 :: b2 :: b3 :: rest =>
      (Z.shiftl b0 24 + Z.shiftl b1 16 + Z.shiftl b2 8 + b3) :: words_of k rest
  | _, _ => []
  end.

(** The message schedule, latest word first: [w_t = sigma1(w_{t-2}) +
    w_{t-7} + sigma0(w_{t-15}) + w_{t-16}]. *)
Fixpoint extend (rounds : nat) (rev_w : list Z) : list Z :=
  match rounds with
  | O => rev_w
  | S k =>
      let w := add32 (add32 (sigma1 (nth 1 rev_w 0)) (nth 6 rev_w 0))
                     (add32 (sigma0 (nth 14 rev_w 0)) (nth 15 rev_w 0)) in
      extend k (w :: rev_w)
  end.

Definition schedule (block_words : list Z) : list Z :=
  rev (extend 48 (rev block_words)).

Record registers : Type := {
  ra : Z; rb : Z; rc : Z; rd : Z; re : Z; rf : Z; rg : Z; rh : Z
}.

Definition round (r : registers) (kw : Z * Z) : registers :=
  let t1 := add32 (add32 (add32 (rh r) (Sigma1 (re r)))
                         (add32 (Ch (re r) (rf r) (rg r)) (fst kw))) (snd kw) in
  let t2 := add32 (Sigma0 (ra r)) (Maj (ra r) (rb r) (rc r)) in
  {| ra := add32 t1 t2; rb := ra r; rc := rb r; rd := rc r;
     re := add32 (rd r) t1; rf := re r; rg := rf r; rh := rg r |}.

Definition registers_of (h : list Z) : registers :=
  {| ra := nth 0 h 0; rb := nth 1 h 0; rc := nth 2 h 0; rd := nth 3 h 0;
     re := nth 4 h 0; rf := nth 5 h 0; rg := nth 6 h 0; rh := nth 7 h 0 |}.

Definition compress (h : list Z) (block_words : list Z) : list Z :=
  let r0 := registers_of h in
  let r := fold_left round (combine K (schedule block_words)) r0 in
  [ add32 (ra r0) (ra r); add32 (rb r0) (rb r); add32 (rc r0) (rc r);
    add32 (rd r0) (rd r); add32 (re r0) (re r); add32 (rf r0) (rf r);
    add32 (rg r0) (rg r); add32 (rh r0) (rh r) ].

(** The words of the padded message, sixteen to a block. *)
Fixpoint blocks (fuel : nat) (h : list Z) (words : list Z) : list Z :=
  match fuel with
  | O => h
  | S k =>
      match words with
      | [] => h
      | _ => blocks k (compress h (firstn 16 words)) (skipn 16 words)
      end
  end.

(** [hashlib.sha256(msg).digest()] *)
Definition digest (msg : list Z) : list Z :=
  let padded := pad msg in
  let words := words_of (List.length padded) padded in
  flat_map (be_bytes 4) (blocks (List.length words) H0 words).

End SHA256.

Module Codec.

Definition hex_digit (n : Z) : ascii :=
  if n <? 10 then ascii_of_nat (Z.to_nat (48 + n))
  else ascii_of_nat (Z.to_nat (87 + n)).

(** [bytes.hex()], as [hexdigest()] gives it. *)
Fixpoint hex (bytes : list Z) : string :=
  match bytes with
  | [] => EmptyString
  | b :: rest => String (hex_digit (b / 16)) (String (hex_digit (b mod 16)) (hex rest))
  end.

(** The bytes of a [str] whose characters are ASCII. *)
Fixpoint ascii_bytes (s : string) : list Z :=
  match s with
  | EmptyString => []
  | String c rest => Z.of_nat (nat_of_ascii c) :: ascii_bytes rest
  end.

(** [s.encode("utf-8")] for the code points 0..255 a [string] holds: one
    byte below 128, two bytes from 128. *)
Fixpoint utf8_encode (s : string) : list Z :=
  match s with
  | EmptyString => []
  | String c rest =>
      let n := Z.of_nat (nat_of_ascii c) in
      if n <? 128 then n :: utf8_encode rest
      else (192 + n / 64) :: (128 + n mod 64) :: utf8_encode rest
  end.

(** The base64 alphabet: [A-Z], [a-z], [0-9], [+], [/]. *)
Definition b64_char (i : Z) : ascii :=
  if i <? 26 then ascii_of_nat (Z.to_nat (65 + i))
  else if i <? 52 then ascii_of_nat (Z.to_nat (71 + i))
  else if i <? 62 then ascii_of_nat (Z.to_nat (i - 4))
  else if i =? 62 then "+"%char
  else "/"%char.

(** [base64.b64encode(bytes).decode("utf-8")] *)
Fixpoint b64encode (bytes : list Z) : string :=
  match bytes with
  | [] => EmptyString
  | [a] =>
      String (b64_char (a / 4))
     (String (b64_char ((a mod 4) * 16))
     (String "=" (String "=" EmptyString)))
  | [a; b] =>
      String (b64_char (a / 4))
     (String (b64_char ((a mod 4) * 16 + b / 16))
     (String (b64_char ((b mod 16) * 4))
     (String "=" EmptyString)))
  | a :: b :: c :: rest =>
      String (b64_char (a / 4))
     (String (b64_char ((a mod 4) * 16 + b / 16))
     (String (b64_char ((b mod 16) * 4 + c / 64))
     (String (b64_char (c mod 64))
     (b64encode rest))))
  end.

End Codec.

Module HMAC.

Definition BLOCK_SIZE : nat := 64.

(** The key block: a key longer than a block is hashed first, then the key
    is filled up with zero bytes to the block size. *)
Definition key_block (key : list Z) : list Z :=
  let key := if (BLOCK_SIZE <? List.length key)%nat then SHA256.digest key else key in
  key ++ repeat 0 (BLOCK_SIZE - List.length key).

(** [hmac.new(key, msg, hashlib.sha256).digest()] (RFC 2104). *)
Definition hmac_sha256 (key msg : list Z) : list Z :=
  let block := key_block key in
  let inner := SHA256.digest (map (Z.lxor 54) block ++ msg) in
  SHA256.digest (map (Z.lxor 92) block ++ inner).

Definition is_ascii_char (c : ascii) : bool := (nat_of_ascii c <? 128)%nat.

Fixpoint is_ascii (s : string) : bool :=
  match s with
  | EmptyString => true
  | String c rest => is_ascii_char c && is_ascii rest
  end.

(** [hmac.compare_digest(a, b)] on two [str]: both must be ASCII, and the
    answer is whether they are equal (the time taken is not modelled). *)
Definition compare_digest (a b : string) : result bool :=
  if is_ascii a && is_ascii b then Ok (String.eqb a b)
  else Raise (Exc TypeError_ "comparing strings with non-ASCII characters is not supported").

End HMAC.

(* ===================================================================== *)
(** ** middleware.py                                                      *)
(* ===================================================================== *)

Module Middleware.

(** [verify_shopify_hmac(request_body, hmac_header, secret)] *)
Definition verify_shopify_hmac (request_body : list Z) (hmac_header : string)
    (secret : string) : result bool :=
  let computed :=
    Codec.b64encode (HMAC.hmac_sha256 (Codec.utf8_encode secret) request_body) in
  HMAC.compare_digest computed hmac_header.

End Middleware.

(* ===================================================================== *)
(** ** router.py, models.py and views.py: the intake endpoint             *)
(* ===================================================================== *)

Module Router.

Definition INVENTORY_TOPICS : list string :=
  [ "products/create"; "products/update"; "products/delete";
    "inventory_levels/update" ].

Definition PROMOTION_TOPICS : list string :=
  [ "price_rules/create"; "price_rules/update"; "price_rules/delete";
    "collections/update" ].

Definition ORDER_TOPICS : list string := [ "orders/create" ].

End Router.

Module Views.

(** [WebhookEvent.Status] *)
Inductive Status : Type := RECEIVED | PROCESSING | SUCCESS | FAILED | DUPLICATE.

(** A row of [shopify_webhook_event]; [ev_id] is the primary key. *)
Record WebhookEvent : Type := {
  ev_id : Z;
  ev_webhook_id : string;
  ev_topic : string;
  ev_shop_domain : string;
  ev_store : option string;
  ev_status : Status;
  ev_payload_hash : string;
  ev_error_message : string;
  ev_processing_time_ms : option Z
}.

(** The Dramatiq actors of tasks.py. *)
Inductive actor : Type :=
  | process_shopify_inventory_event
  | process_shopify_promotion_event.

(** A message on the task queue: [actor.send(event.id, payload)]. *)
Record task : Type := {
  task_actor_of : actor;
  task_event_id : Z;
  task_payload : pyval
}.

(** The tables and the queue the view works on. *)
Record database : Type := {
  configs : list ShopifyWebhookConfig;
  events : list WebhookEvent;
  next_event_id : Z;
  queue : list task
}.

(** An inbound request: the header dictionary [META], the raw body and
    what [json.loads] makes of that body. *)
Record request : Type := {
  META : list (string * string);
  body : list Z;
  body_json : result pyval
}.

(** [Response(data, status=...)] *)
Record response : Type := {
  status_code : Z;
  data : pyval
}.

Definition HTTP_200_OK : Z := 200.
Definition HTTP_400_BAD_REQUEST : Z := 400.
Definition HTTP_401_UNAUTHORIZED : Z := 401.
Definition HTTP_404_NOT_FOUND : Z := 404.

(** A view class: its [allowed_topics] and its [task_actor]. *)
Record view : Type := {
  allowed_topics : list string;
  task_actor : option actor
}.

Definition BaseShopifyWebhookView : view :=
  {| allowed_topics := []; task_actor := None |}.

Definition ShopifyInventoryWebhookView : view :=
  {| allowed_topics := Router.INVENTORY_TOPICS;
     task_actor := Some process_shopify_inventory_event |}.

Definition ShopifyPromotionWebhookView : view :=
  {| allowed_topics := Router.PROMOTION_TOPICS;
     task_actor := Some process_shopify_promotion_event |}.

Definition ShopifyOrderWebhookView : view :=
  {| allowed_topics := Router.ORDER_TOPICS; task_actor := None |}.

(** [request.META.get(name)] *)
Fixpoint meta_get (meta : list (string * string)) (name : string) : option string :=
  match meta with
  | [] => None
  | (k, v) :: rest => if String.eqb k name then Some v else meta_get rest name
  end.

(** [request.META.get(name, "")] *)
Definition meta_get_or_empty (meta : list (string * string)) (name : string) : string :=
  match meta_get meta name with
  | Some v => v
  | None => ""
  end.

Definition error_response (message : string) (status : Z) : response :=
  {| status_code := status; data := VDict [("error", VStr message)] |}.

Definition empty_response (status : Z) : response :=
  {| status_code := status; data := VNone |}.

(** The rows [ShopifyWebhookConfig.objects.filter(shopify_domain=...,
    is_active=True)] selects. *)
Definition active_configs (db : database) (shop_domain : string)
  : list ShopifyWebhookConfig :=
  filter (fun c => String.eqb (shopify_domain c) shop_domain && is_active c)
         (configs db).

(** [WebhookEvent.objects.filter(webhook_id=webhook_id).exists()] *)
Definition event_exists (db : database) (webhook_id : string) : bool :=
  existsb (fun ev => String.eqb (ev_webhook_id ev) webhook_id) (events db).

(** The row [create] writes: the fields given, the defaults of the model
    for the others, and the next primary key. *)
Definition new_event (db : database) (webhook_id topic shop_domain : string)
    (store : option string) (status : Status) (payload_hash : string)
  : WebhookEvent :=
  {| ev_id := next_event_id db;
     ev_webhook_id := webhook_id;
     ev_topic := topic;
     ev_shop_domain := shop_domain;
     ev_store := store;
     ev_status := status;
     ev_payload_hash := payload_hash;
     ev_error_message := "";
     ev_processing_time_ms := None |}.

(** [WebhookEvent.objects.create(...)]: the constraint [unique_webhook_id]
    refuses a second row with the same [webhook_id]. *)
Definition create_event (db : database) (webhook_id topic shop_domain : string)
    (store : option string) (status : Status) (payload_hash : string)
  : result WebhookEvent * database :=
  if event_exists db webhook_id then
    (Raise (Exc IntegrityError_
              "duplicate key value violates unique constraint unique_webhook_id"), db)
  else
    let event := new_event db webhook_id topic shop_domain store status payload_hash in
    (Ok event,
     {| configs := configs db;
        events := events db ++ [event];
        next_event_id := next_event_id db + 1;
        queue := queue db |}).

(** [actor.send(event_id, payload)] *)
Definition send (a : actor) (event_id : Z) (payload : pyval) (db : database)
  : database :=
  {| configs := configs db;
     events := events db;
     next_event_id := next_event_id db;
     queue := queue db ++ [ {| task_actor_of := a;
                               task_event_id := event_id;
                               task_payload := payload |} ] |}.

(** [topic not in self.allowed_topics] guarded by [self.allowed_topics]. *)
Definition topic_refused (self : view) (topic : string) : bool :=
  match allowed_topics self with
  | [] => false
  | allowed => negb (existsb (String.eqb topic) allowed)
  end.

(** [BaseShopifyWebhookView.post(self, request)], steps 1 to 8.  An
    exception that leaves [post] is an HTTP 500 for the caller; rows
    written before it stay written. *)
Definition post (self : view) (req : request) (db : database)
  : result response * database :=
  (* 1. Extract shop domain *)
  match meta_get (META req) "HTTP_X_SHOPIFY_SHOP_DOMAIN" with
  | None | Some EmptyString =>
      (Ok (error_response "Missing X-Shopify-Shop-Domain header" HTTP_400_BAD_REQUEST), db)
  | Some shop_domain =>
      (* 2. Look up active config for this shop *)
      match active_configs db shop_domain with
      | [] => (Ok (error_response "Unknown shop domain" HTTP_404_NOT_FOUND), db)
      | _ :: _ :: _ =>
          (Raise (Exc MultipleObjectsReturned_
                    "get() returned more than one ShopifyWebhookConfig"), db)
      | [config] =>
          (* 3. Verify HMAC signature *)
          let raw_body := body req in
          let hmac_header := meta_get_or_empty (META req) "HTTP_X_SHOPIFY_HMAC_SHA256" in
          match Middleware.verify_shopify_hmac raw_body hmac_header (webhook_secret config) with
          | Raise e => (Raise e, db)
          | Ok false =>
              (Ok (error_response "HMAC verification failed" HTTP_401_UNAUTHORIZED), db)
          | Ok true =>
              (* 4. Extract topic and webhook ID *)
              let topic := meta_get_or_empty (META req) "HTTP_X_SHOPIFY_TOPIC" in
              let webhook_id := meta_get_or_empty (META req) "HTTP_X_SHOPIFY_WEBHOOK_ID" in
              if String.eqb webhook_id "" then
                (Ok (error_response "Missing X-Shopify-Webhook-Id header"
                       HTTP_400_BAD_REQUEST), db)
              (* 5. Validate topic matches this endpoint *)
              else if topic_refused self topic then
                (Ok (error_response ("Topic '" ++ topic ++ "' not handled by this endpoint")
                       HTTP_400_BAD_REQUEST), db)
              (* 6. Idempotency *)
              else if event_exists db webhook_id then
                (Ok (empty_response HTTP_200_OK), db)
              else
                (* 7. Record the webhook event *)
                let payload_hash := Codec.hex (SHA256.digest raw_body) in
                match create_event db webhook_id topic shop_domain
                        (Some (store_id config)) RECEIVED payload_hash with
                | (Raise e, db') => (Raise e, db')
                | (Ok event, db') =>
                    (* 8. Enqueue async processing *)
                    match task_actor self with
                    | Some a =>
                        match body_json req with
                        | Raise e => (Raise e, db')
                        | Ok payload =>
                            (Ok (empty_response HTTP_200_OK), send a (ev_id event) payload db')
                        end
                    | None => (Ok (empty_response HTTP_200_OK), db')
                    end
                end
          end
      end
  end.

End Views.

(* ===================================================================== *)
(** ** Vocabulary of the properties                                       *)
(* ===================================================================== *)

Definition is_response (ev : net_event) : Prop :=
  match ev with
  | Response _ _ => True
  | Transport _ => False
  end.


(** The URL [get_products_sku] requests for an identifier. *)
Definition product_url (base : string) (id : pyval) : string :=
  base ++ "/" ++ py_str id ++ ".json".

Definition collection_url (settings : promotion_settings) (id : pyval) : string :=
  products_in_collection_fetch_endpoint settings ++ "/" ++ py_str id ++ "/products.json".


(** The effects of [n] rounds of request and delay on one URL. *)
Fixpoint retry_effects (url : string) (n : nat) : list effect :=
  match n with
  | O => []
  | S k => Get url :: Sleep Resolver.RETRY_DELAY :: retry_effects url k
  end.


(** A SKU list without empty entries. *)
Definition all_non_empty (skus : list pyval) : Prop :=
  Forall (fun sku => truthy sku = true) skus.

(** Every node of every group names a non-empty identifier. *)
Definition groups_have_identifiers (gs : list Group) : Prop :=
  Forall (fun g => Forall (fun n => truthy (node_id n) = true) (nodes g)) gs.

(** The signature Shopify sends for [body] under [secret]: the base64 form
    of HMAC-SHA256 keyed with the UTF-8 bytes of the secret. *)
Definition signature (secret : string) (body : list Z) : string :=
  Codec.b64encode (HMAC.hmac_sha256 (Codec.utf8_encode secret) body).

(** The ledger rows keyed by the delivery identifier [d]. *)
Definition rows_for (d : string) (db : Views.database) : list Views.WebhookEvent :=
  filter (fun ev => String.eqb (Views.ev_webhook_id ev) d) (Views.events db).

(** The storage constraint [unique_webhook_id]. *)
Definition unique_webhook_id (db : Views.database) : Prop :=
  NoDup (map Views.ev_webhook_id (Views.events db)).

(** The delivery identifier and the topic a request carries. *)
Definition delivery_id (req : Views.request) : string :=
  Views.meta_get_or_empty (Views.META req) "HTTP_X_SHOPIFY_WEBHOOK_ID".

Definition delivery_topic (req : Views.request) : string :=
  Views.meta_get_or_empty (Views.META req) "HTTP_X_SHOPIFY_TOPIC".

(** The request passes the five intake checks of the endpoint [self] (a
    tenant header that names exactly one active configuration, a valid
    signature, a delivery identifier, a topic the endpoint takes) and, when
    the endpoint has a task actor, its body is JSON. *)
Definition intake_accepts (self : Views.view) (req : Views.request)
    (db : Views.database) : bool :=
  match Views.meta_get (Views.META req) "HTTP_X_SHOPIFY_SHOP_DOMAIN" with
  | Some shop_domain =>
      negb (String.eqb shop_domain "") &&
      match Views.active_configs db shop_domain with
      | [config] =>
          match Middleware.verify_shopify_hmac (Views.body req)
                  (Views.meta_get_or_empty (Views.META req) "HTTP_X_SHOPIFY_HMAC_SHA256")
                  (webhook_secret config) with
          | Ok true =>
              negb (String.eqb (delivery_id req) "") &&
              negb (Views.topic_refused self (delivery_topic req)) &&
              match Views.task_actor self with
              | Some _ => is_ok (Views.body_json req)
              | None => true
              end
          | _ => false
          end
      | _ => false
      end
  | None => false
  end.

(** A byte: an integer in 0..255. *)
Definition is_byte (b : Z) : Prop := 0 <= b < 256.

(** The code point of the base64 character with index [i]. *)
Definition b64_code (i : Z) : Z :=
  if i <? 26 then 65 + i
  else if i <? 52 then 71 + i
  else if i <? 62 then i - 4
  else if i =? 62 then 43
  else 47.

(* ===================================================================== *)
(** ** Concrete scenarios                                                 *)
(* ===================================================================== *)

Module Scenario.

Definition config : ShopifyWebhookConfig :=
  {| store_id := "3f0c2a9e-5d41-4c7b-9a57-0c1d2e3f4a5b";
     retailer_id := "7b1e6c1a-0000-4000-8000-000000000001";
     shopify_domain := "test-shop.myshopify.com";
     api_access_token := "shpat_test";
     webhook_secret := "test-webhook-secret-key";
     api_version := "2024-07";
     sync_inventory := true;
     sync_promotions := true;
     sync_orders_to_shopify := true;
     extra_data := VDict [];
     is_active := true |}.

Definition settings : promotion_settings :=
  Builder.build_promotion_settings_from_config config.

(** 2025-06-01T12:00:00+00:00 *)
Definition noon : Datetime.datetime :=
  {| Datetime.ordinal := 739403; Datetime.second_of_day := 43200;
     Datetime.utcoffset := 0 |}.

(** A world in which the network will give [answers]. *)
Definition world_with (answers : list net_event) : world :=
  {| env_type := "test"; now := noon; pending := answers; trace := [] |}.

(** A 15% item-scoped price rule entitled to the products 111 and 222. *)
Definition price_rule : pyval :=
  VDict [ ("id", VInt 12345);
          ("title", VStr "Test Promo");
          ("target_type", VStr "line_item");
          ("target_selection", VStr "entitled");
          ("value_type", VStr "percentage");
          ("value", VStr "-15.0");
          ("starts_at", VStr "2025-01-01T00:00:00+00:00");
          ("ends_at", VStr "2025-12-31T23:59:59+00:00");
          ("once_per_customer", VBool false);
          ("allocation_method", VStr "across");
          ("entitled_product_ids", VList [VInt 111; VInt 222]);
          ("entitled_variant_ids", VList []);
          ("entitled_collection_ids", VList []);
          ("prerequisite_subtotal_range", VNone) ].

(** The same rule with nothing entitled. *)
Definition price_rule_without_items : pyval :=
  VDict [ ("id", VInt 12345);
          ("title", VStr "Test Promo");
          ("value_type", VStr "percentage");
          ("value", VStr "-15.0");
          ("starts_at", VStr "2025-01-01T00:00:00+00:00");
          ("ends_at", VStr "2025-12-31T23:59:59+00:00");
          ("entitled_product_ids", VList []);
          ("entitled_variant_ids", VList []);
          ("entitled_collection_ids", VList []) ].

(** The answer of the product endpoint for a product whose variants carry
    the given barcodes. *)
Definition product_answer (barcodes : list pyval) : net_event :=
  Response 200
    (Ok (VDict [("product",
                 VDict [("variants",
                         VList (map (fun b => VDict [("barcode", b)]) barcodes))])])).

Definition not_found : net_event := Response 404 (Ok (VDict [("errors", VStr "Not Found")])).

Definition rate_limited : net_event := Response 429 (Ok (VDict [])).

Definition timed_out : net_event :=
  Transport (Exc ReqReadTimeout "HTTPSConnectionPool: Read timed out. (read timeout=300)").

(** The answer of the variant endpoint for variant 333, which has no
    barcode. *)
Definition variant_without_barcode : net_event :=
  Response 200 (Ok (VDict [("variant", VDict [("id", VInt 333); ("title", VStr "Default")])])).

Definition edge (gid : string) : pyval :=
  VDict [("node", VDict [("id", VStr gid)])].

(** A [customerGets.items] block that offers a product and a collection. *)
Definition items_with_product_and_collection : pyval :=
  VDict [ ("products", VDict [("edges", VList [edge "gid://shopify/Product/7"])]);
          ("collections", VDict [("edges", VList [edge "gid://shopify/Collection/5"])]) ].

(** A flat price rule that offers a product, a variant and a collection. *)
Definition rule_with_all_sources : pyval :=
  VDict [ ("entitled_product_ids", VList [VInt 7]);
          ("entitled_variant_ids", VList [VInt 333]);
          ("entitled_collection_ids", VList [VInt 5]) ].

End Scenario.

Module IntakeScenario.

(** The body [{"id": 12345}]. *)
Definition body : list Z :=
  Codec.ascii_bytes ("{" ++ String (ascii_of_nat 34) "id" ++ String (ascii_of_nat 34) ": 12345}").

Definition payload : pyval := VDict [("id", VInt 12345)].

(** A request with the given body, signed with the secret of
    [Scenario.config]; [parsed] is what [json.loads] makes of the body. *)
Definition signed_request (d topic : string) (raw : list Z) (parsed : result pyval)
  : Views.request :=
  {| Views.META :=
       [ ("HTTP_X_SHOPIFY_SHOP_DOMAIN", "test-shop.myshopify.com");
         ("HTTP_X_SHOPIFY_HMAC_SHA256", signature "test-webhook-secret-key" raw);
         ("HTTP_X_SHOPIFY_TOPIC", topic);
         ("HTTP_X_SHOPIFY_WEBHOOK_ID", d) ];
     Views.body := raw;
     Views.body_json := parsed |}.

(** A delivery of [topic] with identifier [d] and the body above. *)
Definition delivery (d topic : string) : Views.request :=
  signed_request d topic body (Ok payload).

(** A signed delivery whose body, [<html>], is not JSON. *)
Definition garbled (d topic : string) : Views.request :=
  signed_request d topic (Codec.ascii_bytes "<html>")
    (Raise (Exc JSONDecodeError_ "Expecting value: line 1 column 1 (char 0)")).

(** One configured store, an empty ledger, an empty queue. *)
Definition fresh : Views.database :=
  {| Views.configs := [Scenario.config];
     Views.events := [];
     Views.next_event_id := 1;
     Views.queue := [] |}.

(** The secret of [Scenario.config] followed by a NUL character. *)
Definition padded_secret : string :=
  "test-webhook-secret-key" ++ String Ascii.zero EmptyString.

End IntakeScenario.

(* ===================================================================== *)
(** ** router.py: the handler registry; apps.py: registration             *)
(* ===================================================================== *)

Module Registry.

(** [_topic_handlers], a dictionary from topic to handler, as the list of
    its items in insertion order. *)
Definition topic_handlers (H : Type) : Type := list (string * H).

(** [_topic_handlers[topic] = handler]: an existing key keeps its place
    and gets the new value, a new key goes to the end. *)
Fixpoint register_handler {H : Type} (topic : string) (handler : H)
    (handlers : topic_handlers H) : topic_handlers H :=
  match handlers with
  | [] => [(topic, handler)]
  | (k, h) :: rest =>
      if String.eqb k topic then (k, handler) :: rest
      else (k, h) :: register_handler topic handler rest
  end.

(** [return _topic_handlers.get(topic)] *)
Fixpoint get_handler {H : Type} (topic : string) (handlers : topic_handlers H)
  : option H :=
  match handlers with
  | [] => None
  | (k, h) :: rest => if String.eqb k topic then Some h else get_handler topic rest
  end.

(** The handler functions of handlers/inventory.py and
    handlers/promotions.py, by name. *)
Inductive handler_name : Type :=
  | handle_product_create
  | handle_product_update
  | handle_product_delete
  | handle_inventory_level_update
  | handle_price_rule_create
  | handle_price_rule_update
  | handle_price_rule_delete
  | handle_collection_update.

(** The four [register_handler] calls at the end of handlers/inventory.py. *)
Definition import_inventory (handlers : topic_handlers handler_name)
  : topic_handlers handler_name :=
  register_handler "inventory_levels/update" handle_inventory_level_update
    (register_handler "products/delete" handle_product_delete
       (register_handler "products/update" handle_product_update
          (register_handler "products/create" handle_product_create handlers))).

(** The four [register_handler] calls at the end of handlers/promotions.py. *)
Definition import_promotions (handlers : topic_handlers handler_name)
  : topic_handlers handler_name :=
  register_handler "collections/update" handle_collection_update
    (register_handler "price_rules/delete" handle_price_rule_delete
       (register_handler "price_rules/update" handle_price_rule_update
          (register_handler "price_rules/create" handle_price_rule_create handlers))).

(** [ShopifyWebhooksConfig.ready]: the registry starts empty and the two
    handler modules are imported, inventory first. *)
Definition ready : topic_handlers handler_name :=
  import_promotions (import_inventory []).

End Registry.

(* ===================================================================== *)
(** ** tasks.py: processing one ledger entry                              *)
(* ===================================================================== *)

Module Processing.

(** What goes to statsd. *)
Inductive metric : Type :=
  | Increment (name : string) (tags : list string)
  | Histogram (name : string) (value : Z) (tags : list string).

(** The value of a [WebhookEvent.Status] member, which is also its [str]. *)
Definition status_value (s : Views.Status) : string :=
  match s with
  | Views.RECEIVED => "received"
  | Views.PROCESSING => "processing"
  | Views.SUCCESS => "success"
  | Views.FAILED => "failed"
  | Views.DUPLICATE => "duplicate"
  end.

(** A registered handler: called with the event and the payload, it may
    read the tables, works on a state of its own ([S]: the network, the
    downstream services) and returns, raises, or never comes back. *)
Definition handler (S : Type) : Type :=
  Views.WebhookEvent -> pyval -> Views.database -> S -> outcome unit * S.

Definition set_status (ev : Views.WebhookEvent) (s : Views.Status) : Views.WebhookEvent :=
  {| Views.ev_id := Views.ev_id ev;
     Views.ev_webhook_id := Views.ev_webhook_id ev;
     Views.ev_topic := Views.ev_topic ev;
     Views.ev_shop_domain := Views.ev_shop_domain ev;
     Views.ev_store := Views.ev_store ev;
     Views.ev_status := s;
     Views.ev_payload_hash := Views.ev_payload_hash ev;
     Views.ev_error_message := Views.ev_error_message ev;
     Views.ev_processing_time_ms := Views.ev_processing_time_ms ev |}.

Definition set_error_message (ev : Views.WebhookEvent) (message : string)
  : Views.WebhookEvent :=
  {| Views.ev_id := Views.ev_id ev;
     Views.ev_webhook_id := Views.ev_webhook_id ev;
     Views.ev_topic := Views.ev_topic ev;
     Views.ev_shop_domain := Views.ev_shop_domain ev;
     Views.ev_store := Views.ev_store ev;
     Views.ev_status := Views.ev_status ev;
     Views.ev_payload_hash := Views.ev_payload_hash ev;
     Views.ev_error_message := message;
     Views.ev_processing_time_ms := Views.ev_processing_time_ms ev |}.

Definition set_processing_time (ev : Views.WebhookEvent) (ms : Z)
  : Views.WebhookEvent :=
  {| Views.ev_id := Views.ev_id ev;
     Views.ev_webhook_id := Views.ev_webhook_id ev;
     Views.ev_topic := Views.ev_topic ev;
     Views.ev_shop_domain := Views.ev_shop_domain ev;
     Views.ev_store := Views.ev_store ev;
     Views.ev_status := Views.ev_status ev;
     Views.ev_payload_hash := Views.ev_payload_hash ev;
     Views.ev_error_message := Views.ev_error_message ev;
     Views.ev_processing_time_ms := Some ms |}.

(** [event.save(update_fields=[...])]: an UPDATE of the named columns in
    the rows whose primary key is that of [event]. *)
Definition save (update : Views.WebhookEvent -> Views.WebhookEvent)
    (event : Views.WebhookEvent) (db : Views.database) : Views.database :=
  {| Views.configs := Views.configs db;
     Views.events :=
       map (fun row => if Views.ev_id row =? Views.ev_id event then update row else row)
           (Views.events db);
     Views.next_event_id := Views.next_event_id db;
     Views.queue := Views.queue db |}.

(** [update_fields=["status", "updated_at"]] *)
Definition save_status (event : Views.WebhookEvent) (db : Views.database)
  : Views.database :=
  save (fun row => set_status row (Views.ev_status event)) event db.

(** [update_fields=["status", "error_message", "processing_time_ms",
    "updated_at"]] *)
Definition save_outcome (event : Views.WebhookEvent) (db : Views.database)
  : Views.database :=
  save (fun row =>
          {| Views.ev_id := Views.ev_id row;
             Views.ev_webhook_id := Views.ev_webhook_id row;
             Views.ev_topic := Views.ev_topic row;
             Views.ev_shop_domain := Views.ev_shop_domain row;
             Views.ev_store := Views.ev_store row;
             Views.ev_status := Views.ev_status event;
             Views.ev_payload_hash := Views.ev_payload_hash row;
             Views.ev_error_message := Views.ev_error_message event;
             Views.ev_processing_time_ms := Views.ev_processing_time_ms event |})
       event db.

(** The [finally] block: the elapsed time, the save and the metrics.
    [started] and [finished] are the two readings of [time.monotonic()],
    in seconds. *)
Definition finish (started finished : Q) (tags : list string)
    (event : Views.WebhookEvent) (db : Views.database) (metrics : list metric)
  : Views.database * list metric :=
  let event := set_processing_time event (Qtrunc ((finished - started) * 1000)) in
  let status_tag := "status:" ++ status_value (Views.ev_status event) in
  let result_tags := (tags ++ [status_tag])%list in
  let counted :=
    match Views.ev_status event with
    | Views.SUCCESS => [Increment "shopify.webhook.processed" result_tags]
    | Views.FAILED => [Increment "shopify.webhook.failed" result_tags]
    | _ => []
    end in
  (save_outcome event db,
   (metrics ++ counted
      ++ [Histogram "shopify.webhook.processing_time_ms"
            (Qtrunc ((finished - started) * 1000)) result_tags])%list).

(** [str(exc)[:2000]] *)
Definition truncated (message : string) : string := substring 0 2000 message.

(** [_process_event(webhook_event_id, payload)] with the registry
    [handlers].  The result carries the tables, the handler's own state and
    the metrics sent. *)
Definition _process_event {S : Type} (handlers : Registry.topic_handlers (handler S))
    (started finished : Q) (webhook_event_id : Z) (payload : pyval)
    (db : Views.database) (s : S) (metrics : list metric)
  : outcome unit * (Views.database * S * list metric) :=
  match filter (fun row => Views.ev_id row =? webhook_event_id) (Views.events db) with
  | [] => (Done (Ok tt), (db, s, metrics))          (* DoesNotExist: logged *)
  | _ :: _ :: _ =>
      (Done (Raise (Exc MultipleObjectsReturned_
                      "get() returned more than one WebhookEvent")),
       (db, s, metrics))
  | [event] =>
      let event := set_status event Views.PROCESSING in
      let db := save_status event db in
      let tags := [ "topic:" ++ Views.ev_topic event;
                    "shop_domain:" ++ Views.ev_shop_domain event ] in
      let metrics := (metrics ++ [Increment "shopify.webhook.received" tags])%list in
      match Registry.get_handler (Views.ev_topic event) handlers with
      | None =>
          let event :=
            set_error_message (set_status event Views.FAILED)
              ("No handler for topic: " ++ Views.ev_topic event) in
          let '(db, metrics) := finish started finished tags event db metrics in
          (Done (Ok tt), (db, s, metrics))
      | Some handle =>
          match handle event payload db s with
          | (Done (Ok _), s) =>
              let event := set_status event Views.SUCCESS in
              let '(db, metrics) := finish started finished tags event db metrics in
              (Done (Ok tt), (db, s, metrics))
          | (Done (Raise exc), s) =>
              let event :=
                if issubclass (exc_cls exc) Exception_
                then set_error_message (set_status event Views.FAILED)
                       (truncated (exc_msg exc))
                else event in
              let '(db, metrics) := finish started finished tags event db metrics in
              (Done (Raise exc), (db, s, metrics))
          | (NoAnswer, s) => (NoAnswer, (db, s, metrics))
          | (OutOfFuel, s) => (OutOfFuel, (db, s, metrics))
          end
      end
  end.

End Processing.

(* ===================================================================== *)
(** ** Vocabulary of the properties of the ledger                         *)
(* ===================================================================== *)

(** Primary keys are handed out in increasing order: every row has a key
    below the next one. *)
Definition ids_below_next (db : Views.database) : Prop :=
  Forall (fun row => Views.ev_id row < Views.next_event_id db) (Views.events db).

(** No two rows share a primary key. *)
Definition unique_ids (db : Views.database) : Prop :=
  NoDup (map Views.ev_id (Views.events db)).

(** Every queued task refers to a row of the ledger. *)
Definition tasks_refer_to_rows (db : Views.database) : Prop :=
  Forall (fun t => In (Views.task_event_id t) (map Views.ev_id (Views.events db)))
         (Views.queue db).

(** The columns processing never writes. *)
Definition same_identity (row row' : Views.WebhookEvent) : Prop :=
  Views.ev_id row' = Views.ev_id row /\
  Views.ev_webhook_id row' = Views.ev_webhook_id row /\
  Views.ev_topic row' = Views.ev_topic row /\
  Views.ev_shop_domain row' = Views.ev_shop_domain row /\
  Views.ev_store row' = Views.ev_store row /\
  Views.ev_payload_hash row' = Views.ev_payload_hash row.

(** The rows with primary key [id]. *)
Definition rows_with_id (id : Z) (db : Views.database) : list Views.WebhookEvent :=
  filter (fun row => Views.ev_id row =? id) (Views.events db).

(** The three endpoints of urls.py. *)
Definition endpoints : list Views.view :=
  [ Views.ShopifyInventoryWebhookView;
    Views.ShopifyPromotionWebhookView;
    Views.ShopifyOrderWebhookView ].

(* ===================================================================== *)
(** ** A worked ledger for the processing properties                      *)
(* ===================================================================== *)

Module ProcessingScenario.

(** A handler over a call counter: the first call fails with a connection
    error, every later call returns. *)
Definition flaky : Processing.handler nat :=
  fun _ _ _ calls =>
    match calls with
    | O => (Done (Raise (Exc ReqConnectionError "connection refused")), S calls)
    | S _ => (Done (Ok tt), S calls)
    end.

Definition handlers : Registry.topic_handlers (Processing.handler nat) :=
  Registry.register_handler "price_rules/create" flaky [].

(** A delivery of [price_rules/create], as the promotion endpoint records
    it. *)
Definition row : Views.WebhookEvent :=
  {| Views.ev_id := 7;
     Views.ev_webhook_id := "d-7";
     Views.ev_topic := "price_rules/create";
     Views.ev_shop_domain := "test-shop.myshopify.com";
     Views.ev_store := Some "store-1";
     Views.ev_status := Views.RECEIVED;
     Views.ev_payload_hash := "";
     Views.ev_error_message := "";
     Views.ev_processing_time_ms := None |}.

(** A delivery of [orders/create], for which nothing is registered. *)
Definition order_row : Views.WebhookEvent :=
  {| Views.ev_id := 8;
     Views.ev_webhook_id := "d-8";
     Views.ev_topic := "orders/create";
     Views.ev_shop_domain := "test-shop.myshopify.com";
     Views.ev_store := Some "store-1";
     Views.ev_status := Views.RECEIVED;
     Views.ev_payload_hash := "";
     Views.ev_error_message := "";
     Views.ev_processing_time_ms := None |}.

Definition ledger : Views.database :=
  {| Views.configs := [Scenario.config];
     Views.events := [row; order_row];
     Views.next_event_id := 9;
     Views.queue :=
       [ {| Views.task_actor_of := Views.process_shopify_promotion_event;
            Views.task_event_id := 7;
            Views.task_payload := IntakeScenario.payload |} ] |}.

(** The first run on [ledger] for the row 7, from second 10 to second
    10.25 of the monotonic clock. *)
Definition first_run
  : outcome unit * (Views.database * nat * list Processing.metric) :=
  Processing._process_event handlers 10 10.25 7 IntakeScenario.payload ledger O [].

End ProcessingScenario.

(* ===================================================================== *)
(** ** services/promotion_sync.py: families and the Basket Threshold      *)
(**    builder                                                            *)
(* ===================================================================== *)

(** [v == s] and [v != s] for a string literal [s]: of the values a
    payload holds only a string is equal to a string. *)
Definition py_eq_str (v : pyval) (s : string) : bool :=
  match v with
  | VStr t => String.eqb t s
  | _ => false
  end.

Module Basket.

(** The attributes [build_basket_threshold_promotion] sets on a
    [mpay_promo.Promotion]. *)
Record Promotion : Type := {
  retailer : pyval;
  stores : list string;
  promo_id : string;
  family : PromoFamily;
  layer : pyval;
  discount_apply_type : ApplicationType;
  date_start : Datetime.datetime;
  date_end : Datetime.datetime;
  availability : Availability;
  discount_value_on : DiscountOn;
  apply_on_discounted_items : bool;
  max_application_limit : Z;
  discount_type_strategy : DiscountTypeStrategy;
  discounted_group_item_selection_criteria : GroupItemSelectionCriteria;
  evaluate_criteria : PromoEvaluateCriteria;
  promo_is_active : bool;
  title : pyval;
  discount_type : DiscountType;
  discount_value : pyval;
  evaluate_priority : Z;
  groups : list Group
}.

End Basket.

Module Families.

(** [determine_family(price_rule)]: [Some EASY] is ['e'], [Some
    BASKET_THRESHOLD] is ['b']. *)
Definition determine_family (price_rule : pyval) : result (option PromoFamily) :=
  target_type <- py_get price_rule "target_type" ;;
  if negb (py_eq_str target_type "line_item") then Ok None
  else
    target_selection <- py_get price_rule "target_selection" ;;
    if py_eq_str target_selection "all" then Ok (Some BASKET_THRESHOLD)
    else if py_eq_str target_selection "entitled" then Ok (Some EASY)
    else Ok None.

(** The minimum of the group of a Basket Threshold promotion:
    [prerequisite_subtotal_range["greater_than_or_equal_to"]] when both
    the range and the bound are truthy, 1 otherwise. *)
Definition subtotal_minimum (price_rule : pyval) : result pyval :=
  subtotal_range <- py_get price_rule "prerequisite_subtotal_range" ;;
  if truthy subtotal_range then
    bound <- py_get subtotal_range "greater_than_or_equal_to" ;;
    if truthy bound then py_item subtotal_range "greater_than_or_equal_to"
    else Ok (VInt 1)
  else Ok (VInt 1).

(** [build_basket_threshold_promotion(price_rule, config)];
    [current_date] is what the clock shows in [is_promotion_active]. *)
Definition build_basket_threshold_promotion (price_rule : pyval)
    (config : ShopifyWebhookConfig) (current_date : Datetime.datetime)
  : result Basket.Promotion :=
  promo_retailer <- py_get_default (extra_data config) "promo_retailer"
                      (VStr (store_id config)) ;;
  id <- py_item price_rule "id" ;;
  starts_at <- py_item price_rule "starts_at" ;;
  start <- PromotionSync.get_start_datetime starts_at ;;
  ends_at <- py_get price_rule "ends_at" ;;
  finish <- PromotionSync.get_end_datetime ends_at ;;
  once_per_customer <- py_get price_rule "once_per_customer" ;;
  rule_title <- py_get_default price_rule "title" (VStr "") ;;
  if negb (truthy rule_title) then
    Raise (Exc ValueError_ "Basket Threshold promotion requires a title")
  else
    value <- py_item price_rule "value" ;;
    float_value <- py_float value ;;
    let magnitude := number_abs float_value in
    value_type <- py_item price_rule "value_type" ;;
    kind <- match value_type with
            | VStr "percentage" => Ok PERCENT_OFF
            | VStr "fixed_amount" => Ok VALUE_OFF
            | other =>
                Raise (Exc ValueError_ ("Unknown discount value_type: " ++ py_str other))
            end ;;
    let rounded := get_rounded_value magnitude 2 in
    priority <- PromotionSync.compute_evaluate_priority kind rounded ;;
    minimum <- subtotal_minimum price_rule ;;
    Ok {| Basket.retailer := promo_retailer;
          Basket.stores := [store_id config];
          Basket.promo_id := py_str id;
          Basket.family := BASKET_THRESHOLD;
          Basket.layer := VInt 100;
          Basket.discount_apply_type := BASKET;
          Basket.date_start := start;
          Basket.date_end := finish;
          Basket.availability := AVAILABILITY_ALL;
          Basket.discount_value_on := FP;
          Basket.apply_on_discounted_items := false;
          Basket.max_application_limit := if truthy once_per_customer then 1 else 65535;
          Basket.discount_type_strategy := ALL_ITEMS;
          Basket.discounted_group_item_selection_criteria := MOST_EXPENSIVE;
          Basket.evaluate_criteria := PRIORITY;
          Basket.promo_is_active :=
            PromotionSync.is_promotion_active current_date start finish;
          Basket.title := rule_title;
          Basket.discount_type := kind;
          Basket.discount_value := rounded;
          Basket.evaluate_priority := priority;
          Basket.groups :=
            [ {| group_name := py_str id;
                 qty_or_value_min := minimum;
                 qty_or_value_max := VNone;
                 nodes := [ {| node_type := ITEM; node_id := VStr "all" |} ] |} ] |}.

End Families.

(* ===================================================================== *)
(** ** handlers/promotions.py: the price-rule handlers                    *)
(* ===================================================================== *)

Module PromotionHandlers.

(** What [_build_promotion_for_price_rule] hands back when it builds. *)
Inductive built_promotion : Type :=
  | EasyPromotion (promo : Promotion)
  | BasketThresholdPromotion (promo : Basket.Promotion).

Definition built_promo_id (b : built_promotion) : string :=
  match b with
  | EasyPromotion promo => promo_id promo
  | BasketThresholdPromotion promo => Basket.promo_id promo
  end.

Definition built_family (b : built_promotion) : PromoFamily :=
  match b with
  | EasyPromotion promo => family promo
  | BasketThresholdPromotion promo => Basket.family promo
  end.

(** Modelled from the spec: [mpay_promo.PromotionBatchOperation] is not
    part of these sources; the specification describes "a downstream
    promotions API accepting batched create/delete operations against
    canonical Promotion objects, committed as one atomic batch per
    webhook".  A batch is the retailer it was opened for and the
    operations added to it, in order; [delete] is given a promotion that
    carries a [promo_id] only, and a store. *)
Inductive batch_operation : Type :=
  | BatchDelete (promo_id : string) (store_id : string)
  | BatchCreate (promo : built_promotion).

Record batch : Type := {
  batch_retailer : pyval;
  operations : list batch_operation
}.

(** The state a promotion handler works on: the network of the SKU
    resolver and the batches handed to [commit] so far. *)
Definition downstream : Type := world * list batch.

(** [ShopifyWebhookConfig.objects.get(store=event.store)].  The class of
    the first exception, [ShopifyWebhookConfig.DoesNotExist], derives from
    [Exception] and from nothing else the sources test for; it is
    represented by [Exception]. *)
Definition get_config (db : Views.database) (store : option string)
  : result ShopifyWebhookConfig :=
  match filter (fun c => match store with
                         | Some key => String.eqb (store_id c) key
                         | None => false
                         end) (Views.configs db) with
  | [] => Raise (Exc Exception_ "ShopifyWebhookConfig matching query does not exist.")
  | [config] => Ok config
  | _ :: _ :: _ =>
      Raise (Exc MultipleObjectsReturned_
               "get() returned more than one ShopifyWebhookConfig")
  end.

(** [_get_retailer_name(config)] *)
Definition _get_retailer_name (config : ShopifyWebhookConfig) : result pyval :=
  py_get_default (extra_data config) "promo_retailer" (VStr (store_id config)).

(** [_build_promotion_for_price_rule(price_rule, config)] *)
Definition _build_promotion_for_price_rule (price_rule : pyval)
    (config : ShopifyWebhookConfig) (w : world)
  : outcome (option built_promotion) * world :=
  match Families.determine_family price_rule with
  | Raise e => Builder.failed e w
  | Ok None => (Done (Ok None), w)
  | Ok (Some EASY) =>
      match Builder.build_easy_promotion price_rule config w with
      | (Done (Ok promo), w') => (Done (Ok (Some (EasyPromotion promo))), w')
      | (Done (Raise e), w') => (Done (Raise e), w')
      | (NoAnswer, w') => (NoAnswer, w')
      | (OutOfFuel, w') => (OutOfFuel, w')
      end
  | Ok (Some BASKET_THRESHOLD) =>
      match Families.build_basket_threshold_promotion price_rule config (now w) with
      | Ok promo => (Done (Ok (Some (BasketThresholdPromotion promo))), w)
      | Raise e => Builder.failed e w
      end
  | Ok (Some _) => (Done (Ok None), w)
  end.

Section Handlers.

(** What [batch_op.commit()] answers for a batch, and the [store_id]
    attribute of the [dos.Store] row with a given primary key. *)
Variable commit : batch -> result unit.
Variable store_attribute : string -> string.

(** [str(event.store.store_id)] *)
Definition event_store_id (event : Views.WebhookEvent) : result string :=
  match Views.ev_store event with
  | Some key => Ok (store_attribute key)
  | None => Raise (Exc AttributeError_ "'NoneType' object has no attribute 'store_id'")
  end.

(** [batch_op.commit()]: the batch is handed over and the answer is the
    outcome of the handler. *)
Definition committing (b : batch) (w : world) (committed : list batch)
  : outcome unit * downstream :=
  (Done (commit b), (w, (committed ++ [b])%list)).

Definition raising (e : pyexc) (w : world) (committed : list batch)
  : outcome unit * downstream :=
  (Done (Raise e), (w, committed)).

(** [handle_price_rule_create(event, payload)] *)
Definition handle_price_rule_create : Processing.handler downstream :=
  fun event payload db s =>
    let '(w, committed) := s in
    match get_config db (Views.ev_store event) with
    | Raise e => raising e w committed
    | Ok config =>
        match _build_promotion_for_price_rule payload config w with
        | (Done (Ok None), w') => (Done (Ok tt), (w', committed))
        | (Done (Ok (Some promo)), w') =>
            match _get_retailer_name config with
            | Raise e => raising e w' committed
            | Ok retailer =>
                committing {| batch_retailer := retailer;
                              operations := [BatchCreate promo] |} w' committed
            end
        | (Done (Raise e), w') => raising e w' committed
        | (NoAnswer, w') => (NoAnswer, (w', committed))
        | (OutOfFuel, w') => (OutOfFuel, (w', committed))
        end
    end.

(** [handle_price_rule_update(event, payload)] *)
Definition handle_price_rule_update : Processing.handler downstream :=
  fun event payload db s =>
    let '(w, committed) := s in
    match get_config db (Views.ev_store event) with
    | Raise e => raising e w committed
    | Ok config =>
        match _build_promotion_for_price_rule payload config w with
        | (Done (Ok None), w') => (Done (Ok tt), (w', committed))
        | (Done (Ok (Some promo)), w') =>
            match event_store_id event with
            | Raise e => raising e w' committed
            | Ok store_id =>
                match _get_retailer_name config with
                | Raise e => raising e w' committed
                | Ok retailer =>
                    match py_item payload "id" with
                    | Raise e => raising e w' committed
                    | Ok id =>
                        committing
                          {| batch_retailer := retailer;
                             operations := [ BatchDelete (py_str id) store_id;
                                             BatchCreate promo ] |} w' committed
                    end
                end
            end
        | (Done (Raise e), w') => raising e w' committed
        | (NoAnswer, w') => (NoAnswer, (w', committed))
        | (OutOfFuel, w') => (OutOfFuel, (w', committed))
        end
    end.

(** [handle_price_rule_delete(event, payload)] *)
Definition handle_price_rule_delete : Processing.handler downstream :=
  fun event payload db s =>
    let '(w, committed) := s in
    match get_config db (Views.ev_store event) with
    | Raise e => raising e w committed
    | Ok config =>
        match py_get payload "id" with
        | Raise e => raising e w committed
        | Ok price_rule_id =>
            if negb (truthy price_rule_id) then
              raising (Exc ValueError_ "Missing price rule ID in delete webhook payload")
                w committed
            else
              match event_store_id event with
              | Raise e => raising e w committed
              | Ok store_id =>
                  match _get_retailer_name config with
                  | Raise e => raising e w committed
                  | Ok retailer =>
                      committing
                        {| batch_retailer := retailer;
                           operations := [BatchDelete (py_str price_rule_id) store_id] |}
                        w committed
                  end
              end
        end
    end.

(** The three registrations for price rules at the end of
    handlers/promotions.py. *)
Definition price_rule_handlers
  : Registry.topic_handlers (Processing.handler downstream) :=
  Registry.register_handler "price_rules/delete" handle_price_rule_delete
    (Registry.register_handler "price_rules/update" handle_price_rule_update
       (Registry.register_handler "price_rules/create" handle_price_rule_create [])).

End Handlers.

End PromotionHandlers.

(* ===================================================================== *)
(** ** Vocabulary of the properties of the handlers                       *)
(* ===================================================================== *)

(** The handler handed at most one batch to [commit], after everything it
    had already handed over. *)
Definition at_most_one_commit (before after : list PromotionHandlers.batch) : Prop :=
  after = before \/ exists b, after = (before ++ [b])%list.

(** The retailer and the stores a built promotion carries. *)
Definition built_retailer (b : PromotionHandlers.built_promotion) : pyval :=
  match b with
  | PromotionHandlers.EasyPromotion promo => retailer promo
  | PromotionHandlers.BasketThresholdPromotion promo => Basket.retailer promo
  end.

Definition built_stores (b : PromotionHandlers.built_promotion) : list string :=
  match b with
  | PromotionHandlers.EasyPromotion promo => stores promo
  | PromotionHandlers.BasketThresholdPromotion promo => Basket.stores promo
  end.

(** An exception as [should_retry] sees it when a [raise] statement of
    these sources or a builtin raised it: its class, and no [response]
    attribute. *)
Definition as_raised (e : pyexc) : Tasks.exception :=
  {| Tasks.exc_class_of := exc_cls e; Tasks.exc_response := None |}.

(** [should_retry] answers [False] for the exception, whatever the number
    of retries so far. *)
Definition never_retried (e : pyexc) : Prop :=
  forall retries_so_far, Tasks.should_retry retries_so_far (as_raised e) = false.

(** A failure that the ledger records as [failed] (its class derives from
    [Exception]) and that is not retried. *)
Definition permanent_failure (e : pyexc) : Prop :=
  issubclass (exc_cls e) Exception_ = true /\ never_retried e.

(* ===================================================================== *)
(** ** A worked delivery for the price-rule handlers                      *)
(* ===================================================================== *)

Module PromotionScenario.

(** A promotions service that accepts every batch. *)
Definition accepting : PromotionHandlers.batch -> result unit := fun _ => Ok tt.

(** Stores whose [store_id] attribute is their primary key. *)
Definition store_attribute (key : string) : string := key.

(** A delivery of [price_rules/create] for the store of
    [Scenario.config]. *)
Definition event : Views.WebhookEvent :=
  {| Views.ev_id := 1;
     Views.ev_webhook_id := "d-1";
     Views.ev_topic := "price_rules/create";
     Views.ev_shop_domain := "test-shop.myshopify.com";
     Views.ev_store := Some (store_id Scenario.config);
     Views.ev_status := Views.RECEIVED;
     Views.ev_payload_hash := "";
     Views.ev_error_message := "";
     Views.ev_processing_time_ms := None |}.

Definition ledger : Views.database :=
  {| Views.configs := [Scenario.config];
     Views.events := [event];
     Views.next_event_id := 2;
     Views.queue := [] |}.

(** The exception [get_products_sku] raises when its first request times
    out. *)
Definition wrapped_timeout : pyexc :=
  Resolver.wrap_error Resolver.SKU_ERROR
    (Exc ReqReadTimeout "HTTPSConnectionPool: Read timed out. (read timeout=300)").

(** A 10% rule on the whole basket from a subtotal of 50. *)
Definition basket_rule : pyval :=
  VDict [ ("id", VInt 777);
          ("title", VStr "Spend 50, save 10%");
          ("target_type", VStr "line_item");
          ("target_selection", VStr "all");
          ("value_type", VStr "percentage");
          ("value", VStr "-10.0");
          ("starts_at", VStr "2025-01-01T00:00:00+00:00");
          ("ends_at", VNone);
          ("once_per_customer", VBool true);
          ("prerequisite_subtotal_range",
           VDict [("greater_than_or_equal_to", VStr "50.0")]) ].

End PromotionScenario.

(* ===================================================================== *)
(** ** services/promotion_sync.py: the buy-X-get-Y builder                *)
(* ===================================================================== *)

Module Bxgy.

(** The attributes [build_bxgy_promotion] sets on the two
    [mpay_promo.Group] objects. *)
Record Group : Type := {
  name : string;
  qty_or_value_min : pyval;
  nodes : list Node
}.

(** The attributes [build_bxgy_promotion] sets on a
    [mpay_promo.Promotion]. *)
Record Promotion : Type := {
  retailer : pyval;
  stores : list string;
  promo_id : string;
  family : PromoFamily;
  layer : pyval;
  discount_apply_type : ApplicationType;
  date_start : Datetime.datetime;
  date_end : Datetime.datetime;
  availability : Availability;
  discount_value_on : DiscountOn;
  max_application_limit : Z;
  discount_type_strategy : DiscountTypeStrategy;
  discounted_group_item_selection_criteria : GroupItemSelectionCriteria;
  requisite_groups_item_selection_criteria : GroupItemSelectionCriteria;
  evaluate_criteria : PromoEvaluateCriteria;
  promo_is_active : bool;
  title : pyval;
  description : pyval;
  target_discounted_group_name : string;
  discount_type : DiscountType;
  discount_value : pyval;
  evaluate_priority : Z;
  target_discounted_group_qty_min : pyval;
  groups : list Group
}.

(** [class AutomaticCodesDiscountType] *)
Definition DiscountPercentage : string := "DiscountPercentage".
Definition DiscountAmount : string := "DiscountAmount".
Definition DiscountQuantity : string := "DiscountQuantity".
Definition DiscountOnQuantity : string := "DiscountOnQuantity".

(** [_extract_qty_or_value_min(value_block)] *)
Definition _extract_qty_or_value_min (value_block : pyval) : result pyval :=
  typename <- py_get_default value_block "__typename" (VStr "") ;;
  if py_eq_str typename DiscountPercentage then
    py_get_default value_block "percentage" (VStr "")
  else if py_eq_str typename DiscountOnQuantity then
    quantity <- py_get_default value_block "quantity" (VDict []) ;;
    py_get_default quantity "quantity" (VStr "")
  else if py_eq_str typename DiscountQuantity then
    py_get_default value_block "quantity" (VStr "")
  else if py_eq_str typename DiscountAmount then
    amount <- py_get_default value_block "amount" (VDict []) ;;
    py_get_default amount "amount" (VStr "")
  else Ok (VStr "").

(** The discount type and value read from [customerGets.value]. *)
Definition discount_of (discount_values : pyval) : result (DiscountType * pyval) :=
  discount_typename <- py_get_default discount_values "__typename" (VStr "") ;;
  if py_eq_str discount_typename DiscountOnQuantity
     || py_eq_str discount_typename DiscountPercentage then
    if py_eq_str discount_typename DiscountPercentage then
      percentage <- py_get discount_values "percentage" ;;
      Ok (PERCENT_OFF, percentage)
    else Ok (PERCENT_OFF, VInt 100)
  else if py_eq_str discount_typename DiscountAmount then
    amount <- py_get_default discount_values "amount" (VDict []) ;;
    value <- py_get amount "amount" ;;
    Ok (VALUE_OFF, value)
  else
    Raise (Exc ValueError_
             ("BXGY promotion: unknown discount type '" ++ py_str discount_typename ++ "'")).

(** What [build_bxgy_promotion] has in hand when it turns to the network:
    the two blocks, the minimum of the target group and the promotion
    without its groups. *)
Record head : Type := {
  customer_gets : pyval;
  customer_buys : pyval;
  target_qty_min : pyval;
  promotion : list Group -> Promotion
}.

(** The part of [build_bxgy_promotion] before SKU resolution. *)
Definition build_bxgy_promotion_head (automatic_discount : pyval)
    (config : ShopifyWebhookConfig) (current_date : Datetime.datetime)
  : result head :=
  promo_retailer <- py_get_default (extra_data config) "promo_retailer"
                      (VStr (store_id config)) ;;
  id <- py_item automatic_discount "id" ;;
  starts_at <- py_item automatic_discount "startsAt" ;;
  start <- PromotionSync.get_start_datetime starts_at ;;
  ends_at <- py_get automatic_discount "endsAt" ;;
  finish <- PromotionSync.get_end_datetime ends_at ;;
  rule_title <- py_get_default automatic_discount "title" (VStr "") ;;
  summary <- py_get_default automatic_discount "summary" (VStr "") ;;
  gets <- py_item automatic_discount "customerGets" ;;
  buys <- py_item automatic_discount "customerBuys" ;;
  discount_values <- py_get_default gets "value" (VDict []) ;;
  discount <- discount_of discount_values ;;
  priority <- PromotionSync.compute_evaluate_priority (fst discount) (snd discount) ;;
  minimum <- _extract_qty_or_value_min discount_values ;;
  Ok {| customer_gets := gets;
        customer_buys := buys;
        target_qty_min := minimum;
        promotion := fun gs =>
          {| retailer := promo_retailer;
             stores := [store_id config];
             promo_id := py_str id;
             family := REQUISITE_GROUPS_WITH_DISCOUNTED_TARGET;
             layer := VInt 1;
             discount_apply_type := BASKET;
             date_start := start;
             date_end := finish;
             availability := AVAILABILITY_ALL;
             discount_value_on := MRP;
             max_application_limit := 65535;
             discount_type_strategy := ALL_ITEMS;
             discounted_group_item_selection_criteria := LEAST_EXPENSIVE;
             requisite_groups_item_selection_criteria := LEAST_EXPENSIVE;
             evaluate_criteria := PRIORITY;
             promo_is_active :=
               PromotionSync.is_promotion_active current_date start finish;
             title := rule_title;
             description := summary;
             target_discounted_group_name := "g2";
             discount_type := fst discount;
             discount_value := snd discount;
             evaluate_priority := priority;
             target_discounted_group_qty_min := minimum;
             groups := gs |} |}.

(** The minimum of the requisite group, read after both resolutions. *)
Definition requisite_minimum (buys : pyval) : result pyval :=
  buys_value <- py_get_default buys "value" (VDict []) ;;
  _extract_qty_or_value_min buys_value.

(** [build_bxgy_promotion(automatic_discount, config)]: the target group
    ([customerGets]) is resolved first, the requisite group
    ([customerBuys]) second. *)
Definition build_bxgy_promotion (automatic_discount : pyval)
    (config : ShopifyWebhookConfig) (w : world) : outcome Promotion * world :=
  let settings := Builder.build_promotion_settings_from_config config in
  match build_bxgy_promotion_head automatic_discount config (now w) with
  | Raise e => Builder.failed e w
  | Ok h =>
      match py_get_default (customer_gets h) "items" (VDict []) with
      | Raise e => Builder.failed e w
      | Ok gets_items =>
          match Builder.resolve_skus_from_edges gets_items settings w with
          | (Done (Ok target_group_skus), w1) =>
              match py_get_default (customer_buys h) "items" (VDict []) with
              | Raise e => Builder.failed e w1
              | Ok buys_items =>
                  match Builder.resolve_skus_from_edges buys_items settings w1 with
                  | (Done (Ok requisite_group_skus), w2) =>
                      match requisite_minimum (customer_buys h) with
                      | Raise e => Builder.failed e w2
                      | Ok requisite_qty_min =>
                          let g1 := {| name := "g1";
                                       qty_or_value_min := requisite_qty_min;
                                       nodes := Builder.sku_nodes requisite_group_skus |} in
                          let g2 := {| name := "g2";
                                       qty_or_value_min := target_qty_min h;
                                       nodes := Builder.sku_nodes target_group_skus |} in
                          (Done (Ok (promotion h [g1; g2])), w2)
                      end
                  | (Done (Raise e), w2) => Builder.failed e w2
                  | (NoAnswer, w2) => (NoAnswer, w2)
                  | (OutOfFuel, w2) => (OutOfFuel, w2)
                  end
              end
          | (Done (Raise e), w1) => Builder.failed e w1
          | (NoAnswer, w1) => (NoAnswer, w1)
          | (OutOfFuel, w1) => (OutOfFuel, w1)
          end
      end
  end.

End Bxgy.

(* ===================================================================== *)
(** ** A worked buy-X-get-Y discount                                      *)
(* ===================================================================== *)

Module BxgyScenario.

(** Buy two of product 8, get one of product 7 for free. *)
Definition automatic_discount : pyval :=
  VDict [ ("id", VStr "99");
          ("title", VStr "Buy 2 get 1");
          ("summary", VStr "Buy 2 items, get 1 item free");
          ("startsAt", VStr "2025-01-01T00:00:00+00:00");
          ("endsAt", VNone);
          ("customerGets",
           VDict [ ("value",
                    VDict [ ("__typename", VStr "DiscountOnQuantity");
                            ("quantity", VDict [("quantity", VStr "1")]) ]);
                   ("items",
                    VDict [ ("products",
                             VDict [("edges",
                                     VList [Scenario.edge "gid://shopify/Product/7"])]) ]) ]);
          ("customerBuys",
           VDict [ ("value",
                    VDict [ ("__typename", VStr "DiscountQuantity");
                            ("quantity", VStr "2") ]);
                   ("items",
                    VDict [ ("products",
                             VDict [("edges",
                                     VList [Scenario.edge "gid://shopify/Product/8"])]) ]) ]) ].

(** The network answers for product 7, then for product 8. *)
Definition network : world :=
  Scenario.world_with [ Scenario.product_answer [VStr "SKU-GET"];
                        Scenario.product_answer [VStr "SKU-BUY"] ].

End BxgyScenario.

(* ===================================================================== *)
(** ** Vocabulary of the properties of a successful resolution            *)
(* ===================================================================== *)

(** The barcode a variant carries, [None] when it has none. *)
Definition barcode_of (variant : list (string * pyval)) : pyval :=
  match assoc "barcode" variant with
  | Some barcode => barcode
  | None => VNone
  end.

(** The barcodes of the variants of a product that are not empty. *)
Definition kept_barcodes (variants : list (list (string * pyval))) : list pyval :=
  filter truthy (map barcode_of variants).

(** The answer is a 200 whose body holds, under ["product"], a product
    with these variants. *)
Definition product_found (variants : list (list (string * pyval))) (answer : net_event)
  : Prop :=
  exists body product,
    answer = Response 200 (Ok (VDict body)) /\
    assoc "product" body = Some (VDict product) /\
    assoc "variants" product = Some (VList (map VDict variants)).

(** The answer is a 200 whose body lists, under ["products"], these
    products. *)
Definition collection_found (products : list (list (string * pyval)))
    (answer : net_event) : Prop :=
  exists body,
    answer = Response 200 (Ok (VDict body)) /\
    assoc "products" body = Some (VList (map VDict products)).

(** [product.get("id")] *)
Definition product_id_of (product : list (string * pyval)) : pyval :=
  match assoc "id" product with
  | Some id => id
  | None => VNone
  end.

(** The requests for the products [ids], in order. *)
Definition product_requests (settings : promotion_settings) (ids : list pyval)
  : list effect :=
  map (fun id => Get (product_url (products_sku_fetch_endpoint settings) id)) ids.

(** The answer is a 200 whose body holds, under ["variant"], this
    variant. *)
Definition variant_found (variant : list (string * pyval)) (answer : net_event) : Prop :=
  exists body,
    answer = Response 200 (Ok (VDict body)) /\
    assoc "variant" body = Some (VDict variant).

(** The requests for the variants [ids], in order. *)
Definition variant_requests (settings : promotion_settings) (ids : list pyval)
  : list effect :=
  map (fun id => Get (variants_sku_fetch_endpoint settings ++ "/" ++ py_str id ++ ".json"))
      ids.

(* ===================================================================== *)
(** ** Vocabulary of the properties of the configuration flags            *)
(* ===================================================================== *)

(** The configuration with its three sync flags set anew. *)
Definition with_sync_flags (inventory promotions orders : bool)
    (c : ShopifyWebhookConfig) : ShopifyWebhookConfig :=
  {| store_id := store_id c;
     retailer_id := retailer_id c;
     shopify_domain := shopify_domain c;
     api_access_token := api_access_token c;
     webhook_secret := webhook_secret c;
     api_version := api_version c;
     sync_inventory := inventory;
     sync_promotions := promotions;
     sync_orders_to_shopify := orders;
     extra_data := extra_data c;
     is_active := is_active c |}.

(** The configuration with [is_active] set anew. *)
Definition with_is_active (active : bool) (c : ShopifyWebhookConfig)
  : ShopifyWebhookConfig :=
  {| store_id := store_id c;
     retailer_id := retailer_id c;
     shopify_domain := shopify_domain c;
     api_access_token := api_access_token c;
     webhook_secret := webhook_secret c;
     api_version := api_version c;
     sync_inventory := sync_inventory c;
     sync_promotions := sync_promotions c;
     sync_orders_to_shopify := sync_orders_to_shopify c;
     extra_data := extra_data c;
     is_active := active |}.

(** The tables after every configuration was replaced by [change] of
    it. *)
Definition reconfigure (change : ShopifyWebhookConfig -> ShopifyWebhookConfig)
    (db : Views.database) : Views.database :=
  {| Views.configs := map change (Views.configs db);
     Views.events := Views.events db;
     Views.next_event_id := Views.next_event_id db;
     Views.queue := Views.queue db |}.

(** A change that touches the sync flags only. *)
Definition changes_sync_flags_only
    (change : ShopifyWebhookConfig -> ShopifyWebhookConfig) : Prop :=
  forall c, exists inventory promotions orders,
    change c = with_sync_flags inventory promotions orders c.

(** A change that touches the sync flags and [is_active] only. *)
Definition changes_flags_only
    (change : ShopifyWebhookConfig -> ShopifyWebhookConfig) : Prop :=
  forall c, exists inventory promotions orders active,
    change c = with_is_active active (with_sync_flags inventory promotions orders c).

(* ===================================================================== *)
(** * Properties                                                          *)
(* ===================================================================== *)

(** ** GID round trip *)

Lemma split_nonempty (sep : ascii) (s : string) : split sep s <> [].
Proof.
  destruct s as [|c rest]; simpl; [discriminate|].
  destruct (Ascii.eqb c sep); [discriminate|].
  destruct (split sep rest); discriminate.
Qed.

(** Without a separator the string is its own single field. *)
Lemma split_no_sep (sep : ascii) (s : string) :
  contains_char sep s = false -> split sep s = [s].
Proof.
  induction s as [|c rest IH]; simpl; intros H; [reflexivity|].
  apply orb_false_iff in H as [Hc Hrest].
  rewrite Hc, (IH Hrest). reflexivity.
Qed.

Lemma last_default_irrelevant {A : Type} (x d d' : A) (l : list A) :
  last (x :: l) d = last (x :: l) d'.
Proof.
  revert x; induction l as [|y l IH]; intros x; [reflexivity|].
  change (last (y :: l) d = last (y :: l) d'). apply IH.
Qed.

Lemma last_cons {A : Type} (x d : A) (l : list A) : last (x :: l) d = last l x.
Proof.
  destruct l as [|y l]; [reflexivity|].
  change (last (y :: l) d = last (y :: l) x). apply last_default_irrelevant.
Qed.

Lemma last_item_cons (p q : string) (l : list string) :
  last_item (p :: q :: l) = last_item (q :: l).
Proof. unfold last_item. now rewrite last_cons. Qed.

(** A string that contains the separator has at least two fields. *)
Lemma split_app_sep_two (sep : ascii) (prefix s : string) :
  exists f g gs, split sep (prefix ++ String sep s) = f :: g :: gs.
Proof.
  induction prefix as [|c rest (f & g & gs & IH)]; simpl.
  - rewrite Ascii.eqb_refl.
    destruct (split sep s) as [|g gs] eqn:E; [now apply split_nonempty in E|].
    now exists EmptyString, g, gs.
  - rewrite IH. destruct (Ascii.eqb c sep); eauto.
Qed.

(** The last field of [prefix ++ sep ++ s] is the last field of [s]. *)
Lemma last_item_split_app (sep : ascii) (prefix s : string) :
  last_item (split sep (prefix ++ String sep s)) = last_item (split sep s).
Proof.
  induction prefix as [|c rest IH]; simpl.
  - rewrite Ascii.eqb_refl.
    destruct (split sep s) as [|f fs] eqn:E; [now apply split_nonempty in E|].
    apply last_item_cons.
  - rewrite <- IH.
    destruct (split_app_sep_two sep rest s) as (f & g & gs & E). rewrite E.
    destruct (Ascii.eqb c sep); now rewrite !last_item_cons.
Qed.

Lemma string_app_assoc (a b c : string) : ((a ++ b) ++ c = a ++ (b ++ c))%string.
Proof. induction a; simpl; congruence. Qed.

(** The last field of a GID is the identifier it was built from. *)
Lemma last_field_of_gid (t : string) (n : Gid.numeric_id) :
  contains_char "/" (Gid.format_id n) = false ->
  Gid.extract_id (Gid.to_shopify_gid t n) = Ok (Gid.format_id n).
Proof.
  intros Hn. unfold Gid.extract_id, Gid.to_shopify_gid.
  change ("gid://shopify/" ++ t ++ "/" ++ Gid.format_id n)
    with ("gid://shopify/" ++ (t ++ String "/" (Gid.format_id n))).
  rewrite <- string_app_assoc.
  rewrite last_item_split_app.
  rewrite (split_no_sep _ _ Hn). reflexivity.
Qed.

(** The decimal form of an int never contains '/', so the round trip holds
    for every int identifier. *)
Lemma str_of_uint_no_slash (d : Decimal.uint) :
  contains_char "/" (NilEmpty.string_of_uint d) = false.
Proof. induction d; simpl; auto. Qed.

Lemma str_of_int_no_slash (z : Z) : contains_char "/" (str_of_int z) = false.
Proof.
  unfold str_of_int, NilZero.string_of_int, NilZero.string_of_uint.
  destruct (Z.to_int z) as [d|d]; destruct d; simpl;
    try reflexivity; apply str_of_uint_no_slash.
Qed.

Corollary int_gid_round_trip (t : string) (z : Z) :
  Gid.extract_id (Gid.to_shopify_gid t (Gid.IdInt z)) = Ok (str_of_int z).
Proof. apply (last_field_of_gid t (Gid.IdInt z)), str_of_int_no_slash. Qed.

(** C10. For every resource type [t] and identifier [n] whose string form
    contains no '/', extracting the numeric id from the GID built from
    [t] and [n] gives back [str(n)]. *)
Theorem extract_id_to_shopify_gid (t : string) (n : Gid.numeric_id) :
  contains_char "/" (Gid.format_id n) = false ->
  Gid.extract_id (Gid.to_shopify_gid t n) = Ok (Gid.format_id n).
Proof. exact (last_field_of_gid t n). Qed.

Lemma extract_id_to_shopify_gid_witness :
  contains_char "/" (Gid.format_id (Gid.IdInt 50840830771431)) = false /\
  Gid.extract_id (Gid.to_shopify_gid "ProductVariant" (Gid.IdInt 50840830771431))
    = Ok "50840830771431".
Proof.
  split; [reflexivity|].
  apply (extract_id_to_shopify_gid "ProductVariant" (Gid.IdInt 50840830771431)).
  reflexivity.
Defined.

(** ** Retry classification *)

(** Six levels are enough for the class hierarchy: more fuel gives the same
    answer. *)
Lemma issubclass_fuel_step (c d : exc_class) :
  issubclass_fuel 7 c d = issubclass_fuel 6 c d.
Proof. destruct c, d; reflexivity. Qed.

Lemma issubclass_fuel_stable (n : nat) (c d : exc_class) :
  issubclass_fuel (6 + n) c d = issubclass c d.
Proof.
  unfold issubclass. revert c. induction n as [|n IH]; intros c; [reflexivity|].
  rewrite <- issubclass_fuel_step.
  replace (6 + S n)%nat with (S (6 + n)) by lia.
  change (issubclass_fuel (S (6 + n)) c d)
    with (exc_class_eqb c d || existsb (fun b => issubclass_fuel (6 + n) b d) (bases c)).
  change (issubclass_fuel 7 c d)
    with (exc_class_eqb c d || existsb (fun b => issubclass_fuel 6 b d) (bases c)).
  f_equal. induction (bases c) as [|b bs IHb]; [reflexivity|].
  cbn [existsb]. now rewrite IH, IHb.
Qed.

(** Exactly which exceptions [should_retry] accepts: the whole [OSError]
    family (to which every [requests] exception belongs) and every
    exception that carries a 429 or 5xx response. *)
Lemma should_retry_characterised (n : Z) (e : Tasks.exception) :
  Tasks.should_retry n e =
    issubclass (Tasks.exc_class_of e) OSError_ || Tasks.carries_transient_status e.
Proof.
  unfold Tasks.should_retry, Tasks.carries_transient_status, Tasks.isinstance.
  destruct e as [c r]; simpl.
  destruct c; simpl;
    destruct r as [[s|]|]; simpl; try reflexivity;
    destruct ((s =? 429) || ((500 <=? s) && (s <? 600))); reflexivity.
Qed.

(** Everything the docstring calls transient is retried. *)
Lemma should_retry_transient (n : Z) (e : Tasks.exception) :
  Tasks.transient_by_docstring e = true -> Tasks.should_retry n e = true.
Proof.
  rewrite should_retry_characterised.
  unfold Tasks.transient_by_docstring, Tasks.is_connection_failure,
    Tasks.is_timeout, Tasks.isinstance.
  unfold Tasks.carries_transient_status.
  destruct e as [c r]; simpl.
  destruct r as [[s|]|]; simpl;
    try destruct ((s =? 429) || ((500 <=? s) && (s <? 600)));
    destruct c; simpl; intros H; try reflexivity; discriminate H.
Qed.

(** C9. [should_retry] at an HTTP 404 raised by [raise_for_status]: the
    exception is neither a connection failure nor a timeout and carries no
    429 or 5xx status, so the docstring and the specification call it
    permanent, yet [should_retry] answers [True], whatever the retry
    count: [requests.HTTPError] derives from [OSError]. *)
Theorem should_retry_http_404_retried :
  Tasks.transient_by_docstring (Tasks.http_error 404) = false /\
  forall n : Z, Tasks.should_retry n (Tasks.http_error 404) = true.
Proof. split; [reflexivity | intros n; reflexivity]. Qed.

(** Outside the [OSError] family the docstring and the code agree. *)
Lemma should_retry_agrees_outside_oserror (n : Z) (e : Tasks.exception) :
  issubclass (Tasks.exc_class_of e) OSError_ = false ->
  Tasks.should_retry n e = Tasks.transient_by_docstring e.
Proof.
  intros H. rewrite should_retry_characterised, H. simpl.
  unfold Tasks.transient_by_docstring, Tasks.is_connection_failure,
    Tasks.is_timeout, Tasks.isinstance.
  destruct e as [c r]; simpl in *.
  destruct c; simpl in *; try reflexivity; discriminate H.
Qed.

Lemma should_retry_agrees_outside_oserror_witness :
  Tasks.should_retry 0 {| Tasks.exc_class_of := ValueError_; Tasks.exc_response := None |}
  = false.
Proof.
  rewrite (should_retry_agrees_outside_oserror 0
             {| Tasks.exc_class_of := ValueError_; Tasks.exc_response := None |});
    reflexivity.
Defined.

(** ** Active window *)

Lemma option_bind_some {A B : Type} (o : option A) (k : A -> option B) (b : B) :
  Datetime.option_bind o k = Some b -> exists a, o = Some a /\ k a = Some b.
Proof. destruct o as [a|]; simpl; [eauto | discriminate]. Qed.

Lemma days_in_month_pos (year month : Z) : 0 < Datetime.days_in_month year month.
Proof.
  unfold Datetime.days_in_month.
  destruct (month =? 2); [destruct (Datetime.is_leap year); lia|].
  destruct ((month =? 4) || (month =? 6) || (month =? 9) || (month =? 11)); lia.
Qed.

Lemma days_before_month_upto_nonneg (year : Z) (k : nat) :
  0 <= Datetime.days_before_month_upto year k.
Proof.
  induction k as [|k IH]; simpl; [lia|].
  pose proof (days_in_month_pos year (Z.of_nat (S k))). simpl in *. lia.
Qed.

Lemma days_before_year_nonneg (year : Z) :
  1 <= year -> 0 <= Datetime.days_before_year year.
Proof.
  intros H. unfold Datetime.days_before_year.
  set (y := year - 1). assert (0 <= y) by (unfold y; lia).
  pose proof (Z.div_pos y 4 ltac:(lia) ltac:(lia)).
  pose proof (Z.div_pos y 400 ltac:(lia) ltac:(lia)).
  assert (y / 100 <= y).
  { apply Z.div_le_upper_bound; lia. }
  lia.
Qed.

(** A parsed date lies on or after day 1. *)
Lemma parse_iso_ordinal_pos (s : string) (dt : Datetime.datetime) :
  Datetime.parse_iso s = Some dt -> 1 <= Datetime.ordinal dt.
Proof.
  unfold Datetime.parse_iso. intros H.
  repeat (apply option_bind_some in H as (? & _ & H);
          try match type of H with
              | (let '(_, _) := ?p in _) = _ => destruct p
              end).
  match type of H with
  | (if ?c then _ else _) = _ => destruct c eqn:C; [|discriminate]
  end.
  injection H as <-. simpl.
  repeat (apply andb_prop in C as [C ?]).
  unfold Datetime.ymd2ord, Datetime.days_before_month.
  match goal with
  | |- 1 <= Datetime.days_before_year ?y + Datetime.days_before_month_upto ?y ?k + ?d =>
      pose proof (days_before_year_nonneg y ltac:(lia));
      pose proof (days_before_month_upto_nonneg y k)
  end.
  lia.
Qed.

(** The start bound is the parsed date itself. *)
Lemma get_start_datetime_is_parse (v : pyval) :
  PromotionSync.get_start_datetime v = Datetime.strptime v.
Proof. reflexivity. Qed.

(** A given end date is pushed back by exactly one day. *)
Lemma get_end_datetime_given (s : string) (dt : Datetime.datetime) :
  Datetime.strptime (VStr s) = Ok dt ->
  Datetime.ordinal dt < Datetime.MAXORDINAL ->
  exists e,
    PromotionSync.get_end_datetime (VStr s) = Ok e /\
    Datetime.ordinal e = Datetime.ordinal dt + 1 /\
    Datetime.second_of_day e = Datetime.second_of_day dt /\
    Datetime.utcoffset e = Datetime.utcoffset dt /\
    Datetime.utc_instant e = Datetime.utc_instant dt + 86400.
Proof.
  intros Hparse Hmax.
  assert (Hpos : 1 <= Datetime.ordinal dt).
  { unfold Datetime.strptime in Hparse.
    destruct (Datetime.parse_iso s) as [d|] eqn:E; [|discriminate].
    injection Hparse as <-. exact (parse_iso_ordinal_pos _ _ E). }
  unfold PromotionSync.get_end_datetime. rewrite Hparse. simpl.
  unfold Datetime.add_days.
  replace ((0 <? Datetime.ordinal dt + 1) &&
           (Datetime.ordinal dt + 1 <=? Datetime.MAXORDINAL)) with true
    by (symmetry; apply andb_true_intro; split; [apply Z.ltb_lt | apply Z.leb_le]; lia).
  eexists; split; [reflexivity|]. unfold Datetime.utc_instant. simpl.
  repeat split; lia.
Qed.




(** ** Evaluation priority *)

Lemma quot_negative (n d : Z) : n < 0 -> 0 < d -> Z.quot n d = - ((- n) / d).
Proof.
  intros Hn Hd. rewrite <- (Z.quot_div_nonneg (- n) d) by lia.
  rewrite (Z.quot_opp_l n d) by lia. lia.
Qed.

(** Truncation toward zero is monotone on the rationals. *)
Lemma Qtrunc_monotone (p q : Q) : (p <= q)%Q -> Qtrunc p <= Qtrunc q.
Proof.
  unfold Qle, Qtrunc. destruct p as [n1 d1], q as [n2 d2]; simpl. intros H.
  assert (D1 : 0 < Z.pos d1) by lia. assert (D2 : 0 < Z.pos d2) by lia.
  set (a := Z.pos d1) in *. set (b := Z.pos d2) in *.
  destruct (Z.le_gt_cases 0 n1) as [N1|N1].
  - assert (N2 : 0 <= n2) by nia.
    rewrite !Z.quot_div_nonneg by lia.
    apply Z.div_le_lower_bound; [lia|].
    pose proof (Z.mul_div_le n1 a D1). nia.
  - rewrite (quot_negative n1 a N1 D1).
    pose proof (Z.div_pos (- n1) a ltac:(lia) D1).
    destruct (Z.le_gt_cases 0 n2) as [N2|N2].
    + rewrite (Z.quot_div_nonneg n2) by lia.
      pose proof (Z.div_pos n2 b N2 D2). lia.
    + rewrite (quot_negative n2 b N2 D2).
      apply Z.opp_le_mono. rewrite !Z.opp_involutive.
      apply Z.div_le_lower_bound; [lia|].
      pose proof (Z.mul_div_le (- n2) b D2). nia.
Qed.

(** On non-negative rationals truncation is the floor. *)
Lemma Qtrunc_floor_nonneg (q : Q) : (0 <= q)%Q -> Qtrunc q = Qfloor q.
Proof.
  unfold Qle, Qtrunc, Qfloor. destruct q as [n d]; simpl. intros H.
  apply Z.quot_div_nonneg; lia.
Qed.

Lemma Qtrunc_inject_Z (n : Z) : Qtrunc (inject_Z n) = n.
Proof. unfold Qtrunc, inject_Z. simpl. apply Z.quot_1_r. Qed.

Lemma Qtrunc_Qred (q : Q) : Qtrunc (Qred q) = Qtrunc q.
Proof.
  apply Z.le_antisymm; apply Qtrunc_monotone;
    rewrite Qred_correct; apply Qle_refl.
Qed.

(** Percentage branch on a value that converts to a finite number. *)
Lemma priority_percent_finite (v : pyval) (p : Q) :
  py_float v = Ok (Fin p) ->
  PromotionSync.compute_evaluate_priority PERCENT_OFF v
    = Ok (Z.max 0 (100 - Qtrunc p)).
Proof.
  intros H. unfold PromotionSync.compute_evaluate_priority. rewrite H. reflexivity.
Qed.

(** In the percentage branch nothing is caught: what [float] or [int]
    raises comes out of the function. *)
Lemma priority_percent_raises (v : pyval) (e : pyexc) :
  py_float v = Raise e ->
  PromotionSync.compute_evaluate_priority PERCENT_OFF v = Raise e.
Proof.
  intros H. unfold PromotionSync.compute_evaluate_priority. rewrite H. simpl.
  unfold py_float in H.
  destruct v as [|b|n|x|x|s|l|d]; try discriminate;
    try (injection H as <-; reflexivity).
  destruct (parse_number s); [discriminate|]. injection H as <-. reflexivity.
Qed.

(** Fixed-amount branch on a finite, non-zero amount. *)
Lemma priority_value_finite (v : pyval) (a : Q) :
  py_decimal v = Ok (Fin a) -> ~ (a == 0)%Q ->
  PromotionSync.compute_evaluate_priority VALUE_OFF v
    = Ok (Qtrunc (inject_Z 10000 / a)).
Proof.
  intros H Ha. unfold PromotionSync.compute_evaluate_priority. rewrite H.
  unfold bind, decimal_rdiv.
  destruct (Qeq_bool a 0) eqn:E.
  - apply Qeq_bool_iff in E. contradiction.
  - unfold py_int_of_number, try_except. now rewrite Qtrunc_Qred.
Qed.

(** Fixed-amount branch on a zero amount. *)
Lemma priority_value_zero (v : pyval) (a : Q) :
  py_decimal v = Ok (Fin a) -> (a == 0)%Q ->
  PromotionSync.compute_evaluate_priority VALUE_OFF v = Ok 32767.
Proof.
  intros H Ha. unfold PromotionSync.compute_evaluate_priority. rewrite H.
  unfold bind, decimal_rdiv.
  apply Qeq_bool_iff in Ha. rewrite Ha. reflexivity.
Qed.

(** Fixed-amount branch on a string that is not a numeric literal. *)
Lemma priority_value_malformed (s : string) :
  parse_number s = None ->
  PromotionSync.compute_evaluate_priority VALUE_OFF (VStr s) = Ok 32767.
Proof.
  intros H. unfold PromotionSync.compute_evaluate_priority. simpl.
  rewrite H. reflexivity.
Qed.

Lemma Qdiv_pos (a : Q) : (0 < a)%Q -> (0 <= inject_Z 10000 / a)%Q.
Proof.
  intros Ha. unfold Qdiv. apply Qmult_le_0_compat; [discriminate|].
  apply Qlt_le_weak, Qinv_lt_0_compat, Ha.
Qed.




(** ** SKU resolution: the work queue *)

Lemma emit_emit (w : world) (a b : list effect) :
  emit (emit w a) b = emit w (a ++ b).
Proof. unfold emit. simpl. now rewrite app_assoc. Qed.

Lemma emit_nil (w : world) : emit w [] = w.
Proof. destruct w. unfold emit. simpl. now rewrite app_nil_r. Qed.

Lemma pending_emit (w : world) (a : list effect) : pending (emit w a) = pending w.
Proof. reflexivity. Qed.

Lemma pending_with_pending (w : world) (l : list net_event) :
  pending (with_pending w l) = l.
Proof. reflexivity. Qed.

(** One iteration of [get_products_sku] on a 429: the identifier is back at
    the front of the queue, nothing was collected, and the loop goes on
    after the delay. *)
Lemma sku_loop_rate_limited base answers w id rest skus json :
  Resolver.get_products_sku_loop base (Response 429 json :: answers) w (id :: rest) skus
  = Resolver.get_products_sku_loop base answers
      (emit w [Get (product_url base id); Sleep Resolver.RETRY_DELAY])
      (id :: rest) skus.
Proof. simpl. now rewrite emit_emit. Qed.

(** One iteration on any other status but 200: the identifier is dropped
    with an alert and the loop goes on with the rest of the queue. *)
Lemma sku_loop_rejected base answers w id rest skus status json :
  status <> 429 -> status <> 200 ->
  Resolver.get_products_sku_loop base (Response status json :: answers) w (id :: rest) skus
  = Resolver.get_products_sku_loop base answers
      (emit w [Get (product_url base id);
               Resolver.alert w (" - get_products_sku status code - " ++ str_of_int status)])
      rest skus.
Proof.
  intros H1 H2. simpl.
  apply Z.eqb_neq in H1, H2. rewrite H1, H2. simpl. now rewrite emit_emit.
Qed.

(** One iteration on a transport exception: the call raises, whatever was
    collected so far. *)
Lemma sku_loop_transport base answers w id rest skus e :
  fst (Resolver.get_products_sku_loop base (Transport e :: answers) w (id :: rest) skus)
  = Done (Raise (Resolver.wrap_error Resolver.SKU_ERROR e)).
Proof. reflexivity. Qed.

(** A retry cycle of [n] rate-limited answers leaves queue and result as
    they were. *)
Lemma sku_loop_retry_cycle base (n : nat) answers w id rest skus json :
  Resolver.get_products_sku_loop base
    (repeat (Response 429 json) n ++ answers) w (id :: rest) skus
  = Resolver.get_products_sku_loop base answers
      (emit w (retry_effects (product_url base id) n)) (id :: rest) skus.
Proof.
  revert w. induction n as [|n IH]; intros w.
  - simpl repeat. simpl retry_effects. now rewrite emit_nil.
  - change (repeat (Response 429 json) (S n) ++ answers)%list
      with (Response 429 json :: (repeat (Response 429 json) n ++ answers))%list.
    rewrite sku_loop_rate_limited, IH, emit_emit. reflexivity.
Qed.

(** If [get_products_sku] returns, the answers it used up are a prefix of
    the pending ones and none of them was a transport exception. *)
Lemma sku_loop_returns base answers :
  forall w ids skus r w',
    Resolver.get_products_sku_loop base answers w ids skus = (Done (Ok r), w') ->
    exists used, answers = (used ++ pending w')%list /\ Forall is_response used.
Proof.
  induction answers as [|ev answers IH]; intros w ids skus r w' H.
  - destruct ids as [|id rest]; simpl in H; [|discriminate].
    injection H as _ <-. exists []. split; [reflexivity | constructor].
  - destruct ids as [|id rest].
    + simpl in H. injection H as _ <-. exists []. split; [reflexivity | constructor].
    + simpl in H. destruct ev as [status json|e]; [|discriminate].
      assert (Hstep : forall w1 ids1 skus1,
                 Resolver.get_products_sku_loop base answers w1 ids1 skus1 = (Done (Ok r), w') ->
                 exists used, Response status json :: answers = (used ++ pending w')%list
                              /\ Forall is_response used).
      { intros w1 ids1 skus1 H1. destruct (IH _ _ _ _ _ H1) as (used & -> & Hall).
        exists (Response status json :: used). split; [reflexivity|].
        constructor; [exact I | exact Hall]. }
      destruct (status =? 429); [eapply Hstep, H|].
      destruct (negb (status =? 200)); [eapply Hstep, H|].
      destruct (Resolver.product_barcodes json skus); [eapply Hstep, H | discriminate].
Qed.

(** The answers [get_products_sku] leaves are a suffix of those it found. *)
Lemma sku_loop_pending base answers :
  forall w ids skus o w',
    Resolver.get_products_sku_loop base answers w ids skus = (o, w') ->
    (List.length (pending w') <= List.length answers)%nat.
Proof.
  induction answers as [|ev answers IH]; intros w ids skus o w' H.
  - destruct ids; simpl in H; injection H as _ <-; simpl; lia.
  - destruct ids as [|id rest].
    + simpl in H. injection H as _ <-. simpl. lia.
    + simpl in H. destruct ev as [status json|e].
      * assert (Hstep : forall w1 ids1 skus1,
                   Resolver.get_products_sku_loop base answers w1 ids1 skus1 = (o, w') ->
                   (List.length (pending w') <= S (List.length answers))%nat).
        { intros w1 ids1 skus1 H1. specialize (IH _ _ _ _ _ H1). lia. }
        simpl List.length.
        destruct (status =? 429); [eapply Hstep, H|].
        destruct (negb (status =? 200)); [eapply Hstep, H|].
        destruct (Resolver.product_barcodes json skus); [eapply Hstep, H|].
        injection H as _ <-. simpl. lia.
      * injection H as _ <-. simpl. lia.
Qed.

(** [get_products_sku] itself never runs out of fuel: it has none. *)
Lemma sku_loop_no_fuel base answers :
  forall w ids skus w',
    Resolver.get_products_sku_loop base answers w ids skus <> (OutOfFuel, w').
Proof.
  induction answers as [|ev answers IH]; intros w ids skus w' H.
  - destruct ids; simpl in H; discriminate.
  - destruct ids as [|id rest]; simpl in H; [discriminate|].
    destruct ev as [status json|e]; [|discriminate].
    destruct (status =? 429); [eapply IH, H|].
    destruct (negb (status =? 200)); [eapply IH, H|].
    destruct (Resolver.product_barcodes json skus); [eapply IH, H | discriminate].
Qed.

Lemma get_products_sku_returns ids settings w r w' :
  Resolver.get_products_sku ids settings w = (Done (Ok r), w') ->
  exists used, pending w = (used ++ pending w')%list /\ Forall is_response used.
Proof. apply sku_loop_returns. Qed.

(** The same for [get_sku_from_variants]. *)
Lemma variants_loop_returns base answers :
  forall w ids skus r w',
    Resolver.get_sku_from_variants_loop base answers w ids skus = (Done (Ok r), w') ->
    exists used, answers = (used ++ pending w')%list /\ Forall is_response used.
Proof.
  induction answers as [|ev answers IH]; intros w ids skus r w' H.
  - destruct ids as [|id rest]; simpl in H; [|discriminate].
    injection H as _ <-. exists []. split; [reflexivity | constructor].
  - destruct ids as [|id rest].
    + simpl in H. injection H as _ <-. exists []. split; [reflexivity | constructor].
    + simpl in H. destruct ev as [status json|e]; [|discriminate].
      assert (Hstep : forall w1 ids1 skus1,
                 Resolver.get_sku_from_variants_loop base answers w1 ids1 skus1
                   = (Done (Ok r), w') ->
                 exists used, Response status json :: answers = (used ++ pending w')%list
                              /\ Forall is_response used).
      { intros w1 ids1 skus1 H1. destruct (IH _ _ _ _ _ H1) as (used & -> & Hall).
        exists (Response status json :: used). split; [reflexivity|].
        constructor; [exact I | exact Hall]. }
      destruct (status =? 429); [eapply Hstep, H|].
      destruct (negb (status =? 200)); [eapply Hstep, H|].
      destruct (Resolver.variant_barcode json skus); [eapply Hstep, H | discriminate].
Qed.

Lemma variants_loop_rate_limited base answers w id rest skus json :
  Resolver.get_sku_from_variants_loop base (Response 429 json :: answers) w (id :: rest) skus
  = Resolver.get_sku_from_variants_loop base answers
      (emit w [Get (product_url base id); Sleep Resolver.RETRY_DELAY])
      (id :: rest) skus.
Proof. simpl. now rewrite emit_emit. Qed.

Lemma variants_loop_rejected base answers w id rest skus status json :
  status <> 429 -> status <> 200 ->
  Resolver.get_sku_from_variants_loop base (Response status json :: answers) w (id :: rest) skus
  = Resolver.get_sku_from_variants_loop base answers
      (emit w [Get (product_url base id);
               Resolver.alert w (" - get_sku_from_variants status code - "
                                   ++ str_of_int status)])
      rest skus.
Proof.
  intros H1 H2. simpl.
  apply Z.eqb_neq in H1, H2. rewrite H1, H2. simpl. now rewrite emit_emit.
Qed.

Lemma variants_loop_transport base answers w id rest skus e :
  fst (Resolver.get_sku_from_variants_loop base (Transport e :: answers) w (id :: rest) skus)
  = Done (Raise (Resolver.wrap_error Resolver.COLLECTION_ERROR e)).
Proof. reflexivity. Qed.

Lemma get_sku_from_variants_returns ids settings w r w' :
  Resolver.get_sku_from_variants ids settings w = (Done (Ok r), w') ->
  exists used, pending w = (used ++ pending w')%list /\ Forall is_response used.
Proof. apply variants_loop_returns. Qed.

(** *** Collections *)

Lemma coll_loop_rate_limited fuel settings w answers id rest pids skus json :
  pending w = Response 429 json :: answers ->
  Resolver.get_products_from_collections_loop (S fuel) settings w (id :: rest) pids skus
  = Resolver.get_products_from_collections_loop fuel settings
      (emit (with_pending w answers)
            [Get (collection_url settings id); Sleep Resolver.RETRY_DELAY])
      (id :: rest) pids skus.
Proof.
  intros H. simpl. rewrite H. simpl.
  f_equal. unfold emit, with_pending. simpl. now rewrite <- app_assoc.
Qed.

Lemma coll_loop_rejected fuel settings w answers id rest pids skus status json :
  pending w = Response status json :: answers ->
  status <> 429 -> status <> 200 ->
  Resolver.get_products_from_collections_loop (S fuel) settings w (id :: rest) pids skus
  = Resolver.get_products_from_collections_loop fuel settings
      (emit (with_pending w answers)
            [Get (collection_url settings id);
             Resolver.alert w (" - get_products_from_collections status code - "
                                 ++ str_of_int status)])
      rest pids skus.
Proof.
  intros H H1 H2. simpl. rewrite H. simpl.
  apply Z.eqb_neq in H1, H2. rewrite H1, H2. simpl.
  f_equal. unfold emit, with_pending. simpl. now rewrite <- app_assoc.
Qed.

Lemma coll_loop_transport fuel settings w answers id rest pids skus e :
  pending w = Transport e :: answers ->
  fst (Resolver.get_products_from_collections_loop (S fuel) settings w (id :: rest) pids skus)
  = Done (Raise (Resolver.wrap_error Resolver.COLLECTION_ERROR e)).
Proof. intros H. simpl. rewrite H. reflexivity. Qed.

Lemma coll_loop_returns fuel settings :
  forall w ids pids skus r w',
    Resolver.get_products_from_collections_loop fuel settings w ids pids skus
      = (Done (Ok r), w') ->
    exists used, pending w = (used ++ pending w')%list /\ Forall is_response used.
Proof.
  induction fuel as [|fuel IH]; intros w ids pids skus r w' H; [discriminate|].
  destruct ids as [|id rest].
  - simpl in H. injection H as _ <-. exists []. split; [reflexivity | constructor].
  - simpl in H. destruct (pending w) as [|ev answers] eqn:P; [discriminate|].
    destruct ev as [status json|e]; [|discriminate].
    assert (Hstep : forall w1 ids1 pids1 skus1 mid,
               Forall is_response mid ->
               answers = (mid ++ pending w1)%list ->
               Resolver.get_products_from_collections_loop fuel settings w1 ids1 pids1 skus1
                 = (Done (Ok r), w') ->
               exists used, Response status json :: answers = (used ++ pending w')%list
                            /\ Forall is_response used).
    { intros w1 ids1 pids1 skus1 mid Hmid Hw1 H1.
      destruct (IH _ _ _ _ _ _ H1) as (used & E & Hall).
      exists (Response status json :: mid ++ used)%list. split.
      - rewrite Hw1, E. simpl. now rewrite app_assoc.
      - constructor; [exact I|]. apply Forall_app. split; assumption. }
    destruct (status =? 429);
      [refine (Hstep _ _ _ _ [] (Forall_nil _) _ H); reflexivity|].
    destruct (negb (status =? 200));
      [refine (Hstep _ _ _ _ [] (Forall_nil _) _ H); reflexivity|].
    destruct (Resolver.collection_product_ids json pids) as [pids'|e]; [|discriminate].
    destruct (Resolver.get_products_sku pids' settings _) as [[[sku|e]| |] w1] eqn:Inner;
      try discriminate.
    apply get_products_sku_returns in Inner as (mid & Emid & Hmid).
    simpl in Emid. exact (Hstep _ _ _ _ mid Hmid Emid H).
Qed.

Lemma get_products_from_collections_returns ids settings w r w' :
  Resolver.get_products_from_collections ids settings w = (Done (Ok r), w') ->
  exists used, pending w = (used ++ pending w')%list /\ Forall is_response used.
Proof. apply coll_loop_returns. Qed.

(** With more fuel than pending answers the collection loop never stops
    for lack of fuel: it returns, raises or waits for an answer. *)
Lemma coll_loop_fuel_enough fuel settings :
  forall w ids pids skus,
    (List.length (pending w) < fuel)%nat ->
    fst (Resolver.get_products_from_collections_loop fuel settings w ids pids skus)
      <> OutOfFuel.
Proof.
  induction fuel as [|fuel IH]; intros w ids pids skus Hfuel; [lia|].
  destruct ids as [|id rest]; simpl; [discriminate|].
  destruct (pending w) as [|ev answers] eqn:P; [discriminate|].
  simpl in Hfuel.
  destruct ev as [status json|e]; [|discriminate].
  destruct (status =? 429); [apply IH; simpl; lia|].
  destruct (negb (status =? 200)); [apply IH; simpl; lia|].
  destruct (Resolver.collection_product_ids json pids) as [pids'|e]; [|discriminate].
  destruct (Resolver.get_products_sku pids' settings _) as [[[sku|e]| |] w1] eqn:Inner;
    try discriminate.
  - apply IH. apply sku_loop_pending in Inner. simpl in Inner. lia.
  - exfalso. exact (sku_loop_no_fuel _ _ _ _ _ _ Inner).
Qed.

Lemma get_products_from_collections_total ids settings w :
  fst (Resolver.get_products_from_collections ids settings w) <> OutOfFuel.
Proof. apply coll_loop_fuel_enough. lia. Qed.

(** ** Descriptors and the Easy builder *)

Lemma resolve_entitled_skus_returns rule settings w r w' :
  Builder.resolve_entitled_skus rule settings w = (Done (Ok r), w') ->
  exists used, pending w = (used ++ pending w')%list /\ Forall is_response used.
Proof.
  unfold Builder.resolve_entitled_skus, Builder.failed. intros H.
  destruct (py_get rule "entitled_product_ids") as [p|e]; [|discriminate].
  destruct (truthy p).
  { destruct (py_iter p); [|discriminate].
    eapply get_products_sku_returns, H. }
  destruct (py_get rule "entitled_variant_ids") as [v|e]; [|discriminate].
  destruct (truthy v).
  { destruct (py_iter v); [|discriminate].
    eapply get_sku_from_variants_returns, H. }
  destruct (py_get rule "entitled_collection_ids") as [c|e]; [|discriminate].
  destruct (truthy c); [|discriminate].
  destruct (py_iter c); [|discriminate].
  eapply get_products_from_collections_returns, H.
Qed.

(** A promotion that [build_easy_promotion] returns carries the one group
    [build_promo_groups] makes of the resolved SKUs. *)
Lemma build_easy_promotion_returns rule config w promo w' :
  Builder.build_easy_promotion rule config w = (Done (Ok promo), w') ->
  exists id skus,
    py_item rule "id" = Ok id /\
    Builder.resolve_entitled_skus rule
      (Builder.build_promotion_settings_from_config config) w = (Done (Ok skus), w') /\
    groups promo = Builder.build_promo_groups id skus (VInt 1).
Proof.
  unfold Builder.build_easy_promotion, Builder.failed. intros H.
  destruct (Builder.build_easy_promotion_head rule config (now w)) as [head|e] eqn:Hd;
    [|discriminate].
  destruct (Builder.resolve_entitled_skus rule _ w) as [[[skus|e]| |] w1] eqn:R;
    try discriminate.
  destruct (py_item rule "id") as [id|e] eqn:I; [|discriminate].
  injection H as <- <-. exists id, skus. split; [reflexivity|]. split; [reflexivity|].
  unfold Builder.build_easy_promotion_head in Hd.
  repeat match type of Hd with
         | bind ?r _ = Ok _ => destruct r; simpl in Hd; [|discriminate]
         end.
  injection Hd as <-. reflexivity.
Qed.

Lemma sku_nodes_truthy (skus : list pyval) :
  Forall (fun n => truthy (node_id n) = true) (Builder.sku_nodes skus).
Proof.
  induction skus as [|sku rest IH]; simpl; [constructor|].
  destruct (truthy sku) eqn:T; [constructor; assumption | assumption].
Qed.

Lemma sku_nodes_all_empty (skus : list pyval) :
  Forall (fun sku => truthy sku = false) skus -> Builder.sku_nodes skus = [].
Proof.
  induction 1 as [|sku rest T _ IH]; simpl; [reflexivity|]. now rewrite T.
Qed.

(** With no identifier in the descriptor the resolver raises at once. *)
Lemma resolve_entitled_skus_empty_descriptor rule settings w p v c :
  py_get rule "entitled_product_ids" = Ok p -> truthy p = false ->
  py_get rule "entitled_variant_ids" = Ok v -> truthy v = false ->
  py_get rule "entitled_collection_ids" = Ok c -> truthy c = false ->
  Builder.resolve_entitled_skus rule settings w
  = (Done (Raise (Exc ValueError_
       "Price rule has no entitled items (products, variants, or collections)")), w).
Proof.
  intros Hp Tp Hv Tv Hc Tc. unfold Builder.resolve_entitled_skus.
  now rewrite Hp, Tp, Hv, Tv, Hc, Tc.
Qed.

(** ** SKU resolution: empty identifiers *)

Lemma collect_barcodes_non_empty variants :
  forall skus r,
    all_non_empty skus ->
    Resolver.collect_barcodes variants skus = Ok r ->
    all_non_empty r.
Proof.
  induction variants as [|variant rest IH]; intros skus r Hskus H; simpl in H.
  - injection H as <-. exact Hskus.
  - unfold py_get in H.
    destruct (py_get_default variant "barcode" VNone) as [barcode|e] eqn:B;
      simpl in H; [|discriminate].
    destruct (truthy barcode) eqn:T.
    + simpl in H. eapply IH; [|exact H].
      apply Forall_app. split; [exact Hskus|]. constructor; [exact T | constructor].
    + eapply IH; eassumption.
Qed.

Lemma product_barcodes_non_empty json skus r :
  all_non_empty skus ->
  Resolver.product_barcodes json skus = Ok r ->
  all_non_empty r.
Proof.
  unfold Resolver.product_barcodes. intros Hskus H.
  repeat match type of H with
         | bind ?x _ = Ok _ => destruct x; simpl in H; [|discriminate]
         end.
  eapply collect_barcodes_non_empty; eassumption.
Qed.

Lemma sku_loop_non_empty base answers :
  forall w ids skus r w',
    all_non_empty skus ->
    Resolver.get_products_sku_loop base answers w ids skus = (Done (Ok r), w') ->
    all_non_empty r.
Proof.
  induction answers as [|ev answers IH]; intros w ids skus r w' Hskus H.
  - destruct ids; simpl in H; [|discriminate]. injection H as <- _. exact Hskus.
  - destruct ids as [|id rest]; simpl in H.
    + injection H as <- _. exact Hskus.
    + destruct ev as [status json|e]; [|discriminate].
      destruct (status =? 429); [eapply IH; eassumption|].
      destruct (negb (status =? 200)); [eapply IH; eassumption|].
      destruct (Resolver.product_barcodes json skus) as [skus'|e] eqn:B; [|discriminate].
      eapply IH; [|exact H]. eapply product_barcodes_non_empty; eassumption.
Qed.

Lemma str_of_int_non_empty (n : Z) : str_of_int n <> "".
Proof.
  unfold str_of_int, NilZero.string_of_int, NilZero.string_of_uint.
  destruct (Z.to_int n) as [d|d]; destruct d; simpl; discriminate.
Qed.

(** [str] of a non-empty value is a non-empty string. *)
Lemma py_str_non_empty (v : pyval) :
  truthy v = true -> truthy (VStr (py_str v)) = true.
Proof.
  destruct v as [|b|n|x|x|s|l|d]; simpl; intros H;
    try reflexivity; try discriminate.
  - destruct b; [reflexivity | discriminate].
  - pose proof (str_of_int_non_empty n) as Hn.
    destruct (str_of_int n); [contradiction | reflexivity].
  - exact H.
Qed.

Lemma coll_loop_non_empty fuel settings :
  forall w ids pids skus r w',
    all_non_empty skus ->
    Resolver.get_products_from_collections_loop fuel settings w ids pids skus
      = (Done (Ok r), w') ->
    all_non_empty r.
Proof.
  induction fuel as [|fuel IH]; intros w ids pids skus r w' Hskus H; [discriminate|].
  destruct ids as [|id rest]; simpl in H.
  - injection H as <- _. exact Hskus.
  - destruct (pending w) as [|ev answers]; [discriminate|].
    destruct ev as [status json|e]; [|discriminate].
    destruct (status =? 429); [eapply IH; eassumption|].
    destruct (negb (status =? 200)); [eapply IH; eassumption|].
    destruct (Resolver.collection_product_ids json pids) as [pids'|e]; [|discriminate].
    destruct (Resolver.get_products_sku pids' settings _) as [[[sku|e]| |] w1] eqn:Inner;
      try discriminate.
    eapply IH; [|exact H].
    apply Forall_app. split; [exact Hskus|].
    apply sku_loop_non_empty in Inner; [|constructor].
    apply Forall_map. eapply Forall_impl; [|exact Inner].
    intros a. apply py_str_non_empty.
Qed.

(** C7 (as the code has it).  The product resolver and the collection
    resolver leave out every variant without a barcode, so their results
    hold non-empty identifiers only; the variant resolver appends the
    barcode of a fetched variant as it is, [None] when the variant has
    none; [build_promo_groups] skips empty entries, so no node of a group
    it builds has an empty identifier. *)
Theorem resolver_results_non_empty :
  (forall ids settings w r w',
     Resolver.get_products_sku ids settings w = (Done (Ok r), w') ->
     all_non_empty r) /\
  (forall ids settings w r w',
     Resolver.get_products_from_collections ids settings w = (Done (Ok r), w') ->
     all_non_empty r) /\
  (forall response_dict variant barcode skus,
     py_get response_dict "variant" = Ok variant ->
     py_get_default variant "barcode" VNone = Ok barcode ->
     Resolver.variant_barcode (Ok response_dict) skus = Ok (skus ++ [barcode])%list) /\
  (forall promo_id skus qty_min,
     groups_have_identifiers (Builder.build_promo_groups promo_id skus qty_min)).
Proof.
  split; [|split; [|split]].
  - intros ids settings w r w' H.
    eapply sku_loop_non_empty; [constructor | exact H].
  - intros ids settings w r w' H.
    eapply coll_loop_non_empty; [constructor | exact H].
  - intros response_dict variant barcode skus Hv Hb.
    unfold Resolver.variant_barcode. simpl. rewrite Hv. simpl. rewrite Hb. reflexivity.
  - intros promo_id skus qty_min. constructor; [|constructor].
    simpl. apply sku_nodes_truthy.
Qed.

Lemma resolver_results_non_empty_witness :
  all_non_empty [VStr "BC-001"] /\
  Resolver.variant_barcode
    (Ok (VDict [("variant", VDict [("barcode", VStr "BC-9")])])) []
    = Ok [VStr "BC-9"].
Proof.
  destruct resolver_results_non_empty as (Hsku & _ & Hvar & _). split.
  - apply (Hsku [VInt 111] Scenario.settings
             (Scenario.world_with [Scenario.product_answer [VStr "BC-001"; VNone]])
             [VStr "BC-001"]
             (with_pending
                (emit (Scenario.world_with [])
                   [Get "https://test-shop.myshopify.com/admin/api/2024-07/products/111.json"])
                [])).
    reflexivity.
  - apply (Hvar (VDict [("variant", VDict [("barcode", VStr "BC-9")])])
             (VDict [("barcode", VStr "BC-9")]) (VStr "BC-9") []); reflexivity.
Defined.

(** C7 (as stated) fails for the variant resolver: a variant without a
    barcode is not excluded, its [None] is an element of the result. *)
Lemma variant_without_barcode_kept :
  fst (Resolver.get_sku_from_variants [VInt 333] Scenario.settings
         (Scenario.world_with [Scenario.variant_without_barcode]))
    = Done (Ok [VNone]) /\
  ~ all_non_empty [VNone].
Proof.
  split; [reflexivity|]. intros H. inversion H as [|x l T _]. discriminate T.
Qed.

(** ** C5: skip, retry and abort *)



(** ** C6: which source of a descriptor is used *)

(** C6 (as the code has it).  A descriptor is resolved by exactly one
    resolver call on its first non-empty source.  The flat price-rule
    format tries products, then variants, then collections; the graph
    format tries collections, then products, then variants. *)
Theorem descriptor_source_order :
  (forall rule settings w p ids,
     py_get rule "entitled_product_ids" = Ok p -> truthy p = true ->
     py_iter p = Ok ids ->
     Builder.resolve_entitled_skus rule settings w
       = Resolver.get_products_sku ids settings w) /\
  (forall rule settings w p v ids,
     py_get rule "entitled_product_ids" = Ok p -> truthy p = false ->
     py_get rule "entitled_variant_ids" = Ok v -> truthy v = true ->
     py_iter v = Ok ids ->
     Builder.resolve_entitled_skus rule settings w
       = Resolver.get_sku_from_variants ids settings w) /\
  (forall rule settings w p v c ids,
     py_get rule "entitled_product_ids" = Ok p -> truthy p = false ->
     py_get rule "entitled_variant_ids" = Ok v -> truthy v = false ->
     py_get rule "entitled_collection_ids" = Ok c -> truthy c = true ->
     py_iter c = Ok ids ->
     Builder.resolve_entitled_skus rule settings w
       = Resolver.get_products_from_collections ids settings w) /\
  (forall items settings w c p v ids,
     Builder.read_edges items = Ok (c, p, v) -> truthy c = true ->
     Builder.ids_of_edges c = Ok ids ->
     Builder.resolve_skus_from_edges items settings w
       = Resolver.get_products_from_collections ids settings w) /\
  (forall items settings w c p v ids,
     Builder.read_edges items = Ok (c, p, v) -> truthy c = false ->
     truthy p = true -> Builder.ids_of_edges p = Ok ids ->
     Builder.resolve_skus_from_edges items settings w
       = Resolver.get_products_sku ids settings w) /\
  (forall items settings w c p v ids,
     Builder.read_edges items = Ok (c, p, v) -> truthy c = false ->
     truthy p = false -> truthy v = true -> Builder.ids_of_edges v = Ok ids ->
     Builder.resolve_skus_from_edges items settings w
       = Resolver.get_sku_from_variants ids settings w).
Proof.
  split; [|split; [|split; [|split; [|split]]]].
  - intros rule settings w p ids Hp Tp Hi.
    unfold Builder.resolve_entitled_skus. now rewrite Hp, Tp, Hi.
  - intros rule settings w p v ids Hp Tp Hv Tv Hi.
    unfold Builder.resolve_entitled_skus. now rewrite Hp, Tp, Hv, Tv, Hi.
  - intros rule settings w p v c ids Hp Tp Hv Tv Hc Tc Hi.
    unfold Builder.resolve_entitled_skus. now rewrite Hp, Tp, Hv, Tv, Hc, Tc, Hi.
  - intros items settings w c p v ids He Tc Hi.
    unfold Builder.resolve_skus_from_edges. now rewrite He, Tc, Hi.
  - intros items settings w c p v ids He Tc Tp Hi.
    unfold Builder.resolve_skus_from_edges. now rewrite He, Tc, Tp, Hi.
  - intros items settings w c p v ids He Tc Tp Tv Hi.
    unfold Builder.resolve_skus_from_edges. now rewrite He, Tc, Tp, Tv, Hi.
Qed.

Lemma descriptor_source_order_witness :
  Builder.resolve_entitled_skus Scenario.rule_with_all_sources Scenario.settings
    (Scenario.world_with [Scenario.not_found])
  = Resolver.get_products_sku [VInt 7] Scenario.settings
      (Scenario.world_with [Scenario.not_found]) /\
  Builder.resolve_skus_from_edges Scenario.items_with_product_and_collection
    Scenario.settings (Scenario.world_with [Scenario.not_found])
  = Resolver.get_products_from_collections [VStr "5"] Scenario.settings
      (Scenario.world_with [Scenario.not_found]).
Proof.
  destruct descriptor_source_order as (Hflat & _ & _ & Hgraph & _). split.
  - apply (Hflat Scenario.rule_with_all_sources Scenario.settings
             (Scenario.world_with [Scenario.not_found]) (VList [VInt 7]));
      reflexivity.
  - apply (Hgraph Scenario.items_with_product_and_collection Scenario.settings
             (Scenario.world_with [Scenario.not_found])
             (VList [Scenario.edge "gid://shopify/Collection/5"])
             (VList [Scenario.edge "gid://shopify/Product/7"])
             (VList []));
      reflexivity.
Defined.

(** C6 (as stated) fails for the graph format: offered a product and a
    collection, [resolve_skus_from_edges] asks the collection endpoint and
    never the product endpoint for product 7. *)
Lemma graph_descriptor_prefers_collection :
  trace (snd (Builder.resolve_skus_from_edges Scenario.items_with_product_and_collection
                Scenario.settings (Scenario.world_with [Scenario.not_found])))
  = [ Get "https://test-shop.myshopify.com/admin/api/2024-07/collections/5/products.json";
      Alert "[test]:  - get_products_from_collections status code - 404"
            "#alerts_client_data" ] /\
  Builder.resolve_skus_from_edges Scenario.items_with_product_and_collection
    Scenario.settings (Scenario.world_with [Scenario.not_found])
  <> Resolver.get_products_sku [VStr "7"] Scenario.settings
       (Scenario.world_with [Scenario.not_found]).
Proof. split; [reflexivity | vm_compute; discriminate]. Qed.

(** ** C3: empty descriptors and empty resolutions *)

(** C3 (as the code has it).  A rule whose descriptor names no product, no
    variant and no collection makes [build_easy_promotion] raise before any
    request is made.  A build that returns has one group, made of the
    non-empty SKUs the descriptor resolved to; when there is none, the
    group has no nodes. *)
Theorem empty_descriptor_aborts_build :
  (forall rule config w p v c,
     py_get rule "entitled_product_ids" = Ok p -> truthy p = false ->
     py_get rule "entitled_variant_ids" = Ok v -> truthy v = false ->
     py_get rule "entitled_collection_ids" = Ok c -> truthy c = false ->
     exists e, Builder.build_easy_promotion rule config w = (Done (Raise e), w)) /\
  (forall rule config w promo w',
     Builder.build_easy_promotion rule config w = (Done (Ok promo), w') ->
     exists id skus,
       py_item rule "id" = Ok id /\
       Builder.resolve_entitled_skus rule
         (Builder.build_promotion_settings_from_config config) w
         = (Done (Ok skus), w') /\
       groups promo = [ {| group_name := py_str id;
                           qty_or_value_min := VInt 1;
                           qty_or_value_max := VNone;
                           nodes := Builder.sku_nodes skus |} ] /\
       (Forall (fun sku => truthy sku = false) skus ->
        groups promo = [ {| group_name := py_str id;
                            qty_or_value_min := VInt 1;
                            qty_or_value_max := VNone;
                            nodes := [] |} ])).
Proof.
  split.
  - intros rule config w p v c Hp Tp Hv Tv Hc Tc.
    unfold Builder.build_easy_promotion.
    destruct (Builder.build_easy_promotion_head rule config (now w)) as [head|e].
    + rewrite (resolve_entitled_skus_empty_descriptor rule _ w p v c Hp Tp Hv Tv Hc Tc).
      eexists. reflexivity.
    + eexists. reflexivity.
  - intros rule config w promo w' H.
    apply build_easy_promotion_returns in H as (id & skus & Hid & R & G).
    exists id, skus. split; [exact Hid|]. split; [exact R|]. split; [exact G|].
    intros Hempty. rewrite G. unfold Builder.build_promo_groups.
    now rewrite (sku_nodes_all_empty skus Hempty).
Qed.

Lemma empty_descriptor_aborts_build_witness :
  exists e,
    Builder.build_easy_promotion Scenario.price_rule_without_items Scenario.config
      (Scenario.world_with [Scenario.product_answer [VStr "BC-001"]])
    = (Done (Raise e), Scenario.world_with [Scenario.product_answer [VStr "BC-001"]]).
Proof.
  destruct empty_descriptor_aborts_build as (Habort & _).
  apply (Habort Scenario.price_rule_without_items Scenario.config
           (Scenario.world_with [Scenario.product_answer [VStr "BC-001"]])
           (VList []) (VList []) (VList [])); reflexivity.
Defined.

(** C3 (as stated) fails: the products 111 and 222 of the rule are both
    answered with 404, the descriptor resolves to no SKU, and the build
    returns a promotion whose group has no nodes. *)
Lemma empty_resolution_builds_vacuous_promotion :
  fst (Builder.resolve_entitled_skus Scenario.price_rule Scenario.settings
         (Scenario.world_with [Scenario.not_found; Scenario.not_found]))
    = Done (Ok []) /\
  exists promo,
    fst (Builder.build_easy_promotion Scenario.price_rule Scenario.config
           (Scenario.world_with [Scenario.not_found; Scenario.not_found]))
      = Done (Ok promo) /\
    groups promo = [ {| group_name := "12345";
                        qty_or_value_min := VInt 1;
                        qty_or_value_max := VNone;
                        nodes := [] |} ].
Proof.
  split; [reflexivity|].
  eexists. split; [vm_compute; reflexivity | reflexivity].
Qed.

(** ** Test vectors of the hash functions *)

(** FIPS 180-4: the digest of "abc" and of the empty message. *)
Example sha256_abc :
  Codec.hex (SHA256.digest (Codec.ascii_bytes "abc"))
  = "ba7816bf8f01cfea414140de5dae2223b00361a396177a9cb410ff61f20015ad".
Proof. vm_compute. reflexivity. Qed.

Example sha256_empty :
  Codec.hex (SHA256.digest [])
  = "e3b0c44298fc1c149afbf4c8996fb92427ae41e4649b934ca495991b7852b855".
Proof. vm_compute. reflexivity. Qed.

(** RFC 4231, test case 2. *)
Example hmac_sha256_rfc4231_2 :
  Codec.hex (HMAC.hmac_sha256 (Codec.ascii_bytes "Jefe")
               (Codec.ascii_bytes "what do ya want for nothing?"))
  = "5bdcc146bf60754e6a042426089575c75a003f089d2739839dec58b964ec3843".
Proof. vm_compute. reflexivity. Qed.

(** RFC 4648, section 10. *)
Example b64encode_rfc4648 :
  map Codec.b64encode (map Codec.ascii_bytes ["f"; "fo"; "foo"; "foob"; "fooba"; "foobar"])
  = ["Zg=="; "Zm8="; "Zm9v"; "Zm9vYg=="; "Zm9vYmE="; "Zm9vYmFy"].
Proof. reflexivity. Qed.

(** The signature of the test suite's body under its secret. *)
Example signature_of_test_body :
  signature "test-webhook-secret-key" IntakeScenario.body
  = "Iqb3Gn+Xoq0ZE8Xu8sGK2LQcMy3yl0eopcjpdVH8fP4=".
Proof. vm_compute. reflexivity. Qed.

(** ** base64 is injective on byte strings *)

Lemma b64_char_code (i : Z) :
  0 <= i < 64 -> Z.of_nat (nat_of_ascii (Codec.b64_char i)) = b64_code i.
Proof.
  intros Hi. unfold Codec.b64_char, b64_code.
  destruct (i <? 26) eqn:E1; [rewrite nat_ascii_embedding; lia|].
  destruct (i <? 52) eqn:E2; [rewrite nat_ascii_embedding; lia|].
  destruct (i <? 62) eqn:E3; [rewrite nat_ascii_embedding; lia|].
  destruct (i =? 62); reflexivity.
Qed.

Lemma b64_char_inj (i j : Z) :
  0 <= i < 64 -> 0 <= j < 64 -> Codec.b64_char i = Codec.b64_char j -> i = j.
Proof.
  intros Hi Hj H.
  apply (f_equal (fun c => Z.of_nat (nat_of_ascii c))) in H.
  rewrite !b64_char_code in H by assumption. unfold b64_code in H.
  destruct (i <? 26) eqn:I1, (j <? 26) eqn:J1,
           (i <? 52) eqn:I2, (j <? 52) eqn:J2,
           (i <? 62) eqn:I3, (j <? 62) eqn:J3,
           (i =? 62) eqn:I4, (j =? 62) eqn:J4; lia.
Qed.

Lemma b64_char_not_pad (i : Z) : 0 <= i < 64 -> Codec.b64_char i <> "="%char.
Proof.
  intros Hi H.
  apply (f_equal (fun c => Z.of_nat (nat_of_ascii c))) in H.
  rewrite b64_char_code in H by assumption. unfold b64_code in H.
  change (Z.of_nat (nat_of_ascii "=")) with 61 in H.
  destruct (i <? 26) eqn:I1, (i <? 52) eqn:I2, (i <? 62) eqn:I3, (i =? 62) eqn:I4; lia.
Qed.

(** The indices of a group of bytes lie within the alphabet. *)
Lemma index1_range (a : Z) : is_byte a -> 0 <= a / 4 < 64.
Proof.
  unfold is_byte. intros Ha.
  split; [apply Z.div_pos; lia | apply Z.div_lt_upper_bound; lia].
Qed.

Lemma index2_range (a b : Z) : is_byte a -> is_byte b -> 0 <= (a mod 4) * 16 + b / 16 < 64.
Proof.
  unfold is_byte. intros Ha Hb.
  pose proof (Z.mod_pos_bound a 4 ltac:(lia)).
  assert (0 <= b / 16 < 16)
    by (split; [apply Z.div_pos; lia | apply Z.div_lt_upper_bound; lia]).
  lia.
Qed.

Lemma index2_last_range (a : Z) : is_byte a -> 0 <= (a mod 4) * 16 < 64.
Proof. intros Ha. pose proof (Z.mod_pos_bound a 4 ltac:(lia)). lia. Qed.

Lemma index3_range (b c : Z) : is_byte b -> is_byte c -> 0 <= (b mod 16) * 4 + c / 64 < 64.
Proof.
  unfold is_byte. intros Hb Hc.
  pose proof (Z.mod_pos_bound b 16 ltac:(lia)).
  assert (0 <= c / 64 < 4)
    by (split; [apply Z.div_pos; lia | apply Z.div_lt_upper_bound; lia]).
  lia.
Qed.

Lemma index3_last_range (b : Z) : is_byte b -> 0 <= (b mod 16) * 4 < 64.
Proof. intros Hb. pose proof (Z.mod_pos_bound b 16 ltac:(lia)). lia. Qed.

Lemma index4_range (c : Z) : is_byte c -> 0 <= c mod 64 < 64.
Proof. intros Hc. apply Z.mod_pos_bound. lia. Qed.

Ltac index_range :=
  first [ apply index1_range | apply index2_range | apply index2_last_range
        | apply index3_range | apply index3_last_range | apply index4_range ];
  assumption.

(** A quotient and a remainder determine the number. *)
Lemma div_mod_eq (a a' m : Z) : 0 < m -> a / m = a' / m -> a mod m = a' mod m -> a = a'.
Proof.
  intros Hm Hq Hr.
  rewrite (Z.div_mod a m), (Z.div_mod a' m) by lia. now rewrite Hq, Hr.
Qed.

(** Two digits of a positional sum are determined by the sum. *)
Lemma split_sum (hi lo hi' lo' m : Z) :
  0 <= lo < m -> 0 <= lo' < m -> hi * m + lo = hi' * m + lo' -> hi = hi' /\ lo = lo'.
Proof.
  intros H1 H2 H.
  assert (hi = hi').
  { destruct (Z.lt_trichotomy hi hi') as [L|[E|G]]; [exfalso | exact E | exfalso].
    - assert (m <= (hi' - hi) * m) by nia. lia.
    - assert (m <= (hi - hi') * m) by nia. lia. }
  subst hi'. lia.
Qed.

Lemma quotient_range (b m k : Z) : 0 < m -> 0 <= b < m * k -> 0 <= b / m < k.
Proof.
  intros Hm Hb. split; [apply Z.div_pos; lia | apply Z.div_lt_upper_bound; lia].
Qed.

(** The indices of one, two and three bytes determine the bytes. *)
Lemma group1_inj (a a' : Z) :
  a / 4 = a' / 4 -> (a mod 4) * 16 = (a' mod 4) * 16 -> a = a'.
Proof. intros E1 E2. apply (div_mod_eq a a' 4); lia. Qed.

Lemma group2_inj (a b a' b' : Z) :
  is_byte b -> is_byte b' ->
  a / 4 = a' / 4 ->
  (a mod 4) * 16 + b / 16 = (a' mod 4) * 16 + b' / 16 ->
  (b mod 16) * 4 = (b' mod 16) * 4 ->
  a = a' /\ b = b'.
Proof.
  unfold is_byte. intros Hb Hb' E1 E2 E3.
  destruct (split_sum _ _ _ _ 16 (quotient_range b 16 16 ltac:(lia) ltac:(lia))
              (quotient_range b' 16 16 ltac:(lia) ltac:(lia)) E2) as [Ma Qb].
  split; [apply (div_mod_eq a a' 4) | apply (div_mod_eq b b' 16)]; lia.
Qed.

Lemma group3_inj (a b c a' b' c' : Z) :
  is_byte b -> is_byte b' -> is_byte c -> is_byte c' ->
  a / 4 = a' / 4 ->
  (a mod 4) * 16 + b / 16 = (a' mod 4) * 16 + b' / 16 ->
  (b mod 16) * 4 + c / 64 = (b' mod 16) * 4 + c' / 64 ->
  c mod 64 = c' mod 64 ->
  a = a' /\ b = b' /\ c = c'.
Proof.
  unfold is_byte. intros Hb Hb' Hc Hc' E1 E2 E3 E4.
  destruct (split_sum _ _ _ _ 16 (quotient_range b 16 16 ltac:(lia) ltac:(lia))
              (quotient_range b' 16 16 ltac:(lia) ltac:(lia)) E2) as [Ma Qb].
  destruct (split_sum _ _ _ _ 4 (quotient_range c 64 4 ltac:(lia) ltac:(lia))
              (quotient_range c' 64 4 ltac:(lia) ltac:(lia)) E3) as [Mb Qc].
  split; [apply (div_mod_eq a a' 4) | split;
          [apply (div_mod_eq b b' 16) | apply (div_mod_eq c c' 64)]]; lia.
Qed.

Lemma b64encode_inj_bounded (n : nat) :
  forall l1 l2,
    (List.length l1 <= n)%nat ->
    Forall is_byte l1 -> Forall is_byte l2 ->
    Codec.b64encode l1 = Codec.b64encode l2 -> l1 = l2.
Proof.
  induction n as [|n IH]; intros l1 l2 Hlen F1 F2 H.
  - destruct l1; [|simpl in Hlen; lia].
    destruct l2 as [|a [|b [|c rest]]]; [reflexivity | discriminate ..].
  - destruct l1 as [|a1 [|b1 [|c1 rest1]]]; destruct l2 as [|a2 [|b2 [|c2 rest2]]];
      try reflexivity; try discriminate H;
      repeat match goal with
             | F : Forall is_byte (_ :: _) |- _ => inversion F; subst; clear F
             | F : Forall is_byte [] |- _ => clear F
             end;
      simpl in H; injection H; clear H; intros;
      try (exfalso;
           match goal with
           | E : Codec.b64_char ?i = "="%char |- _ =>
               apply (b64_char_not_pad i); [index_range | exact E]
           | E : "="%char = Codec.b64_char ?i |- _ =>
               symmetry in E; apply (b64_char_not_pad i); [index_range | exact E]
           end);
      repeat match goal with
             | E : Codec.b64_char _ = Codec.b64_char _ |- _ =>
                 apply b64_char_inj in E; [|index_range..]
             end.
    + (* one byte each *)
      f_equal. now apply group1_inj.
    + (* two bytes each *)
      destruct (group2_inj a1 b1 a2 b2) as [-> ->]; auto.
    + (* three bytes or more each *)
      destruct (group3_inj a1 b1 c1 a2 b2 c2) as (-> & -> & ->); auto.
      do 3 f_equal. apply IH; try assumption. simpl in Hlen. lia.
Qed.

Lemma b64encode_inj (l1 l2 : list Z) :
  Forall is_byte l1 -> Forall is_byte l2 ->
  Codec.b64encode l1 = Codec.b64encode l2 -> l1 = l2.
Proof. apply (b64encode_inj_bounded (List.length l1)). lia. Qed.

Lemma be_bytes_are_bytes (count : nat) (n : Z) : Forall is_byte (SHA256.be_bytes count n).
Proof.
  induction count as [|k IH]; simpl; constructor; [|exact IH].
  unfold is_byte. change 255 with (Z.ones 8). rewrite Z.land_ones by lia.
  apply Z.mod_pos_bound. lia.
Qed.

(** A digest is a string of bytes, whatever was hashed. *)
Lemma digest_is_bytes (msg : list Z) : Forall is_byte (SHA256.digest msg).
Proof.
  unfold SHA256.digest. induction (SHA256.blocks _ _ _) as [|w ws IH].
  - constructor.
  - change (flat_map (SHA256.be_bytes 4) (w :: ws))
      with (SHA256.be_bytes 4 w ++ flat_map (SHA256.be_bytes 4) ws)%list.
    apply Forall_app. split; [apply be_bytes_are_bytes | exact IH].
Qed.

(** Two signatures are equal only when the two HMAC values are. *)
Lemma signature_inj secret body secret' body' :
  signature secret body = signature secret' body' ->
  HMAC.hmac_sha256 (Codec.utf8_encode secret) body
    = HMAC.hmac_sha256 (Codec.utf8_encode secret') body'.
Proof. apply b64encode_inj; apply digest_is_bytes. Qed.

(** ** Signature verification *)

Lemma b64_char_ascii (i : Z) : HMAC.is_ascii_char (Codec.b64_char i) = true.
Proof.
  unfold HMAC.is_ascii_char, Codec.b64_char.
  assert (small : forall n, (n < 128)%nat ->
                    (nat_of_ascii (ascii_of_nat n) <? 128)%nat = true).
  { intros n Hn. rewrite nat_ascii_embedding by lia. now apply Nat.ltb_lt. }
  destruct (i <? 26) eqn:E1; [apply small; apply Z.ltb_lt in E1; lia|].
  destruct (i <? 52) eqn:E2; [apply small; apply Z.ltb_lt in E2; lia|].
  destruct (i <? 62) eqn:E3; [apply small; apply Z.ltb_lt in E3; lia|].
  destruct (i =? 62); reflexivity.
Qed.

(** The base64 form of any byte string is ASCII. *)
Lemma b64encode_ascii (bytes : list Z) : HMAC.is_ascii (Codec.b64encode bytes) = true.
Proof.
  assert (H : forall n bytes, (List.length bytes <= n)%nat ->
                HMAC.is_ascii (Codec.b64encode bytes) = true).
  { clear bytes. induction n as [|n IH]; intros bytes Hlen.
    - destruct bytes; [reflexivity | simpl in Hlen; lia].
    - destruct bytes as [|a [|b [|c rest]]]; simpl;
        rewrite ?b64_char_ascii; try reflexivity.
      simpl. apply IH. simpl in Hlen. lia. }
  apply (H (List.length bytes)). lia.
Qed.

Lemma b64encode_empty (bytes : list Z) : Codec.b64encode bytes = "" -> bytes = [].
Proof. destruct bytes as [|a [|b [|c rest]]]; simpl; [reflexivity | discriminate ..]. Qed.

Lemma blocks_length (fuel : nat) :
  forall h words, List.length h = 8%nat ->
    List.length (SHA256.blocks fuel h words) = 8%nat.
Proof.
  induction fuel as [|fuel IH]; intros h words Hh; simpl; [exact Hh|].
  destruct words; [exact Hh|]. apply IH. reflexivity.
Qed.

(** A SHA-256 digest has 32 bytes. *)
Lemma digest_length (msg : list Z) : List.length (SHA256.digest msg) = 32%nat.
Proof.
  unfold SHA256.digest.
  pose proof (blocks_length
                (List.length (SHA256.words_of (List.length (SHA256.pad msg)) (SHA256.pad msg)))
                SHA256.H0
                (SHA256.words_of (List.length (SHA256.pad msg)) (SHA256.pad msg))
                eq_refl) as H.
  destruct (SHA256.blocks _ _ _) as [|a [|b [|c [|d [|e [|f [|g [|h [|]]]]]]]]];
    try discriminate H.
  reflexivity.
Qed.

Lemma signature_ascii secret body : HMAC.is_ascii (signature secret body) = true.
Proof. apply b64encode_ascii. Qed.

Lemma signature_non_empty secret body : signature secret body <> "".
Proof.
  unfold signature, HMAC.hmac_sha256. intros H. apply b64encode_empty in H.
  pose proof (digest_length
    (map (Z.lxor 92) (HMAC.key_block (Codec.utf8_encode secret)) ++
     SHA256.digest (map (Z.lxor 54) (HMAC.key_block (Codec.utf8_encode secret)) ++ body)))
    as L.
  rewrite H in L. discriminate L.
Qed.

(** On an ASCII header the verifier answers whether the header is the
    signature. *)
Lemma verify_ascii_header body header secret :
  HMAC.is_ascii header = true ->
  Middleware.verify_shopify_hmac body header secret
    = Ok (String.eqb (signature secret body) header).
Proof.
  intros H. unfold Middleware.verify_shopify_hmac, HMAC.compare_digest.
  fold (signature secret body). now rewrite signature_ascii, H.
Qed.

(** On a header with a character from 128 on the comparison raises. *)
Lemma verify_non_ascii_header body header secret :
  HMAC.is_ascii header = false ->
  Middleware.verify_shopify_hmac body header secret
    = Raise (Exc TypeError_ "comparing strings with non-ASCII characters is not supported").
Proof.
  intros H. unfold Middleware.verify_shopify_hmac, HMAC.compare_digest.
  now rewrite H, andb_false_r.
Qed.



(** HMAC fills a short key up with zero bytes: a key and the key followed
    by a zero byte give the same key block, hence the same HMAC. *)
Lemma key_block_zero_padded (key : list Z) :
  (List.length key < HMAC.BLOCK_SIZE)%nat ->
  HMAC.key_block (key ++ [0]) = HMAC.key_block key.
Proof.
  unfold HMAC.key_block, HMAC.BLOCK_SIZE. intros H. cbv zeta.
  replace (64 <? List.length (key ++ [0%Z]))%nat with false
    by (symmetry; apply Nat.ltb_ge; rewrite length_app; simpl; lia).
  replace (64 <? List.length key)%nat with false
    by (symmetry; apply Nat.ltb_ge; lia).
  rewrite <- app_assoc, length_app. simpl List.length. f_equal.
  replace (64 - List.length key)%nat with (S (64 - (List.length key + 1)))%nat by lia.
  reflexivity.
Qed.

Lemma hmac_zero_padded_key (key msg : list Z) :
  (List.length key < HMAC.BLOCK_SIZE)%nat ->
  HMAC.hmac_sha256 (key ++ [0]) msg = HMAC.hmac_sha256 key msg.
Proof. intros H. unfold HMAC.hmac_sha256. now rewrite key_block_zero_padded. Qed.


(** ** Intake: idempotent recording *)

Lemma active_configs_same (db db' : Views.database) (shop_domain : string) :
  Views.configs db' = Views.configs db ->
  Views.active_configs db' shop_domain = Views.active_configs db shop_domain.
Proof. intros H. unfold Views.active_configs. now rewrite H. Qed.

Lemma intake_accepts_same (self : Views.view) (req : Views.request)
    (db db' : Views.database) :
  Views.configs db' = Views.configs db ->
  intake_accepts self req db' = intake_accepts self req db.
Proof.
  intros H. unfold intake_accepts.
  destruct (Views.meta_get _ _) as [shop_domain|]; [|reflexivity].
  now rewrite (active_configs_same db db' shop_domain H).
Qed.

(** What [post] does with a request that passes the checks: nothing when
    the delivery is already in the ledger, and one new row, in state
    [received], plus one queued task when the endpoint has an actor,
    otherwise. *)
Lemma post_accepted (self : Views.view) (req : Views.request) (db : Views.database) :
  intake_accepts self req db = true ->
  (Views.event_exists db (delivery_id req) = true /\
   Views.post self req db = (Ok (Views.empty_response 200), db)) \/
  (Views.event_exists db (delivery_id req) = false /\
   exists event db',
     Views.post self req db = (Ok (Views.empty_response 200), db') /\
     Views.ev_webhook_id event = delivery_id req /\
     Views.ev_status event = Views.RECEIVED /\
     Views.configs db' = Views.configs db /\
     Views.events db' = (Views.events db ++ [event])%list /\
     Views.queue db' =
       match Views.task_actor self, Views.body_json req with
       | Some a, Ok payload =>
           (Views.queue db ++ [ {| Views.task_actor_of := a;
                                   Views.task_event_id := Views.ev_id event;
                                   Views.task_payload := payload |} ])%list
       | _, _ => Views.queue db
       end).
Proof.
  unfold intake_accepts, Views.post, delivery_id, delivery_topic. intros H.
  destruct (Views.meta_get (Views.META req) "HTTP_X_SHOPIFY_SHOP_DOMAIN")
    as [shop_domain|]; [|discriminate].
  apply andb_prop in H as [Hdom H].
  destruct shop_domain as [|c shop_domain]; [discriminate|].
  destruct (Views.active_configs db (String c shop_domain)) as [|config [|]];
    try discriminate.
  destruct (Middleware.verify_shopify_hmac _ _ _) as [[|]|]; try discriminate.
  apply andb_prop in H as [H Hjson]. apply andb_prop in H as [Hid Htopic].
  apply negb_true_iff in Hid, Htopic. rewrite Hid, Htopic.
  destruct (Views.event_exists db _) eqn:E.
  - left. split; reflexivity.
  - right. split; [reflexivity|].
    unfold Views.create_event. rewrite E.
    match goal with
    | |- context [Views.new_event ?a ?b ?c ?d ?e ?f ?g] =>
        exists (Views.new_event a b c d e f g)
    end.
    destruct (Views.task_actor self) as [a|].
    + destruct (Views.body_json req) as [payload|e]; [|discriminate].
      eexists. repeat split.
    + eexists. repeat split.
Qed.

Lemma event_exists_rows (db : Views.database) (d : string) :
  Views.event_exists db d = false -> rows_for d db = [].
Proof.
  unfold Views.event_exists, rows_for.
  induction (Views.events db) as [|ev rest IH]; simpl; [reflexivity|].
  intros H. apply orb_false_iff in H as [H1 H2]. rewrite H1. exact (IH H2).
Qed.

Lemma event_exists_app (db : Views.database) (d : string) (ev : Views.WebhookEvent)
    (db' : Views.database) :
  Views.events db' = (Views.events db ++ [ev])%list ->
  Views.ev_webhook_id ev = d ->
  Views.event_exists db' d = true.
Proof.
  intros He Hd. unfold Views.event_exists. rewrite He, existsb_app. simpl.
  rewrite Hd, String.eqb_refl. now rewrite orb_true_r.
Qed.

(** Under the uniqueness constraint a delivery identifier that is in the
    ledger has exactly one row. *)
Lemma unique_rows (l : list Views.WebhookEvent) (d : string) :
  NoDup (map Views.ev_webhook_id l) ->
  existsb (fun ev => String.eqb (Views.ev_webhook_id ev) d) l = true ->
  List.length (filter (fun ev => String.eqb (Views.ev_webhook_id ev) d) l) = 1%nat.
Proof.
  induction l as [|ev rest IH]; simpl; intros Hnd Hex; [discriminate|].
  inversion Hnd as [|x xs Hnotin Hrest]; subst.
  destruct (String.eqb_spec (Views.ev_webhook_id ev) d) as [E|E].
  - simpl. f_equal.
    assert (Hnone : existsb (fun ev0 => String.eqb (Views.ev_webhook_id ev0) d) rest = false).
    { destruct (existsb _ rest) eqn:X; [|reflexivity].
      apply existsb_exists in X as (ev' & Hin & Heq).
      apply String.eqb_eq in Heq. exfalso. apply Hnotin.
      rewrite E, <- Heq. now apply in_map. }
    clear - Hnone. induction rest as [|ev' rest IH]; simpl in *; [reflexivity|].
    apply orb_false_iff in Hnone as [H1 H2]. rewrite H1. exact (IH H2).
  - simpl in Hex. exact (IH Hrest Hex).
Qed.

Lemma unique_after_insert (db db' : Views.database) (ev : Views.WebhookEvent) :
  unique_webhook_id db ->
  Views.event_exists db (Views.ev_webhook_id ev) = false ->
  Views.events db' = (Views.events db ++ [ev])%list ->
  unique_webhook_id db'.
Proof.
  unfold unique_webhook_id, Views.event_exists. intros Hnd Hex He.
  rewrite He, map_app. simpl.
  apply NoDup_app; [exact Hnd | repeat constructor; intros [] |].
  intros d Hin [Hd|[]]. subst d.
  apply in_map_iff in Hin as (ev' & Heq & Hin').
  assert (X : existsb (fun e => String.eqb (Views.ev_webhook_id e) (Views.ev_webhook_id ev))
                (Views.events db) = true).
  { apply existsb_exists. exists ev'. split; [exact Hin'|]. now apply String.eqb_eq. }
  congruence.
Qed.




(** A signed delivery whose body is not JSON: the row is written, then
    [json.loads] raises, no task is queued, and the redelivery is
    acknowledged without ever being processed. *)
Lemma intake_body_not_json :
  exists db1,
    Views.post Views.ShopifyInventoryWebhookView
      (IntakeScenario.garbled "wh-002" "products/update") IntakeScenario.fresh
      = (Raise (Exc JSONDecodeError_ "Expecting value: line 1 column 1 (char 0)"), db1) /\
    List.length (rows_for "wh-002" db1) = 1%nat /\
    Views.queue db1 = [] /\
    Views.post Views.ShopifyInventoryWebhookView
      (IntakeScenario.garbled "wh-002" "products/update") db1
      = (Ok (Views.empty_response 200), db1).
Proof.
  eexists. split; [vm_compute; reflexivity|].
  split; [reflexivity|]. split; [reflexivity|]. vm_compute. reflexivity.
Qed.

(* ===================================================================== *)
(** * Further properties                                                  *)
(* ===================================================================== *)

(** ** The handler registry *)

Lemma get_register_same {H : Type} (topic : string) (h : H)
    (handlers : Registry.topic_handlers H) :
  Registry.get_handler topic (Registry.register_handler topic h handlers) = Some h.
Proof.
  induction handlers as [|[k v] rest IH]; simpl.
  - now rewrite String.eqb_refl.
  - destruct (String.eqb k topic) eqn:E; simpl; rewrite E; [reflexivity | exact IH].
Qed.

Lemma get_register_other {H : Type} (topic other : string) (h : H)
    (handlers : Registry.topic_handlers H) :
  other <> topic ->
  Registry.get_handler other (Registry.register_handler topic h handlers)
  = Registry.get_handler other handlers.
Proof.
  intros Hne. induction handlers as [|[k v] rest IH]; simpl.
  - destruct (String.eqb_spec topic other) as [E|E]; [congruence | reflexivity].
  - destruct (String.eqb_spec k topic) as [E|E]; simpl.
    + subst k. destruct (String.eqb_spec topic other) as [E'|E']; [congruence | reflexivity].
    + destruct (String.eqb k other); [reflexivity | exact IH].
Qed.

Lemma register_keys {H : Type} (topic : string) (h : H)
    (handlers : Registry.topic_handlers H) :
  map fst (Registry.register_handler topic h handlers)
  = if existsb (String.eqb topic) (map fst handlers)
    then map fst handlers
    else (map fst handlers ++ [topic])%list.
Proof.
  induction handlers as [|[k v] rest IH]; simpl; [reflexivity|].
  rewrite (String.eqb_sym topic k).
  destruct (String.eqb k topic) eqn:E; simpl; [reflexivity|].
  rewrite IH. destruct (existsb _ _); reflexivity.
Qed.

(** X1. Registering a handler makes it the one dispatched for its topic,
    replacing any earlier one; every other topic keeps the handler it had;
    and the registry gains a key only when the topic is new. *)
Theorem register_then_get {H : Type} (topic : string) (h : H)
    (handlers : Registry.topic_handlers H) :
  Registry.get_handler topic (Registry.register_handler topic h handlers) = Some h /\
  (forall other, other <> topic ->
     Registry.get_handler other (Registry.register_handler topic h handlers)
     = Registry.get_handler other handlers) /\
  (forall h', Registry.register_handler topic h'
                (Registry.register_handler topic h handlers)
              = Registry.register_handler topic h' handlers) /\
  map fst (Registry.register_handler topic h handlers)
  = if existsb (String.eqb topic) (map fst handlers)
    then map fst handlers
    else (map fst handlers ++ [topic])%list.
Proof.
  split; [apply get_register_same|]. split; [intros; now apply get_register_other|].
  split; [|apply register_keys].
  intros h'. induction handlers as [|[k v] rest IH]; simpl.
  - now rewrite String.eqb_refl.
  - destruct (String.eqb k topic) eqn:E; simpl; rewrite E; [reflexivity | now rewrite IH].
Qed.

Lemma register_then_get_witness :
  Registry.get_handler "products/create"
    (Registry.register_handler "price_rules/create" Registry.handle_price_rule_create
       Registry.ready)
  = Some Registry.handle_product_create.
Proof.
  destruct (register_then_get "price_rules/create" Registry.handle_price_rule_create
              Registry.ready) as (_ & Hother & _).
  rewrite (Hother "products/create"); [reflexivity | discriminate].
Defined.

(** X2. Once the application is ready, every topic that an endpoint with a
    task actor lets through has a registered handler; the order endpoint,
    whose topic has none, has no task actor and queues nothing. *)
Theorem accepted_topics_have_handlers :
  (forall self topic,
     In self endpoints ->
     Views.task_actor self <> None ->
     Views.topic_refused self topic = false ->
     Registry.get_handler topic Registry.ready <> None) /\
  (forall topic,
     Views.topic_refused Views.ShopifyOrderWebhookView topic = false ->
     Registry.get_handler topic Registry.ready = None /\
     Views.task_actor Views.ShopifyOrderWebhookView = None).
Proof.
  assert (Hin : forall topic allowed,
             negb (existsb (String.eqb topic) allowed) = false -> In topic allowed).
  { intros topic allowed H. apply negb_false_iff in H.
    apply existsb_exists in H as (t & Ht & E). apply String.eqb_eq in E. now subst. }
  split.
  - intros self topic Hself Hactor Hrefused.
    destruct Hself as [<-|[<-|[<-|[]]]].
    + apply Hin in Hrefused.
      repeat (destruct Hrefused as [<-|Hrefused]; [discriminate|]). destruct Hrefused.
    + apply Hin in Hrefused.
      repeat (destruct Hrefused as [<-|Hrefused]; [discriminate|]). destruct Hrefused.
    + exfalso. now apply Hactor.
  - intros topic Hrefused. apply Hin in Hrefused.
    destruct Hrefused as [<-|[]]. split; reflexivity.
Qed.

Lemma accepted_topics_have_handlers_witness :
  Registry.get_handler "collections/update" Registry.ready
  = Some Registry.handle_collection_update.
Proof.
  destruct accepted_topics_have_handlers as (H & _).
  pose proof (H Views.ShopifyPromotionWebhookView "collections/update"
                (or_intror (or_introl eq_refl))
                ltac:(discriminate) eq_refl) as Hsome.
  destruct (Registry.get_handler "collections/update" Registry.ready) as [h|] eqn:E;
    [|now elim Hsome].
  vm_compute in E. injection E as <-. reflexivity.
Defined.

(** ** Processing a ledger entry *)

Lemma filter_map_update (id : Z) (update : Views.WebhookEvent -> Views.WebhookEvent)
    (rows : list Views.WebhookEvent) :
  (forall row, Views.ev_id (update row) = Views.ev_id row) ->
  forall key,
    filter (fun row => Views.ev_id row =? key)
      (map (fun row => if Views.ev_id row =? id then update row else row) rows)
    = map (fun row => if Views.ev_id row =? id then update row else row)
        (filter (fun row => Views.ev_id row =? key) rows).
Proof.
  intros Hid key. induction rows as [|row rest IH]; simpl; [reflexivity|].
  assert (E : Views.ev_id (if Views.ev_id row =? id then update row else row)
              = Views.ev_id row) by (destruct (Views.ev_id row =? id); auto).
  rewrite E. destruct (Views.ev_id row =? key); simpl; now rewrite IH.
Qed.

(** A save touches the rows with the key of the saved event only, and in
    those none of the identifying columns. *)
Lemma save_identity (update : Views.WebhookEvent -> Views.WebhookEvent)
    (event : Views.WebhookEvent) (db : Views.database) :
  (forall row, same_identity row (update row)) ->
  Forall2 (fun row row' =>
             same_identity row row' /\
             (Views.ev_id row <> Views.ev_id event -> row' = row))
          (Views.events db) (Views.events (Processing.save update event db)).
Proof.
  intros Hup. unfold Processing.save. simpl.
  induction (Views.events db) as [|row rest IH]; simpl; constructor; [|exact IH].
  destruct (Z.eqb_spec (Views.ev_id row) (Views.ev_id event)) as [E|E].
  - split; [apply Hup | intros C; contradiction].
  - split; [repeat split | reflexivity].
Qed.

Lemma Forall2_trans_identity (id : Z) (a b c : list Views.WebhookEvent) :
  Forall2 (fun row row' => same_identity row row' /\ (Views.ev_id row <> id -> row' = row)) a b ->
  Forall2 (fun row row' => same_identity row row' /\ (Views.ev_id row <> id -> row' = row)) b c ->
  Forall2 (fun row row' => same_identity row row' /\ (Views.ev_id row <> id -> row' = row)) a c.
Proof.
  intros Hab. revert c. induction Hab as [|x y a b [Hxy Fxy] Hab IH]; intros c Hbc.
  - inversion Hbc. constructor.
  - inversion Hbc as [|y' z b' c' [Hyz Fyz] Hbc']; subst. constructor; [|now apply IH].
    destruct Hxy as (I1 & I2 & I3 & I4 & I5 & I6).
    destruct Hyz as (J1 & J2 & J3 & J4 & J5 & J6).
    split; [repeat split; congruence|].
    intros Hne. rewrite Fyz by congruence. now apply Fxy.
Qed.

Lemma Forall2_refl_identity (id : Z) (a : list Views.WebhookEvent) :
  Forall2 (fun row row' => same_identity row row' /\ (Views.ev_id row <> id -> row' = row)) a a.
Proof. induction a; constructor; [split; [repeat split | reflexivity] | assumption]. Qed.

Lemma finish_db started finished tags event db metrics :
  fst (Processing.finish started finished tags event db metrics)
  = Processing.save_outcome
      (Processing.set_processing_time event (Qtrunc ((finished - started) * 1000))) db.
Proof. reflexivity. Qed.

(** What a run leaves in the tables, whatever way it ends. *)
Lemma process_event_frame {S : Type}
    (handlers : Registry.topic_handlers (Processing.handler S))
    started finished id payload db (s : S) metrics :
  let db' := fst (fst (snd (Processing._process_event handlers started finished
                              id payload db s metrics))) in
  Views.configs db' = Views.configs db /\
  Views.queue db' = Views.queue db /\
  Views.next_event_id db' = Views.next_event_id db /\
  Forall2 (fun row row' => same_identity row row' /\ (Views.ev_id row <> id -> row' = row))
          (Views.events db) (Views.events db').
Proof.
  unfold Processing._process_event.
  destruct (filter _ (Views.events db)) as [|event [|]] eqn:F; cbv zeta.
  - simpl. repeat split. apply Forall2_refl_identity.
  - assert (Hid : Views.ev_id event = id).
    { assert (In event (filter (fun row => Views.ev_id row =? id) (Views.events db)))
        by (rewrite F; now left).
      apply filter_In in H as [_ H]. now apply Z.eqb_eq in H. }
    set (ev1 := Processing.set_status event Views.PROCESSING).
    set (db1 := Processing.save_status ev1 db).
    assert (Hstep1 : Forall2 (fun row row' => same_identity row row' /\
                                (Views.ev_id row <> id -> row' = row))
                       (Views.events db) (Views.events db1)).
    { rewrite <- Hid.
      apply (save_identity (fun row => Processing.set_status row (Views.ev_status ev1)) ev1 db).
      intros row. repeat split. }
    assert (Hfinish : forall ev2, Views.ev_id ev2 = id ->
               forall m,
               let db2 := fst (Processing.finish started finished
                                 [ ("topic:" ++ Views.ev_topic ev1)%string;
                                   ("shop_domain:" ++ Views.ev_shop_domain ev1)%string ]
                                 ev2 db1 m) in
               Views.configs db2 = Views.configs db /\
               Views.queue db2 = Views.queue db /\
               Views.next_event_id db2 = Views.next_event_id db /\
               Forall2 (fun row row' => same_identity row row' /\
                          (Views.ev_id row <> id -> row' = row))
                       (Views.events db) (Views.events db2)).
    { intros ev2 Hev2 m. cbv zeta. rewrite finish_db.
      repeat split.
      eapply Forall2_trans_identity; [exact Hstep1|].
      rewrite <- Hev2.
      unfold Processing.save_outcome.
      match goal with
      | |- context [Processing.save ?u ?e db1] => apply (save_identity u e db1)
      end.
      intros row. repeat split. }
    destruct (Registry.get_handler _ handlers) as [handle|].
    + destruct (handle ev1 payload db1 s) as [[[u|exc]| |] s'].
      * destruct (Processing.finish _ _ _ _ _ _) as [db2 m2] eqn:Fin.
        pose proof (Hfinish (Processing.set_status ev1 Views.SUCCESS) Hid
                      (metrics ++ [Processing.Increment "shopify.webhook.received"
                         [ ("topic:" ++ Views.ev_topic ev1)%string;
                           ("shop_domain:" ++ Views.ev_shop_domain ev1)%string ]])%list) as X.
        cbv zeta in X. unfold ev1, db1 in *. rewrite Fin in X. exact X.
      * destruct (Processing.finish _ _ _ _ _ _) as [db2 m2] eqn:Fin.
        match type of Fin with
        | Processing.finish _ _ _ ?e _ ?m = _ =>
            assert (He : Views.ev_id e = id)
              by (destruct (issubclass (exc_cls exc) Exception_); exact Hid);
            pose proof (Hfinish e He m) as X
        end.
        cbv zeta in X. unfold ev1, db1 in *. rewrite Fin in X. exact X.
      * simpl. repeat split. exact Hstep1.
      * simpl. repeat split. exact Hstep1.
    + destruct (Processing.finish _ _ _ _ _ _) as [db2 m2] eqn:Fin.
      match type of Fin with
      | Processing.finish _ _ _ ?e _ ?m = _ =>
          pose proof (Hfinish e Hid m) as X
      end.
      cbv zeta in X. unfold ev1, db1 in *. rewrite Fin in X. exact X.
  - simpl. repeat split. apply Forall2_refl_identity.
Qed.

Lemma rows_with_id_save (update : Views.WebhookEvent -> Views.WebhookEvent)
    (event : Views.WebhookEvent) (db : Views.database) (key : Z) :
  (forall row, Views.ev_id (update row) = Views.ev_id row) ->
  rows_with_id key (Processing.save update event db)
  = map (fun row => if Views.ev_id row =? Views.ev_id event then update row else row)
      (rows_with_id key db).
Proof. intros H. unfold rows_with_id, Processing.save. simpl. now apply filter_map_update. Qed.

Lemma rows_with_id_key (id : Z) (db : Views.database) (event : Views.WebhookEvent) :
  rows_with_id id db = [event] -> Views.ev_id event = id.
Proof.
  intros F.
  assert (H : In event (rows_with_id id db)) by (rewrite F; now left).
  apply filter_In in H as [_ H]. now apply Z.eqb_eq in H.
Qed.

(** The row of a finished save, for a ledger with one row under the key. *)
Lemma rows_after_finish started finished tags (event ev2 : Views.WebhookEvent) db metrics :
  Views.ev_id ev2 = Views.ev_id event ->
  rows_with_id (Views.ev_id event) db = [event] ->
  rows_with_id (Views.ev_id event)
    (fst (Processing.finish started finished tags ev2 db metrics))
  = [ {| Views.ev_id := Views.ev_id event;
         Views.ev_webhook_id := Views.ev_webhook_id event;
         Views.ev_topic := Views.ev_topic event;
         Views.ev_shop_domain := Views.ev_shop_domain event;
         Views.ev_store := Views.ev_store event;
         Views.ev_status := Views.ev_status ev2;
         Views.ev_payload_hash := Views.ev_payload_hash event;
         Views.ev_error_message := Views.ev_error_message ev2;
         Views.ev_processing_time_ms := Some (Qtrunc ((finished - started) * 1000)) |} ].
Proof.
  intros Hid F. rewrite finish_db. unfold Processing.save_outcome.
  rewrite rows_with_id_save by reflexivity. rewrite F. simpl.
  rewrite Hid, Z.eqb_refl. reflexivity.
Qed.

Lemma rows_after_save_status (event ev1 : Views.WebhookEvent) db :
  Views.ev_id ev1 = Views.ev_id event ->
  rows_with_id (Views.ev_id event) db = [event] ->
  rows_with_id (Views.ev_id event) (Processing.save_status ev1 db)
  = [Processing.set_status event (Views.ev_status ev1)].
Proof.
  intros Hid F. unfold Processing.save_status.
  rewrite rows_with_id_save by reflexivity. rewrite F. simpl.
  rewrite Hid, Z.eqb_refl. reflexivity.
Qed.

(** The row a run leaves, for a ledger that holds one row under the key:
    by the way the run ended. *)
Lemma process_event_row {S : Type}
    (handlers : Registry.topic_handlers (Processing.handler S))
    started finished id payload db (s : S) metrics event :
  rows_with_id id db = [event] ->
  let run := Processing._process_event handlers started finished id payload db s metrics in
  exists event',
    rows_with_id id (fst (fst (snd run))) = [event'] /\
    same_identity event event' /\
    match fst run with
    | Done (Ok _) =>
        Views.ev_processing_time_ms event' = Some (Qtrunc ((finished - started) * 1000)) /\
        match Registry.get_handler (Views.ev_topic event) handlers with
        | Some _ =>
            Views.ev_status event' = Views.SUCCESS /\
            Views.ev_error_message event' = Views.ev_error_message event
        | None =>
            Views.ev_status event' = Views.FAILED /\
            Views.ev_error_message event'
            = ("No handler for topic: " ++ Views.ev_topic event)%string
        end
    | Done (Raise exc) =>
        Views.ev_processing_time_ms event' = Some (Qtrunc ((finished - started) * 1000)) /\
        (exists handle,
            Registry.get_handler (Views.ev_topic event) handlers = Some handle /\
            fst (handle (Processing.set_status event Views.PROCESSING) payload
                   (Processing.save_status
                      (Processing.set_status event Views.PROCESSING) db) s)
            = Done (Raise exc)) /\
        if issubclass (exc_cls exc) Exception_
        then Views.ev_status event' = Views.FAILED /\
             Views.ev_error_message event' = Processing.truncated (exc_msg exc)
        else Views.ev_status event' = Views.PROCESSING /\
             Views.ev_error_message event' = Views.ev_error_message event
    | NoAnswer | OutOfFuel =>
        Views.ev_status event' = Views.PROCESSING /\
        Views.ev_error_message event' = Views.ev_error_message event /\
        Views.ev_processing_time_ms event' = Views.ev_processing_time_ms event
    end.
Proof.
  intros F. pose proof (rows_with_id_key _ _ _ F) as Hid. subst id.
  pose proof F as F0. unfold rows_with_id in F0.
  cbv zeta. unfold Processing._process_event. rewrite F0. cbv zeta.
  set (ev1 := Processing.set_status event Views.PROCESSING).
  set (db1 := Processing.save_status ev1 db).
  assert (F1 : rows_with_id (Views.ev_id event) db1 = [ev1])
    by (apply (rows_after_save_status event ev1 db); [reflexivity | exact F]).
  assert (Hfin : forall ev2 tags m,
             Views.ev_id ev2 = Views.ev_id event ->
             rows_with_id (Views.ev_id event)
               (fst (Processing.finish started finished tags ev2 db1 m))
             = [ {| Views.ev_id := Views.ev_id event;
                    Views.ev_webhook_id := Views.ev_webhook_id event;
                    Views.ev_topic := Views.ev_topic event;
                    Views.ev_shop_domain := Views.ev_shop_domain event;
                    Views.ev_store := Views.ev_store event;
                    Views.ev_status := Views.ev_status ev2;
                    Views.ev_payload_hash := Views.ev_payload_hash event;
                    Views.ev_error_message := Views.ev_error_message ev2;
                    Views.ev_processing_time_ms :=
                      Some (Qtrunc ((finished - started) * 1000)) |} ]).
  { intros ev2 tags m He.
    exact (rows_after_finish started finished tags ev1 ev2 db1 m He F1). }
  change (Views.ev_topic ev1) with (Views.ev_topic event).
  destruct (Registry.get_handler (Views.ev_topic event) handlers) as [handle|] eqn:G.
  - destruct (handle ev1 payload db1 s) as [[[u|exc]| |] s'] eqn:Hrun.
    + destruct (Processing.finish _ _ _ _ _ _) as [db2 m2] eqn:Fin. simpl.
      match type of Fin with
      | Processing.finish _ _ ?t ?e _ ?m = _ =>
          pose proof (Hfin e t m eq_refl) as X; rewrite Fin in X; simpl in X
      end.
      eexists. split; [exact X|]. simpl. repeat split.
    + destruct (Processing.finish _ _ _ _ _ _) as [db2 m2] eqn:Fin. simpl.
      match type of Fin with
      | Processing.finish _ _ ?t ?e _ ?m = _ =>
          assert (He : Views.ev_id e = Views.ev_id event)
            by (destruct (issubclass (exc_cls exc) Exception_); reflexivity);
          pose proof (Hfin e t m He) as X; rewrite Fin in X; simpl in X
      end.
      eexists. split; [exact X|]. simpl.
      split; [repeat split|]. split; [reflexivity|].
      split; [exists handle; split; [reflexivity | now rewrite Hrun]|].
      destruct (issubclass (exc_cls exc) Exception_); split; reflexivity.
    + simpl. exists ev1. split; [exact F1|]. repeat split.
    + simpl. exists ev1. split; [exact F1|]. repeat split.
  - destruct (Processing.finish _ _ _ _ _ _) as [db2 m2] eqn:Fin. simpl.
    match type of Fin with
    | Processing.finish _ _ ?t ?e _ ?m = _ =>
        pose proof (Hfin e t m eq_refl) as X; rewrite Fin in X; simpl in X
    end.
    eexists. split; [exact X|]. simpl. repeat split.
Qed.

Lemma identity_maps (id : Z) (a b : list Views.WebhookEvent) :
  Forall2 (fun row row' => same_identity row row' /\ (Views.ev_id row <> id -> row' = row)) a b ->
  map Views.ev_id b = map Views.ev_id a /\
  map Views.ev_webhook_id b = map Views.ev_webhook_id a.
Proof.
  induction 1 as [|x y a b [(I1 & I2 & _) _] _ [IH1 IH2]]; simpl; [split; reflexivity|].
  rewrite I1, I2, IH1, IH2. split; reflexivity.
Qed.

Lemma identity_other_rows (id key : Z) (a b : list Views.WebhookEvent) :
  Forall2 (fun row row' => same_identity row row' /\ (Views.ev_id row <> id -> row' = row)) a b ->
  key <> id ->
  filter (fun row => Views.ev_id row =? key) b = filter (fun row => Views.ev_id row =? key) a.
Proof.
  intros H Hne. induction H as [|x y a b [(I1 & _) Hsame] _ IH]; simpl; [reflexivity|].
  rewrite I1. destruct (Z.eqb_spec (Views.ev_id x) key) as [E|E].
  - rewrite Hsame by congruence. now rewrite IH.
  - exact IH.
Qed.

(** X3.  What a run of [_process_event] leaves in the ledger, for a ledger
    with one row under the key of the task.  The row keeps its identifying
    columns.  When the run returns, the elapsed time is recorded and the
    row is [success] with its error message as it was (a handler was
    registered and returned), or [failed] with the message "No handler for
    topic: ..." (nothing registered: this is not raised).  When the run
    raises, it raises what the registered handler raised, the elapsed time
    is recorded, and the row is [failed] with the first 2000 characters of
    the message, or, for an exception outside [Exception], still
    [processing].  When the handler never comes back the row stays
    [processing]. *)
Theorem process_event_records_outcome {S : Type}
    (handlers : Registry.topic_handlers (Processing.handler S))
    (started finished : Q) (id : Z) (payload : pyval) (db : Views.database)
    (s : S) (metrics : list Processing.metric) (event : Views.WebhookEvent) :
  rows_with_id id db = [event] ->
  let run := Processing._process_event handlers started finished id payload db s metrics in
  exists event',
    rows_with_id id (fst (fst (snd run))) = [event'] /\
    same_identity event event' /\
    match fst run with
    | Done (Ok _) =>
        Views.ev_processing_time_ms event' = Some (Qtrunc ((finished - started) * 1000)) /\
        match Registry.get_handler (Views.ev_topic event) handlers with
        | Some _ =>
            Views.ev_status event' = Views.SUCCESS /\
            Views.ev_error_message event' = Views.ev_error_message event
        | None =>
            Views.ev_status event' = Views.FAILED /\
            Views.ev_error_message event'
            = ("No handler for topic: " ++ Views.ev_topic event)%string
        end
    | Done (Raise exc) =>
        Views.ev_processing_time_ms event' = Some (Qtrunc ((finished - started) * 1000)) /\
        (exists handle,
            Registry.get_handler (Views.ev_topic event) handlers = Some handle /\
            fst (handle (Processing.set_status event Views.PROCESSING) payload
                   (Processing.save_status
                      (Processing.set_status event Views.PROCESSING) db) s)
            = Done (Raise exc)) /\
        if issubclass (exc_cls exc) Exception_
        then Views.ev_status event' = Views.FAILED /\
             Views.ev_error_message event' = Processing.truncated (exc_msg exc)
        else Views.ev_status event' = Views.PROCESSING /\
             Views.ev_error_message event' = Views.ev_error_message event
    | NoAnswer | OutOfFuel =>
        Views.ev_status event' = Views.PROCESSING /\
        Views.ev_error_message event' = Views.ev_error_message event /\
        Views.ev_processing_time_ms event' = Views.ev_processing_time_ms event
    end.
Proof. exact (process_event_row handlers started finished id payload db s metrics event). Qed.

Lemma process_event_records_outcome_witness :
  rows_with_id 7 ProcessingScenario.ledger = [ProcessingScenario.row] /\
  exists event',
    rows_with_id 7 (fst (fst (snd ProcessingScenario.first_run))) = [event'] /\
    Views.ev_status event' = Views.FAILED /\
    Views.ev_error_message event' = "connection refused" /\
    Views.ev_processing_time_ms event' = Some 250.
Proof.
  split; [reflexivity|].
  destruct (process_event_records_outcome ProcessingScenario.handlers 10 10.25 7
              IntakeScenario.payload ProcessingScenario.ledger O []
              ProcessingScenario.row eq_refl) as (event' & Hrows & _ & Hout).
  exists event'. split; [exact Hrows|].
  change (fst (Processing._process_event ProcessingScenario.handlers 10 10.25 7
                 IntakeScenario.payload ProcessingScenario.ledger O []))
    with (@Done unit (Raise (Exc ReqConnectionError "connection refused"))) in Hout.
  destruct Hout as (Htime & _ & Hstatus).
  change (issubclass (exc_cls (Exc ReqConnectionError "connection refused")) Exception_)
    with true in Hstatus.
  destruct Hstatus as [Hs Hm]. repeat split; assumption.
Defined.

(** X4.  What a run of [_process_event] never touches, however it ends:
    the configurations, the task queue and the next primary key stay as
    they are; no row is added or removed; every row keeps its primary key,
    delivery identifier, topic, shop domain, store and payload hash; the
    rows under another key are unchanged.  So the ledger honours the
    uniqueness constraint, has distinct primary keys below the next one,
    and has a row for every queued task, after the run exactly when it did
    before. *)
Theorem process_event_frame_invariants {S : Type}
    (handlers : Registry.topic_handlers (Processing.handler S))
    (started finished : Q) (id : Z) (payload : pyval) (db : Views.database)
    (s : S) (metrics : list Processing.metric) :
  let db' := fst (fst (snd (Processing._process_event handlers started finished
                              id payload db s metrics))) in
  Views.configs db' = Views.configs db /\
  Views.queue db' = Views.queue db /\
  Views.next_event_id db' = Views.next_event_id db /\
  Forall2 same_identity (Views.events db) (Views.events db') /\
  (forall key, key <> id -> rows_with_id key db' = rows_with_id key db) /\
  (unique_webhook_id db' <-> unique_webhook_id db) /\
  (unique_ids db' <-> unique_ids db) /\
  (ids_below_next db' <-> ids_below_next db) /\
  (tasks_refer_to_rows db' <-> tasks_refer_to_rows db).
Proof.
  pose proof (process_event_frame handlers started finished id payload db s metrics) as H.
  cbv zeta in *. destruct H as (Hc & Hq & Hn & Hrows).
  destruct (identity_maps _ _ _ Hrows) as [Hids Hwids].
  split; [exact Hc|]. split; [exact Hq|]. split; [exact Hn|].
  split; [|split; [|split; [|split; [|split]]]].
  - eapply Forall2_impl; [|exact Hrows]. intros a b [X _]. exact X.
  - intros key Hne. unfold rows_with_id. now apply (identity_other_rows id).
  - unfold unique_webhook_id. now rewrite Hwids.
  - unfold unique_ids. now rewrite Hids.
  - unfold ids_below_next. rewrite Hn.
    rewrite <- (Forall_map Views.ev_id (fun i => i < Views.next_event_id db)).
    rewrite <- (Forall_map Views.ev_id (fun i => i < Views.next_event_id db)
                  (Views.events db)).
    now rewrite Hids.
  - unfold tasks_refer_to_rows. now rewrite Hq, Hids.
Qed.

Lemma unique_ids_rows (id : Z) (l : list Views.WebhookEvent) :
  NoDup (map Views.ev_id l) ->
  filter (fun row => Views.ev_id row =? id) l = [] \/
  exists event, filter (fun row => Views.ev_id row =? id) l = [event].
Proof.
  induction l as [|row rest IH]; simpl; intros Hnd; [now left|].
  inversion Hnd as [|x xs Hnotin Hrest]; subst.
  destruct (Z.eqb_spec (Views.ev_id row) id) as [E|E].
  - right. exists row. f_equal.
    destruct (filter _ rest) as [|other more] eqn:F; [reflexivity|].
    exfalso. apply Hnotin.
    assert (Hin : In other (filter (fun r => Views.ev_id r =? id) rest))
      by (rewrite F; now left).
    apply filter_In in Hin as [Hin Hid]. apply Z.eqb_eq in Hid.
    rewrite E, <- Hid. now apply in_map.
  - exact (IH Hrest).
Qed.

(** X5.  On a ledger with distinct primary keys [_process_event] raises
    nothing of its own.  A task for a key that is not in the ledger returns
    and changes nothing: no row, no metric, and the handler is not called.
    A run that raises found one row under the key and a handler registered
    for its topic, and raises the exception that handler raised. *)
Theorem process_event_raises_only_handler_errors {S : Type}
    (handlers : Registry.topic_handlers (Processing.handler S))
    (started finished : Q) (id : Z) (payload : pyval) (db : Views.database)
    (s : S) (metrics : list Processing.metric) :
  unique_ids db ->
  let run := Processing._process_event handlers started finished id payload db s metrics in
  (rows_with_id id db = [] -> run = (Done (Ok tt), (db, s, metrics))) /\
  (forall exc, fst run = Done (Raise exc) ->
     exists event handle,
       rows_with_id id db = [event] /\
       Registry.get_handler (Views.ev_topic event) handlers = Some handle /\
       fst (handle (Processing.set_status event Views.PROCESSING) payload
              (Processing.save_status (Processing.set_status event Views.PROCESSING) db) s)
       = Done (Raise exc)).
Proof.
  intros Hnd. cbv zeta. split.
  - intros F. unfold rows_with_id in F. unfold Processing._process_event.
    now rewrite F.
  - intros exc Hraise.
    destruct (unique_ids_rows id (Views.events db) Hnd) as [F|[event F]].
    + unfold Processing._process_event in Hraise. rewrite F in Hraise. discriminate.
    + destruct (process_event_row handlers started finished id payload db s metrics
                  event F) as (event' & _ & _ & Hout).
      cbv zeta in Hout. rewrite Hraise in Hout.
      destruct Hout as (_ & (handle & G & Hrun) & _).
      exists event, handle. repeat split; assumption.
Qed.

Lemma process_event_raises_only_handler_errors_witness :
  unique_ids ProcessingScenario.ledger /\
  exists event handle,
    rows_with_id 7 ProcessingScenario.ledger = [event] /\
    Registry.get_handler (Views.ev_topic event) ProcessingScenario.handlers = Some handle /\
    fst (handle (Processing.set_status event Views.PROCESSING) IntakeScenario.payload
           (Processing.save_status (Processing.set_status event Views.PROCESSING)
              ProcessingScenario.ledger) O)
    = Done (Raise (Exc ReqConnectionError "connection refused")).
Proof.
  assert (Hnd : unique_ids ProcessingScenario.ledger).
  { unfold unique_ids. simpl. repeat constructor; simpl; intuition discriminate. }
  split; [exact Hnd|].
  exact (proj2 (process_event_raises_only_handler_errors ProcessingScenario.handlers
                  10 10.25 7 IntakeScenario.payload ProcessingScenario.ledger O [] Hnd)
           (Exc ReqConnectionError "connection refused") eq_refl).
Defined.

Lemma substring_length_le (n : nat) (s : string) :
  (String.length (substring 0 n s) <= n)%nat.
Proof.
  revert s. induction n as [|n IH]; intros s.
  - destruct s; simpl; lia.
  - destruct s as [|c s]; simpl; [lia|]. specialize (IH s). lia.
Qed.

(** X6.  A retry that succeeds keeps the error message of the failed
    attempt.  When a run fails with an exception of [Exception] and the
    next run on the same row returns, the row is [success] and still
    carries the message of the failure, cut to at most 2000 characters:
    [error_message] is among the saved columns but is only ever assigned
    on failure. *)
Theorem successful_retry_keeps_error_message {S : Type}
    (handlers : Registry.topic_handlers (Processing.handler S))
    (started finished started' finished' : Q) (id : Z) (payload : pyval)
    (db : Views.database) (s : S) (metrics : list Processing.metric)
    (event : Views.WebhookEvent) (exc : pyexc) :
  rows_with_id id db = [event] ->
  let run := Processing._process_event handlers started finished id payload db s metrics in
  let retry :=
    Processing._process_event handlers started' finished' id payload
      (fst (fst (snd run))) (snd (fst (snd run))) (snd (snd run)) in
  fst run = Done (Raise exc) ->
  issubclass (exc_cls exc) Exception_ = true ->
  fst retry = Done (Ok tt) ->
  exists event',
    rows_with_id id (fst (fst (snd retry))) = [event'] /\
    Views.ev_status event' = Views.SUCCESS /\
    Views.ev_error_message event' = Processing.truncated (exc_msg exc) /\
    (String.length (Views.ev_error_message event') <= 2000)%nat /\
    Views.ev_processing_time_ms event' = Some (Qtrunc ((finished' - started') * 1000)).
Proof.
  intros F run retry Hraise Hexc Hok.
  destruct (process_event_row handlers started finished id payload db s metrics event F)
    as (event1 & F1 & Hsame & Hout1).
  fold run in F1, Hout1. rewrite Hraise, Hexc in Hout1.
  destruct Hout1 as (_ & (handle & G & _) & Hfailed & Hmsg).
  destruct (process_event_row handlers started' finished' id payload
              (fst (fst (snd run))) (snd (fst (snd run))) (snd (snd run)) event1 F1)
    as (event2 & F2 & _ & Hout2).
  fold retry in F2, Hout2. rewrite Hok in Hout2.
  destruct Hsame as (_ & _ & Htopic & _). rewrite Htopic, G in Hout2.
  destruct Hout2 as (Htime & Hs & Hm).
  exists event2. split; [exact F2|]. split; [exact Hs|].
  split; [congruence|]. split; [|exact Htime].
  rewrite Hm, Hmsg. apply substring_length_le.
Qed.

Lemma successful_retry_keeps_error_message_witness :
  exists event',
    rows_with_id 7
      (fst (fst (snd (Processing._process_event ProcessingScenario.handlers 40 40.5 7
                        IntakeScenario.payload
                        (fst (fst (snd ProcessingScenario.first_run)))
                        (snd (fst (snd ProcessingScenario.first_run)))
                        (snd (snd ProcessingScenario.first_run))))))
    = [event'] /\
    Views.ev_status event' = Views.SUCCESS /\
    Views.ev_error_message event' = "connection refused" /\
    (String.length (Views.ev_error_message event') <= 2000)%nat /\
    Views.ev_processing_time_ms event' = Some 500.
Proof.
  exact (successful_retry_keeps_error_message ProcessingScenario.handlers
           10 10.25 40 40.5 7 IntakeScenario.payload ProcessingScenario.ledger O []
           ProcessingScenario.row (Exc ReqConnectionError "connection refused")
           eq_refl eq_refl eq_refl eq_refl).
Defined.

(** ** Intake: what a request can do to the ledger *)

Lemma verify_true_signature body header secret :
  Middleware.verify_shopify_hmac body header secret = Ok true ->
  header = signature secret body.
Proof.
  intros H. destruct (HMAC.is_ascii header) eqn:A.
  - rewrite (verify_ascii_header _ _ _ A) in H.
    assert (E : String.eqb (signature secret body) header = true) by congruence.
    apply String.eqb_eq in E. now symmetry.
  - rewrite (verify_non_ascii_header _ _ _ A) in H. discriminate.
Qed.

(** Every request either leaves the tables as they are or passes the
    checks of steps 1 to 6 and appends one row. *)
Lemma post_effect (self : Views.view) (req : Views.request) (db : Views.database) :
  (snd (Views.post self req db) = db /\
   (forall resp, fst (Views.post self req db) = Ok resp ->
      Views.status_code resp = 200 /\ Views.event_exists db (delivery_id req) = true \/
      Views.status_code resp = 400 \/ Views.status_code resp = 401 \/
      Views.status_code resp = 404) /\
   (forall e, fst (Views.post self req db) = Raise e ->
      exists shop_domain,
        Views.meta_get (Views.META req) "HTTP_X_SHOPIFY_SHOP_DOMAIN" = Some shop_domain /\
        ((2 <= List.length (Views.active_configs db shop_domain))%nat \/
         exists config,
           Views.active_configs db shop_domain = [config] /\
           Middleware.verify_shopify_hmac (Views.body req)
             (Views.meta_get_or_empty (Views.META req) "HTTP_X_SHOPIFY_HMAC_SHA256")
             (webhook_secret config) = Raise e))) \/
  (exists shop_domain config,
     Views.meta_get (Views.META req) "HTTP_X_SHOPIFY_SHOP_DOMAIN" = Some shop_domain /\
     shop_domain <> "" /\
     Views.active_configs db shop_domain = [config] /\
     Middleware.verify_shopify_hmac (Views.body req)
       (Views.meta_get_or_empty (Views.META req) "HTTP_X_SHOPIFY_HMAC_SHA256")
       (webhook_secret config) = Ok true /\
     delivery_id req <> "" /\
     Views.topic_refused self (delivery_topic req) = false /\
     Views.event_exists db (delivery_id req) = false /\
     let event :=
       Views.new_event db (delivery_id req) (delivery_topic req) shop_domain
         (Some (store_id config)) Views.RECEIVED
         (Codec.hex (SHA256.digest (Views.body req))) in
     Views.configs (snd (Views.post self req db)) = Views.configs db /\
     Views.events (snd (Views.post self req db)) = (Views.events db ++ [event])%list /\
     Views.next_event_id (snd (Views.post self req db)) = Views.next_event_id db + 1 /\
     Views.queue (snd (Views.post self req db))
     = match Views.task_actor self, Views.body_json req with
       | Some a, Ok payload =>
           (Views.queue db ++ [ {| Views.task_actor_of := a;
                                   Views.task_event_id := Views.next_event_id db;
                                   Views.task_payload := payload |} ])%list
       | _, _ => Views.queue db
       end /\
     fst (Views.post self req db)
     = match Views.task_actor self, Views.body_json req with
       | Some _, Raise e => Raise e
       | _, _ => Ok (Views.empty_response 200)
       end).
Proof.
  unfold Views.post, delivery_id, delivery_topic.
  destruct (Views.meta_get (Views.META req) "HTTP_X_SHOPIFY_SHOP_DOMAIN")
    as [[|c shop_domain]|] eqn:Hdom.
  1, 3: left; split; [reflexivity|]; split;
        [intros resp H; simpl in H; inversion H; subst; simpl; auto
        | intros e H; discriminate H].
  destruct (Views.active_configs db (String c shop_domain)) as [|config [|]] eqn:Hcfg.
  - left. split; [reflexivity|]. split;
      [intros resp H; simpl in H; inversion H; subst; simpl; auto
      | intros e H; discriminate H].
  - destruct (Middleware.verify_shopify_hmac _ _ _) as [[|]|e0] eqn:Hv.
    + destruct (String.eqb _ "") eqn:Hid.
      { left. split; [reflexivity|]. split;
          [intros resp H; simpl in H; inversion H; subst; simpl; auto
          | intros e H; discriminate H]. }
      destruct (Views.topic_refused self _) eqn:Htopic.
      { left. split; [reflexivity|]. split;
          [intros resp H; simpl in H; inversion H; subst; simpl; auto
          | intros e H; discriminate H]. }
      destruct (Views.event_exists db _) eqn:Hex.
      { left. split; [reflexivity|]. split;
          [intros resp H; simpl in H; inversion H; subst; simpl; auto
          | intros e H; discriminate H]. }
      right. exists (String c shop_domain), config.
      split; [reflexivity|]. split; [discriminate|].
      split; [exact Hcfg|]. split; [exact Hv|].
      split; [now apply String.eqb_neq|].
      split; [first [exact Htopic | reflexivity]|].
      split; [first [exact Hex | reflexivity]|].
      cbv zeta. unfold Views.create_event. rewrite Hex.
      destruct (Views.task_actor self) as [a|];
        [destruct (Views.body_json req) as [payload|e]|]; simpl; repeat split.
    + left. split; [reflexivity|]. split;
        [intros resp H; simpl in H; inversion H; subst; simpl; auto
        | intros e H; discriminate H].
    + left. split; [reflexivity|]. split; [intros resp H; discriminate H|].
      intros e H. simpl in H. inversion H; subst.
      exists (String c shop_domain). split; [reflexivity|]. right.
      exists config. split; [exact Hcfg | exact Hv].
  - left. split; [reflexivity|]. split; [intros resp H; discriminate H|].
    intros e H. exists (String c shop_domain). split; [reflexivity|]. left.
    rewrite Hcfg. simpl. lia.
Qed.

(** A request that passes steps 1 to 5 and whose delivery is in the
    ledger is answered 200 at step 6. *)
Lemma post_redelivery (self : Views.view) (req : Views.request) (db : Views.database)
    (shop_domain : string) (config : ShopifyWebhookConfig) :
  Views.meta_get (Views.META req) "HTTP_X_SHOPIFY_SHOP_DOMAIN" = Some shop_domain ->
  shop_domain <> "" ->
  Views.active_configs db shop_domain = [config] ->
  Middleware.verify_shopify_hmac (Views.body req)
    (Views.meta_get_or_empty (Views.META req) "HTTP_X_SHOPIFY_HMAC_SHA256")
    (webhook_secret config) = Ok true ->
  delivery_id req <> "" ->
  Views.topic_refused self (delivery_topic req) = false ->
  Views.event_exists db (delivery_id req) = true ->
  Views.post self req db = (Ok (Views.empty_response 200), db).
Proof.
  unfold Views.post, delivery_id, delivery_topic.
  intros Hdom Hne Hcfg Hv Hid Htopic Hex.
  rewrite Hdom. destruct shop_domain as [|c shop_domain]; [contradiction|].
  rewrite Hcfg, Hv. apply String.eqb_neq in Hid. now rewrite Hid, Htopic, Hex.
Qed.

Lemma ids_below_next_fresh (db : Views.database) :
  ids_below_next db -> ~ In (Views.next_event_id db) (map Views.ev_id (Views.events db)).
Proof.
  unfold ids_below_next. intros H Hin.
  apply in_map_iff in Hin as (row & Hid & Hin).
  rewrite Forall_forall in H. specialize (H row Hin). lia.
Qed.

(** X7.  The intake endpoint only ever appends.  Whatever the request,
    [post] leaves the configurations and every existing row and queued
    task as they are; it adds at most one row (status [received], keyed by
    the delivery identifier of the request, primary key the next free one)
    and at most one task, and a task only together with its row and for
    the actor of the endpoint.  A ledger that honours the uniqueness
    constraint on delivery identifiers, has distinct primary keys below
    the next one and a row for every queued task still does so
    afterwards. *)
Theorem post_keeps_ledger_invariants (self : Views.view) (req : Views.request)
    (db : Views.database) :
  unique_webhook_id db -> unique_ids db -> ids_below_next db -> tasks_refer_to_rows db ->
  let db' := snd (Views.post self req db) in
  unique_webhook_id db' /\ unique_ids db' /\ ids_below_next db' /\
  tasks_refer_to_rows db' /\
  Views.configs db' = Views.configs db /\
  exists rows tasks,
    Views.events db' = (Views.events db ++ rows)%list /\
    Views.queue db' = (Views.queue db ++ tasks)%list /\
    Views.next_event_id db' = Views.next_event_id db + Z.of_nat (List.length rows) /\
    (List.length tasks <= List.length rows <= 1)%nat /\
    Forall (fun row =>
              Views.ev_id row = Views.next_event_id db /\
              Views.ev_webhook_id row = delivery_id req /\
              Views.ev_status row = Views.RECEIVED) rows /\
    Forall (fun t =>
              Some (Views.task_actor_of t) = Views.task_actor self /\
              Views.task_event_id t = Views.next_event_id db /\
              Views.body_json req = Ok (Views.task_payload t)) tasks.
Proof.
  intros Hw Hi Hb Ht. cbv zeta.
  destruct (post_effect self req db) as [[Hsame _]|Hnew].
  - rewrite Hsame. repeat (split; [assumption|]). split; [reflexivity|].
    exists [], []. rewrite !app_nil_r. simpl. rewrite Z.add_0_r.
    repeat split; auto.
  - destruct Hnew as (shop_domain & config & _ & _ & _ & _ & _ & _ & Hex & Hnew).
    cbv zeta in Hnew. destruct Hnew as (Hc & He & Hn & Hq & _).
    set (db' := snd (Views.post self req db)) in *.
    set (event := Views.new_event db (delivery_id req) (delivery_topic req) shop_domain
                    (Some (store_id config)) Views.RECEIVED
                    (Codec.hex (SHA256.digest (Views.body req)))) in *.
    assert (Hids : map Views.ev_id (Views.events db')
                   = (map Views.ev_id (Views.events db) ++ [Views.next_event_id db])%list)
      by (rewrite He, map_app; reflexivity).
    split; [exact (unique_after_insert db db' event Hw Hex He)|].
    split.
    { unfold unique_ids. rewrite Hids.
      apply NoDup_app; [exact Hi | repeat constructor; intros [] |].
      intros i Hin [E|[]]. subst i. exact (ids_below_next_fresh db Hb Hin). }
    split.
    { unfold ids_below_next in *. rewrite He, Hn. apply Forall_app. split.
      - eapply Forall_impl; [|exact Hb]. intros row H. simpl in H. lia.
      - constructor; [simpl; lia | constructor]. }
    split.
    { unfold tasks_refer_to_rows in *. rewrite Hq, Hids.
      assert (Hold : Forall (fun t => In (Views.task_event_id t)
                                (map Views.ev_id (Views.events db)
                                   ++ [Views.next_event_id db])%list) (Views.queue db)).
      { eapply Forall_impl; [|exact Ht]. intros t H. apply in_or_app. now left. }
      destruct (Views.task_actor self) as [a|]; [|exact Hold].
      destruct (Views.body_json req) as [payload|e]; [|exact Hold].
      apply Forall_app. split; [exact Hold|].
      constructor; [|constructor]. simpl. apply in_or_app. right. now left. }
    split; [exact Hc|].
    exists [event].
    exists (match Views.task_actor self, Views.body_json req with
            | Some a, Ok payload =>
                [ {| Views.task_actor_of := a;
                     Views.task_event_id := Views.next_event_id db;
                     Views.task_payload := payload |} ]
            | _, _ => []
            end).
    split; [exact He|]. split.
    { rewrite Hq. destruct (Views.task_actor self) as [a|];
        [destruct (Views.body_json req)|]; now rewrite ?app_nil_r. }
    split; [exact Hn|]. split.
    { destruct (Views.task_actor self) as [a|];
        [destruct (Views.body_json req)|]; simpl; lia. }
    split; [repeat constructor|].
    destruct (Views.task_actor self) as [a|];
      [destruct (Views.body_json req)|]; repeat constructor.
Qed.

Lemma post_keeps_ledger_invariants_witness :
  let db := IntakeScenario.fresh in
  let db' := snd (Views.post Views.ShopifyPromotionWebhookView
                    (IntakeScenario.delivery "d-1" "price_rules/create") db) in
  (unique_webhook_id db /\ unique_ids db /\ ids_below_next db /\ tasks_refer_to_rows db) /\
  unique_webhook_id db' /\ unique_ids db' /\ ids_below_next db' /\
  tasks_refer_to_rows db'.
Proof.
  assert (Hw : unique_webhook_id IntakeScenario.fresh) by constructor.
  assert (Hi : unique_ids IntakeScenario.fresh) by constructor.
  assert (Hb : ids_below_next IntakeScenario.fresh) by constructor.
  assert (Ht : tasks_refer_to_rows IntakeScenario.fresh) by constructor.
  cbv zeta. split; [repeat split; assumption|].
  destruct (post_keeps_ledger_invariants Views.ShopifyPromotionWebhookView
              (IntakeScenario.delivery "d-1" "price_rules/create")
              IntakeScenario.fresh Hw Hi Hb Ht) as (A & B & C & D & _).
  repeat split; assumption.
Defined.

(** X8.  Only a correctly signed request of a known shop changes
    anything.  When [post] changes the tables, the shop-domain header
    names an active configuration, the signature header is the base64
    HMAC-SHA256 of the raw body under that configuration's secret, the
    delivery identifier is present and new to the ledger, and the topic is
    one the endpoint takes. *)
Theorem post_writes_only_for_signed_tenant (self : Views.view) (req : Views.request)
    (db : Views.database) :
  snd (Views.post self req db) <> db ->
  exists config,
    In config (Views.configs db) /\
    is_active config = true /\
    Views.meta_get (Views.META req) "HTTP_X_SHOPIFY_SHOP_DOMAIN"
    = Some (shopify_domain config) /\
    Views.meta_get_or_empty (Views.META req) "HTTP_X_SHOPIFY_HMAC_SHA256"
    = signature (webhook_secret config) (Views.body req) /\
    delivery_id req <> "" /\
    Views.event_exists db (delivery_id req) = false /\
    Views.topic_refused self (delivery_topic req) = false.
Proof.
  intros Hchanged.
  destruct (post_effect self req db) as [[Hsame _]|Hnew]; [contradiction|].
  destruct Hnew as (shop_domain & config & Hdom & _ & Hcfg & Hv & Hid & Htopic & Hex & _).
  exists config.
  assert (Hin : In config (Views.active_configs db shop_domain))
    by (rewrite Hcfg; now left).
  apply filter_In in Hin as [Hin Hsel]. apply andb_prop in Hsel as [Hd Ha].
  apply String.eqb_eq in Hd.
  split; [exact Hin|]. split; [exact Ha|]. split; [now rewrite Hd|].
  split; [exact (verify_true_signature _ _ _ Hv)|]. repeat split; assumption.
Qed.

Lemma post_writes_only_for_signed_tenant_witness :
  exists config,
    In config (Views.configs IntakeScenario.fresh) /\
    is_active config = true /\
    Views.meta_get (Views.META (IntakeScenario.delivery "d-1" "price_rules/create"))
      "HTTP_X_SHOPIFY_SHOP_DOMAIN"
    = Some (shopify_domain config) /\
    Views.meta_get_or_empty (Views.META (IntakeScenario.delivery "d-1" "price_rules/create"))
      "HTTP_X_SHOPIFY_HMAC_SHA256"
    = signature (webhook_secret config)
        (Views.body (IntakeScenario.delivery "d-1" "price_rules/create")) /\
    delivery_id (IntakeScenario.delivery "d-1" "price_rules/create") <> "" /\
    Views.event_exists IntakeScenario.fresh
      (delivery_id (IntakeScenario.delivery "d-1" "price_rules/create")) = false /\
    Views.topic_refused Views.ShopifyPromotionWebhookView
      (delivery_topic (IntakeScenario.delivery "d-1" "price_rules/create")) = false.
Proof.
  apply (post_writes_only_for_signed_tenant Views.ShopifyPromotionWebhookView
           (IntakeScenario.delivery "d-1" "price_rules/create") IntakeScenario.fresh).
  intros H. apply (f_equal Views.next_event_id) in H. vm_compute in H. discriminate H.
Defined.

(** X9.  The answers of the intake endpoint.  A response of [post] has
    status 200, 400, 401 or 404, and with any status but 200 the tables
    are as before.  An exception leaves [post] in three cases only: two
    active configurations for the shop domain, or a signature header the
    comparison refuses (both before anything is written), or a body that
    is not JSON at an endpoint with a task actor.  In the last case the
    row is already written and no task is queued, so the delivery, sent
    again, is answered 200 without a row or a task being added: it is
    never processed. *)
Theorem post_answers (self : Views.view) (req : Views.request) (db : Views.database) :
  let db' := snd (Views.post self req db) in
  (forall resp, fst (Views.post self req db) = Ok resp ->
     In (Views.status_code resp) [200; 400; 401; 404] /\
     (Views.status_code resp <> 200 -> db' = db)) /\
  (forall e, fst (Views.post self req db) = Raise e ->
     (db' = db /\
      exists shop_domain,
        Views.meta_get (Views.META req) "HTTP_X_SHOPIFY_SHOP_DOMAIN" = Some shop_domain /\
        ((2 <= List.length (Views.active_configs db shop_domain))%nat \/
         exists config,
           Views.active_configs db shop_domain = [config] /\
           Middleware.verify_shopify_hmac (Views.body req)
             (Views.meta_get_or_empty (Views.META req) "HTTP_X_SHOPIFY_HMAC_SHA256")
             (webhook_secret config) = Raise e)) \/
     (Views.body_json req = Raise e /\
      Views.task_actor self <> None /\
      Views.queue db' = Views.queue db /\
      (exists row,
         Views.events db' = (Views.events db ++ [row])%list /\
         Views.ev_webhook_id row = delivery_id req /\
         Views.ev_status row = Views.RECEIVED) /\
      Views.post self req db' = (Ok (Views.empty_response 200), db'))).
Proof.
  cbv zeta. destruct (post_effect self req db) as [(Hsame & Hresp & Hexc)|Hnew].
  - split.
    + intros resp H. split; [|intros _; exact Hsame].
      destruct (Hresp resp H) as [[E _]|[E|[E|E]]]; rewrite E; simpl; auto.
    + intros e H. left. split; [exact Hsame|]. exact (Hexc e H).
  - destruct Hnew as (shop_domain & config & Hdom & Hne & Hcfg & Hv & Hid & Htopic & Hex
                      & Hnew).
    cbv zeta in Hnew. destruct Hnew as (Hc & He & Hn & Hq & Hr).
    split.
    + intros resp H. rewrite Hr in H.
      assert (E : resp = Views.empty_response 200).
      { destruct (Views.task_actor self); [destruct (Views.body_json req)|]; congruence. }
      subst resp. simpl. split; [auto | intros C; contradiction].
    + intros e H. right. rewrite Hr in H.
      destruct (Views.task_actor self) as [a|] eqn:Ha; [|discriminate].
      destruct (Views.body_json req) as [payload|e'] eqn:Hj; [discriminate|].
      inversion H; subst e'. split; [reflexivity|]. split; [discriminate|].
      split; [exact Hq|]. split.
      * eexists. split; [exact He|]. split; reflexivity.
      * apply (post_redelivery self req _ shop_domain config); try assumption.
        -- now rewrite (active_configs_same db _ shop_domain Hc).
        -- eapply event_exists_app; [exact He | reflexivity].
Qed.

(** ** From intake to processing and back *)

Lemma rows_with_next_id (db : Views.database) :
  ids_below_next db -> rows_with_id (Views.next_event_id db) db = [].
Proof.
  unfold ids_below_next, rows_with_id.
  induction (Views.events db) as [|row rest IH]; simpl; intros H; [reflexivity|].
  inversion H as [|x xs Hlt Hrest]; subst.
  destruct (Z.eqb_spec (Views.ev_id row) (Views.next_event_id db)) as [E|E]; [lia|].
  exact (IH Hrest).
Qed.

(** Processing the last row of a ledger whose other rows have other keys
    changes that row only. *)
Lemma frame_of_last_row (id : Z) (rows : list Views.WebhookEvent)
    (event : Views.WebhookEvent) (rows' : list Views.WebhookEvent) :
  Forall (fun row => Views.ev_id row <> id) rows ->
  Forall2 (fun row row' => same_identity row row' /\ (Views.ev_id row <> id -> row' = row))
          (rows ++ [event]) rows' ->
  exists event', rows' = (rows ++ [event'])%list /\ same_identity event event'.
Proof.
  revert rows'. induction rows as [|row rest IH]; intros rows' Hne H.
  - inversion H as [|x y xs ys [Hsame _] Hrest]; subst. inversion Hrest; subst.
    exists y. split; [reflexivity | exact Hsame].
  - inversion Hne as [|x xs Hrow Hrest]; subst.
    inversion H as [|x y xs ys [_ Hkeep] Htail]; subst.
    destruct (IH ys Hrest Htail) as (event' & E & Hsame).
    exists event'. split; [|exact Hsame]. rewrite (Hkeep Hrow), E. reflexivity.
Qed.

Lemma ids_below_next_other (db : Views.database) :
  ids_below_next db ->
  Forall (fun row => Views.ev_id row <> Views.next_event_id db) (Views.events db).
Proof.
  unfold ids_below_next. intros H. eapply Forall_impl; [|exact H].
  intros row Hlt. simpl in Hlt. lia.
Qed.

Lemma rows_for_app (d : string) (db : Views.database) (rows : list Views.WebhookEvent)
    (event : Views.WebhookEvent) :
  Views.events db = (rows ++ [event])%list ->
  filter (fun ev => String.eqb (Views.ev_webhook_id ev) d) rows = [] ->
  Views.ev_webhook_id event = d ->
  rows_for d db = [event].
Proof.
  intros He Hnone Hd. unfold rows_for. rewrite He, filter_app, Hnone. simpl.
  now rewrite Hd, String.eqb_refl.
Qed.

(** X10.  Intake, processing and redelivery compose.  A request that
    passes the intake checks with a delivery identifier new to the ledger,
    at an endpoint with a task actor, queues one task that carries the
    primary key of the new row and the parsed body.  Running
    [_process_event] on that task finds the row; when the run returns and
    a handler is registered for the topic, the one row of the delivery is
    [success].  However the run ends, the same request sent again is
    answered 200 and changes nothing: no row, no task, so the handler is
    not run a second time. *)
Theorem intake_then_processing {S : Type} (self : Views.view) (req : Views.request)
    (db : Views.database) (a : Views.actor)
    (handlers : Registry.topic_handlers (Processing.handler S))
    (started finished : Q) (s : S) (metrics : list Processing.metric) :
  intake_accepts self req db = true ->
  Views.event_exists db (delivery_id req) = false ->
  ids_below_next db ->
  Views.task_actor self = Some a ->
  let db1 := snd (Views.post self req db) in
  exists payload,
    Views.body_json req = Ok payload /\
    Views.queue db1
    = (Views.queue db ++ [ {| Views.task_actor_of := a;
                              Views.task_event_id := Views.next_event_id db;
                              Views.task_payload := payload |} ])%list /\
    let run := Processing._process_event handlers started finished
                 (Views.next_event_id db) payload db1 s metrics in
    let db2 := fst (fst (snd run)) in
    (exists row,
        rows_for (delivery_id req) db2 = [row] /\
        Views.ev_id row = Views.next_event_id db /\
        (fst run = Done (Ok tt) ->
         Registry.get_handler (delivery_topic req) handlers <> None ->
         Views.ev_status row = Views.SUCCESS)) /\
    Views.queue db2 = Views.queue db1 /\
    Views.post self req db2 = (Ok (Views.empty_response 200), db2).
Proof.
  intros Hacc Hex Hb Ha. cbv zeta.
  destruct (post_effect self req db) as [[Hsame _]|Hnew].
  { exfalso. destruct (post_accepted self req db Hacc) as [[E _]|(_ & ev & db' & Hp & _ & _ & _ & He & _)];
      [congruence|].
    rewrite Hp in Hsame. simpl in Hsame. subst db'.
    apply (f_equal (@List.length _)) in He. rewrite length_app in He. simpl in He. lia. }
  destruct Hnew as (shop_domain & config & Hdom & Hne & Hcfg & Hv & Hid & Htopic & _ & Hnew).
  cbv zeta in Hnew. destruct Hnew as (Hc & He & Hn & Hq & _).
  set (db1 := snd (Views.post self req db)) in *.
  set (event := Views.new_event db (delivery_id req) (delivery_topic req) shop_domain
                  (Some (store_id config)) Views.RECEIVED
                  (Codec.hex (SHA256.digest (Views.body req)))) in *.
  rewrite Ha in Hq.
  destruct (Views.body_json req) as [payload|e] eqn:Hj.
  2: { unfold intake_accepts in Hacc. rewrite Hdom, Hcfg, Hv, Ha, Hj in Hacc.
       rewrite !andb_false_r in Hacc. discriminate. }
  exists payload. split; [reflexivity|]. split; [exact Hq|].
  set (run := Processing._process_event handlers started finished
                (Views.next_event_id db) payload db1 s metrics).
  pose proof (process_event_frame handlers started finished (Views.next_event_id db)
                payload db1 s metrics) as Hframe.
  cbv zeta in Hframe. fold run in Hframe. destruct Hframe as (Hc2 & Hq2 & _ & Hrows).
  rewrite He in Hrows.
  destruct (frame_of_last_row _ _ _ _ (ids_below_next_other db Hb) Hrows)
    as (event' & He2 & Hsame).
  assert (F1 : rows_with_id (Views.next_event_id db) db1 = [event]).
  { unfold rows_with_id. rewrite He, filter_app.
    pose proof (rows_with_next_id db Hb) as Hnone. unfold rows_with_id in Hnone.
    rewrite Hnone. simpl. now rewrite Z.eqb_refl. }
  destruct (process_event_row handlers started finished (Views.next_event_id db)
              payload db1 s metrics event F1) as (row & F2 & _ & Hout).
  fold run in F2, Hout.
  assert (Hrow : row = event').
  { unfold rows_with_id in F2. rewrite He2, filter_app in F2.
    pose proof (rows_with_next_id db Hb) as Hnone. unfold rows_with_id in Hnone.
    rewrite Hnone in F2. simpl in F2.
    destruct Hsame as (I1 & _). rewrite I1 in F2. simpl in F2.
    rewrite Z.eqb_refl in F2. congruence. }
  subst row.
  destruct Hsame as (I1 & I2 & _).
  split; [|split; [exact Hq2|]].
  - exists event'. split.
    + apply (rows_for_app _ _ (Views.events db)); [exact He2| |exact I2].
      exact (event_exists_rows db _ Hex).
    + split; [exact I1|]. intros Hok Hreg. rewrite Hok in Hout.
      destruct Hout as (_ & Hout). simpl in Hout.
      destruct (Registry.get_handler (delivery_topic req) handlers); [|contradiction].
      exact (proj1 Hout).
  - apply (post_redelivery self req _ shop_domain config); try assumption.
    + rewrite (active_configs_same db1 _ shop_domain Hc2).
      now rewrite (active_configs_same db db1 shop_domain Hc).
    + eapply event_exists_app with (db := {| Views.configs := Views.configs db;
                                             Views.events := Views.events db;
                                             Views.next_event_id := Views.next_event_id db;
                                             Views.queue := Views.queue db |});
        [exact He2 | exact I2].
Qed.

Lemma intake_then_processing_witness :
  let req := IntakeScenario.delivery "d-1" "price_rules/create" in
  let db := IntakeScenario.fresh in
  intake_accepts Views.ShopifyPromotionWebhookView req db = true /\
  Views.event_exists db (delivery_id req) = false /\
  ids_below_next db /\
  exists payload,
    Views.body_json req = Ok payload /\
    let db1 := snd (Views.post Views.ShopifyPromotionWebhookView req db) in
    let run := Processing._process_event ProcessingScenario.handlers 10 10.25
                 (Views.next_event_id db) payload db1 1%nat [] in
    let db2 := fst (fst (snd run)) in
    (exists row,
        rows_for (delivery_id req) db2 = [row] /\
        Views.ev_id row = Views.next_event_id db /\
        (fst run = Done (Ok tt) ->
         Registry.get_handler (delivery_topic req) ProcessingScenario.handlers <> None ->
         Views.ev_status row = Views.SUCCESS)) /\
    Views.queue db2 = Views.queue db1 /\
    Views.post Views.ShopifyPromotionWebhookView req db2
    = (Ok (Views.empty_response 200), db2).
Proof.
  cbv zeta.
  assert (Hacc : intake_accepts Views.ShopifyPromotionWebhookView
                   (IntakeScenario.delivery "d-1" "price_rules/create")
                   IntakeScenario.fresh = true) by (vm_compute; reflexivity).
  assert (Hb : ids_below_next IntakeScenario.fresh) by constructor.
  split; [exact Hacc|]. split; [reflexivity|]. split; [exact Hb|].
  destruct (intake_then_processing Views.ShopifyPromotionWebhookView
              (IntakeScenario.delivery "d-1" "price_rules/create")
              IntakeScenario.fresh Views.process_shopify_promotion_event
              ProcessingScenario.handlers 10 10.25 1%nat [] Hacc eq_refl Hb eq_refl)
    as (payload & Hj & _ & Hrest).
  exists payload. split; [exact Hj|]. exact Hrest.
Defined.

(** ** Families, the Basket Threshold builder and the price-rule handlers *)

Lemma py_eq_str_true (v : pyval) (s : string) :
  py_eq_str v s = true -> v = VStr s.
Proof.
  destruct v; simpl; try discriminate. intros H. apply String.eqb_eq in H. now subst.
Qed.

Lemma determine_family_some (rule : pyval) (fam : PromoFamily) :
  Families.determine_family rule = Ok (Some fam) ->
  py_get rule "target_type" = Ok (VStr "line_item") /\
  ((fam = EASY /\ py_get rule "target_selection" = Ok (VStr "entitled")) \/
   (fam = BASKET_THRESHOLD /\ py_get rule "target_selection" = Ok (VStr "all"))).
Proof.
  unfold Families.determine_family. intros H.
  destruct (py_get rule "target_type") as [tt|e]; [|discriminate]. simpl in H.
  destruct (py_eq_str tt "line_item") eqn:T; [|discriminate]. simpl in H.
  apply py_eq_str_true in T. subst tt. split; [reflexivity|].
  destruct (py_get rule "target_selection") as [ts|e]; [|discriminate]. simpl in H.
  destruct (py_eq_str ts "all") eqn:A.
  - apply py_eq_str_true in A. subst ts. right. split; congruence.
  - destruct (py_eq_str ts "entitled") eqn:E; [|discriminate].
    apply py_eq_str_true in E. subst ts. left. split; congruence.
Qed.

Ltac bind_ok H :=
  repeat match type of H with
         | bind ?r _ = Ok _ =>
             let E := fresh "E" in destruct r eqn:E; cbn [bind] in H; [|discriminate H]
         end.

(** What the first part of [build_easy_promotion] puts into the promotion,
    whatever the groups. *)
Lemma easy_head_fields rule config current_date head :
  Builder.build_easy_promotion_head rule config current_date = Ok head ->
  exists id promo_retailer,
    py_item rule "id" = Ok id /\
    PromotionHandlers._get_retailer_name config = Ok promo_retailer /\
    forall gs,
      promo_id (head gs) = py_str id /\
      family (head gs) = EASY /\
      retailer (head gs) = promo_retailer /\
      stores (head gs) = [store_id config] /\
      groups (head gs) = gs.
Proof.
  unfold Builder.build_easy_promotion_head, PromotionHandlers._get_retailer_name.
  intros H. bind_ok H. injection H as <-.
  eexists _, _. split; [reflexivity|]. split; [reflexivity|].
  intros gs. repeat split.
Qed.

Lemma build_easy_promotion_fields rule config w promo w' :
  Builder.build_easy_promotion rule config w = (Done (Ok promo), w') ->
  exists id promo_retailer,
    py_item rule "id" = Ok id /\
    PromotionHandlers._get_retailer_name config = Ok promo_retailer /\
    promo_id promo = py_str id /\
    family promo = EASY /\
    retailer promo = promo_retailer /\
    stores promo = [store_id config].
Proof.
  unfold Builder.build_easy_promotion, Builder.failed. intros H.
  destruct (Builder.build_easy_promotion_head rule config (now w)) as [head|e] eqn:Hd;
    [|discriminate].
  destruct (Builder.resolve_entitled_skus rule _ w) as [[[skus|e]| |] w1];
    try discriminate.
  destruct (py_item rule "id") as [id'|e] eqn:I; [|discriminate].
  injection H as <- <-.
  destruct (easy_head_fields _ _ _ _ Hd) as (id & r & Hi & Hr & Hf).
  exists id, r. split; [congruence|]. split; [exact Hr|].
  destruct (Hf (Builder.build_promo_groups id' skus (VInt 1))) as (A & B & C & D & _).
  repeat split; assumption.
Qed.

Lemma subtotal_minimum_truthy rule minimum :
  Families.subtotal_minimum rule = Ok minimum -> truthy minimum = true.
Proof.
  unfold Families.subtotal_minimum. intros H.
  destruct (py_get rule "prerequisite_subtotal_range") as [range|e]; [|discriminate].
  simpl in H. destruct (truthy range); [|injection H as <-; reflexivity].
  unfold py_get, py_get_default, py_item in *.
  destruct range as [| | | | | | |d]; try discriminate. simpl in H.
  destruct (assoc "greater_than_or_equal_to" d) as [bound|] eqn:A.
  - destruct (truthy bound) eqn:T; injection H as <-; [exact T | reflexivity].
  - simpl in H. injection H as <-. reflexivity.
Qed.

(** What [build_basket_threshold_promotion] puts into the promotion. *)
Lemma basket_threshold_fields rule config current_date promo :
  Families.build_basket_threshold_promotion rule config current_date = Ok promo ->
  exists id,
    py_item rule "id" = Ok id /\
    Basket.promo_id promo = py_str id /\
    Basket.family promo = BASKET_THRESHOLD /\
    Basket.stores promo = [store_id config] /\
    PromotionHandlers._get_retailer_name config = Ok (Basket.retailer promo).
Proof.
  unfold Families.build_basket_threshold_promotion, PromotionHandlers._get_retailer_name.
  intros H.
  destruct (py_get_default (extra_data config) "promo_retailer" _) as [r|e];
    [|discriminate]. cbn [bind] in H.
  destruct (py_item rule "id") as [id|e]; [|discriminate]. cbn [bind] in H.
  bind_ok H.
  destruct (negb (truthy _)); [discriminate|].
  bind_ok H. injection H as <-. exists id. repeat split.
Qed.

(** X11.  What [build_basket_threshold_promotion] returns, whenever it
    returns: a promotion of the Basket Threshold family on layer 100 whose
    identifier is [str(price_rule["id"])], with a non-empty title and one
    group, named after the rule, that holds the single item node "all";
    the minimum of that group is never empty or zero: it is the
    [greater_than_or_equal_to] bound of the rule when that is set, and 1
    otherwise. *)
Theorem basket_threshold_promotion_shape (price_rule : pyval)
    (config : ShopifyWebhookConfig) (current_date : Datetime.datetime)
    (promo : Basket.Promotion) :
  Families.build_basket_threshold_promotion price_rule config current_date = Ok promo ->
  exists id minimum,
    py_item price_rule "id" = Ok id /\
    Families.subtotal_minimum price_rule = Ok minimum /\
    truthy minimum = true /\
    Basket.promo_id promo = py_str id /\
    Basket.family promo = BASKET_THRESHOLD /\
    Basket.layer promo = VInt 100 /\
    truthy (Basket.title promo) = true /\
    Basket.stores promo = [store_id config] /\
    PromotionHandlers._get_retailer_name config = Ok (Basket.retailer promo) /\
    Basket.groups promo
    = [ {| group_name := py_str id;
           qty_or_value_min := minimum;
           qty_or_value_max := VNone;
           nodes := [ {| node_type := ITEM; node_id := VStr "all" |} ] |} ].
Proof.
  unfold Families.build_basket_threshold_promotion, PromotionHandlers._get_retailer_name.
  intros H.
  destruct (py_get_default (extra_data config) "promo_retailer" _) as [r|e];
    [|discriminate]. simpl in H.
  destruct (py_item price_rule "id") as [id|e]; [|discriminate]. simpl in H.
  destruct (py_item price_rule "starts_at") as [sa|e]; [|discriminate]. simpl in H.
  destruct (PromotionSync.get_start_datetime sa) as [start|e]; [|discriminate].
  simpl in H.
  destruct (py_get price_rule "ends_at") as [ea|e]; [|discriminate]. simpl in H.
  destruct (PromotionSync.get_end_datetime ea) as [finish|e]; [|discriminate].
  simpl in H.
  destruct (py_get price_rule "once_per_customer") as [once|e]; [|discriminate].
  simpl in H.
  destruct (py_get_default price_rule "title" (VStr "")) as [t|e]; [|discriminate].
  simpl in H.
  destruct (truthy t) eqn:T; [|discriminate]. cbn [negb] in H. cbv iota in H.
  bind_ok H.
  match goal with
  | M : Families.subtotal_minimum price_rule = Ok ?minimum |- _ =>
      injection H as <-; exists id, minimum; simpl;
      split; [reflexivity|]; split; [first [exact M | reflexivity]|];
      split; [exact (subtotal_minimum_truthy _ _ M)|]
  end.
  repeat split. exact T.
Qed.

Lemma basket_threshold_promotion_shape_witness :
  exists promo,
    Families.build_basket_threshold_promotion PromotionScenario.basket_rule
      Scenario.config Scenario.noon = Ok promo /\
    Basket.promo_id promo = "777" /\
    Basket.groups promo
    = [ {| group_name := "777";
           qty_or_value_min := VStr "50.0";
           qty_or_value_max := VNone;
           nodes := [ {| node_type := ITEM; node_id := VStr "all" |} ] |} ].
Proof.
  destruct (Families.build_basket_threshold_promotion PromotionScenario.basket_rule
              Scenario.config Scenario.noon) as [promo|e] eqn:B;
    [|vm_compute in B; discriminate B].
  exists promo. split; [reflexivity|].
  destruct (basket_threshold_promotion_shape _ _ _ _ B)
    as (id & minimum & Hi & Hm & _ & Hid & _ & _ & _ & _ & _ & Hg).
  vm_compute in Hi. injection Hi as <-.
  vm_compute in Hm. injection Hm as <-.
  split; [exact Hid | exact Hg].
Defined.

Lemma build_for_price_rule_some rule config w promo w' :
  PromotionHandlers._build_promotion_for_price_rule rule config w
  = (Done (Ok (Some promo)), w') ->
  Families.determine_family rule = Ok (Some (PromotionHandlers.built_family promo)) /\
  (PromotionHandlers.built_family promo = BASKET_THRESHOLD -> w' = w) /\
  exists id,
    py_item rule "id" = Ok id /\
    PromotionHandlers.built_promo_id promo = py_str id /\
    PromotionHandlers._get_retailer_name config = Ok (built_retailer promo) /\
    built_stores promo = [store_id config].
Proof.
  unfold PromotionHandlers._build_promotion_for_price_rule, Builder.failed. intros H.
  destruct (Families.determine_family rule) as [[[| |]|]|e]; try discriminate.
  - destruct (Builder.build_easy_promotion rule config w) as [[[easy|e]| |] w1] eqn:B;
      try discriminate.
    injection H as <- <-.
    destruct (build_easy_promotion_fields _ _ _ _ _ B) as (id & r & Hi & Hr & A & F & R & St).
    simpl. rewrite F. split; [reflexivity|]. split; [discriminate|].
    exists id. rewrite R. repeat split; assumption.
  - destruct (Families.build_basket_threshold_promotion rule config (now w))
      as [basket|e] eqn:B; [|discriminate].
    injection H as <- <-.
    destruct (basket_threshold_fields _ _ _ _ B)
      as (id & Hi & A & F & St & R).
    simpl. rewrite F. split; [reflexivity|]. split; [reflexivity|].
    exists id. repeat split; assumption.
Qed.

Lemma build_for_price_rule_none rule config w w' :
  PromotionHandlers._build_promotion_for_price_rule rule config w = (Done (Ok None), w') ->
  Families.determine_family rule = Ok None /\ w' = w.
Proof.
  unfold PromotionHandlers._build_promotion_for_price_rule, Builder.failed. intros H.
  destruct (Families.determine_family rule) as [[fam|]|e] eqn:D; try discriminate.
  - exfalso. destruct (determine_family_some _ _ D) as [_ [[-> _]|[-> _]]].
    + destruct (Builder.build_easy_promotion rule config w) as [[[easy|e]| |] w1];
        discriminate.
    + destruct (Families.build_basket_threshold_promotion rule config (now w));
        discriminate.
  - injection H as <-. split; reflexivity.
Qed.

Lemma get_config_found db store config :
  PromotionHandlers.get_config db store = Ok config ->
  store = Some (store_id config) /\ In config (Views.configs db).
Proof.
  unfold PromotionHandlers.get_config. intros H.
  destruct (filter _ (Views.configs db)) as [|c [|]] eqn:F; try discriminate.
  injection H as ->.
  assert (Hin : In config (filter (fun c => match store with
                                            | Some key => String.eqb (store_id c) key
                                            | None => false
                                            end) (Views.configs db)))
    by (rewrite F; now left).
  apply filter_In in Hin as [Hin Hsel]. split; [|exact Hin].
  destruct store as [key|]; [|discriminate]. apply String.eqb_eq in Hsel. now subst.
Qed.

(** X12.  What [_build_promotion_for_price_rule] builds, by the rule.  It
    builds a promotion only for a rule whose [target_type] is "line_item":
    an Easy promotion when [target_selection] is "entitled" and a Basket
    Threshold promotion, without any request to Shopify, when it is "all".
    The promotion carries [str(price_rule["id"])] as its identifier, the
    retailer name of the configuration and the store of the
    configuration.  It returns [None], again without any request, exactly
    for the rules [determine_family] maps to no family, and then the rule
    is not of target type "line_item" or selects neither "all" nor
    "entitled". *)
Theorem built_promotion_matches_rule (price_rule : pyval)
    (config : ShopifyWebhookConfig) (w : world) :
  let run := PromotionHandlers._build_promotion_for_price_rule price_rule config w in
  (forall promo, fst run = Done (Ok (Some promo)) ->
     py_get price_rule "target_type" = Ok (VStr "line_item") /\
     ((PromotionHandlers.built_family promo = EASY /\
       py_get price_rule "target_selection" = Ok (VStr "entitled")) \/
      (PromotionHandlers.built_family promo = BASKET_THRESHOLD /\
       py_get price_rule "target_selection" = Ok (VStr "all") /\
       snd run = w)) /\
     (exists id,
        py_item price_rule "id" = Ok id /\
        PromotionHandlers.built_promo_id promo = py_str id) /\
     PromotionHandlers._get_retailer_name config = Ok (built_retailer promo) /\
     built_stores promo = [store_id config]) /\
  (fst run = Done (Ok None) ->
     snd run = w /\
     Families.determine_family price_rule = Ok None /\
     (py_get price_rule "target_type" <> Ok (VStr "line_item") \/
      (py_get price_rule "target_selection" <> Ok (VStr "all") /\
       py_get price_rule "target_selection" <> Ok (VStr "entitled")))).
Proof.
  cbv zeta.
  destruct (PromotionHandlers._build_promotion_for_price_rule price_rule config w)
    as [r w'] eqn:B. simpl. split.
  - intros promo ->.
    destruct (build_for_price_rule_some _ _ _ _ _ B) as (D & Hw & id & Hi & Hid & Hr & Hs).
    destruct (determine_family_some _ _ D) as [Ht [[F S]|[F S]]].
    + split; [exact Ht|]. split; [left; split; assumption|].
      split; [exists id; split; assumption|]. split; assumption.
    + split; [exact Ht|]. split; [right; repeat split; auto|].
      split; [exists id; split; assumption|]. split; assumption.
  - intros ->. destruct (build_for_price_rule_none _ _ _ _ B) as [D ->].
    split; [reflexivity|]. split; [exact D|].
    unfold Families.determine_family in D.
    destruct (py_get price_rule "target_type") as [tt|e]; [|discriminate].
    cbn [bind] in D.
    destruct (py_eq_str tt "line_item") eqn:T; cbn [negb] in D; cbv iota in D.
    + right.
      destruct (py_get price_rule "target_selection") as [ts|e]; [|discriminate].
      cbn [bind] in D.
      destruct (py_eq_str ts "all") eqn:A; [discriminate|].
      destruct (py_eq_str ts "entitled") eqn:E; [discriminate|].
      split; intros X; injection X as ->; simpl in *; discriminate.
    + left. intros X. injection X as ->. simpl in T. discriminate.
Qed.

(** X13.  The ways [handle_price_rule_create] ends.  Either the rule maps
    to no family and the handler returns without a request and without a
    commit (the delivery then counts as processed); or the promotion was
    built and the handler hands [commit] exactly one batch, opened for the
    retailer of the promotion and holding the one [create] of that
    promotion, and ends as [commit] ends; or it fails before the commit,
    and then nothing at all was handed to the promotions service. *)
Theorem price_rule_create_outcomes
    (commit : PromotionHandlers.batch -> result unit)
    (event : Views.WebhookEvent) (payload : pyval) (db : Views.database)
    (w : world) (committed : list PromotionHandlers.batch) :
  let run := PromotionHandlers.handle_price_rule_create commit event payload db
               (w, committed) in
  (fst run = Done (Ok tt) /\ snd run = (w, committed) /\
   Families.determine_family payload = Ok None) \/
  (exists config promo,
     PromotionHandlers.get_config db (Views.ev_store event) = Ok config /\
     PromotionHandlers._build_promotion_for_price_rule payload config w
     = (Done (Ok (Some promo)), fst (snd run)) /\
     let b := {| PromotionHandlers.batch_retailer := built_retailer promo;
                 PromotionHandlers.operations := [PromotionHandlers.BatchCreate promo] |} in
     snd (snd run) = (committed ++ [b])%list /\
     fst run = Done (commit b)) \/
  (snd (snd run) = committed /\ forall u, fst run <> Done (Ok u)).
Proof.
  cbv zeta. unfold PromotionHandlers.handle_price_rule_create,
    PromotionHandlers.raising, PromotionHandlers.committing.
  destruct (PromotionHandlers.get_config db (Views.ev_store event)) as [config|e] eqn:G.
  2: { right. right. split; [reflexivity | intros u; discriminate]. }
  destruct (PromotionHandlers._build_promotion_for_price_rule payload config w)
    as [[[[promo|]|e]| |] w'] eqn:B.
  - destruct (build_for_price_rule_some _ _ _ _ _ B) as (_ & _ & _ & _ & _ & Hr & _).
    rewrite Hr. right. left. exists config, promo. simpl.
    repeat (split; [first [assumption | reflexivity]|]). reflexivity.
  - destruct (build_for_price_rule_none _ _ _ _ B) as [D ->].
    left. simpl. repeat split. exact D.
  - right. right. split; [reflexivity | intros u; discriminate].
  - right. right. split; [reflexivity | intros u; discriminate].
  - right. right. split; [reflexivity | intros u; discriminate].
Qed.

(** X14.  [handle_price_rule_update] replaces the promotion it rebuilds.
    When the handler reaches the commit, it hands over exactly one batch
    with two operations in this order: the deletion of the promotion
    whose identifier is the one of the rebuilt promotion, in the store of
    the event, and the creation of the rebuilt promotion; the handler ends
    as [commit] ends.  Otherwise nothing is handed over: the rule maps to
    no family and the handler returns without any request, or it fails
    before the commit, so a rule that cannot be rebuilt never deletes the
    promotion that exists. *)
Theorem price_rule_update_outcomes
    (commit : PromotionHandlers.batch -> result unit) (store_attribute : string -> string)
    (event : Views.WebhookEvent) (payload : pyval) (db : Views.database)
    (w : world) (committed : list PromotionHandlers.batch) :
  let run := PromotionHandlers.handle_price_rule_update commit store_attribute
               event payload db (w, committed) in
  (fst run = Done (Ok tt) /\ snd run = (w, committed) /\
   Families.determine_family payload = Ok None) \/
  (exists config promo,
     PromotionHandlers.get_config db (Views.ev_store event) = Ok config /\
     Views.ev_store event = Some (store_id config) /\
     PromotionHandlers._build_promotion_for_price_rule payload config w
     = (Done (Ok (Some promo)), fst (snd run)) /\
     let b := {| PromotionHandlers.batch_retailer := built_retailer promo;
                 PromotionHandlers.operations :=
                   [ PromotionHandlers.BatchDelete
                       (PromotionHandlers.built_promo_id promo)
                       (store_attribute (store_id config));
                     PromotionHandlers.BatchCreate promo ] |} in
     snd (snd run) = (committed ++ [b])%list /\
     fst run = Done (commit b)) \/
  (snd (snd run) = committed /\ forall u, fst run <> Done (Ok u)).
Proof.
  cbv zeta. unfold PromotionHandlers.handle_price_rule_update,
    PromotionHandlers.raising, PromotionHandlers.committing,
    PromotionHandlers.event_store_id.
  destruct (PromotionHandlers.get_config db (Views.ev_store event)) as [config|e] eqn:G.
  2: { right. right. split; [reflexivity | intros u; discriminate]. }
  destruct (get_config_found _ _ _ G) as [Hstore _].
  destruct (PromotionHandlers._build_promotion_for_price_rule payload config w)
    as [[[[promo|]|e]| |] w'] eqn:B.
  - destruct (build_for_price_rule_some _ _ _ _ _ B)
      as (_ & _ & id & Hi & Hid & Hr & _).
    rewrite Hstore, Hr, Hi. right. left. exists config, promo. simpl. rewrite Hid.
    repeat (split; [first [assumption | reflexivity]|]). reflexivity.
  - destruct (build_for_price_rule_none _ _ _ _ B) as [D ->].
    left. simpl. repeat split. exact D.
  - right. right. split; [reflexivity | intros u; discriminate].
  - right. right. split; [reflexivity | intros u; discriminate].
  - right. right. split; [reflexivity | intros u; discriminate].
Qed.

(** X15.  [handle_price_rule_delete] makes no request to Shopify and
    hands over at most one batch.  With a configuration for the store of
    the event and a payload whose ["id"] is truthy, the batch holds the
    one deletion of [str(id)] in the store of the event and the handler
    ends as [commit] ends.  In every other case nothing is handed over
    and the handler raises; for a payload whose ["id"] is missing, [None],
    0 or empty it raises the [ValueError] "Missing price rule ID in delete
    webhook payload". *)
Theorem price_rule_delete_outcomes
    (commit : PromotionHandlers.batch -> result unit) (store_attribute : string -> string)
    (event : Views.WebhookEvent) (payload : pyval) (db : Views.database)
    (w : world) (committed : list PromotionHandlers.batch) :
  let run := PromotionHandlers.handle_price_rule_delete commit store_attribute
               event payload db (w, committed) in
  fst (snd run) = w /\
  ((exists config id retailer,
      PromotionHandlers.get_config db (Views.ev_store event) = Ok config /\
      py_get payload "id" = Ok id /\ truthy id = true /\
      PromotionHandlers._get_retailer_name config = Ok retailer /\
      let b := {| PromotionHandlers.batch_retailer := retailer;
                  PromotionHandlers.operations :=
                    [ PromotionHandlers.BatchDelete (py_str id)
                        (store_attribute (store_id config)) ] |} in
      snd (snd run) = (committed ++ [b])%list /\
      fst run = Done (commit b)) \/
   (snd (snd run) = committed /\
    exists e, fst run = Done (Raise e) /\
      (forall config id,
         PromotionHandlers.get_config db (Views.ev_store event) = Ok config ->
         py_get payload "id" = Ok id -> truthy id = false ->
         e = Exc ValueError_ "Missing price rule ID in delete webhook payload"))).
Proof.
  cbv zeta. unfold PromotionHandlers.handle_price_rule_delete,
    PromotionHandlers.raising, PromotionHandlers.committing,
    PromotionHandlers.event_store_id.
  destruct (PromotionHandlers.get_config db (Views.ev_store event)) as [config|e] eqn:G.
  2: { split; [reflexivity|]. right. split; [reflexivity|]. exists e.
       split; [reflexivity|]. intros c i X. discriminate X. }
  destruct (get_config_found _ _ _ G) as [Hstore _]. rewrite Hstore.
  destruct (py_get payload "id") as [id|e] eqn:I.
  2: { split; [reflexivity|]. right. split; [reflexivity|]. exists e.
       split; [reflexivity|]. intros c i _ X. discriminate X. }
  destruct (truthy id) eqn:T; cbn [negb]; cbv iota.
  - destruct (PromotionHandlers._get_retailer_name config) as [retailer|e] eqn:R.
    + split; [reflexivity|]. left. exists config, id, retailer. simpl.
      repeat (split; [first [assumption | reflexivity]|]). reflexivity.
    + split; [reflexivity|]. right. split; [reflexivity|]. exists e.
      split; [reflexivity|]. intros c i _ X F. congruence.
  - split; [reflexivity|]. right. split; [reflexivity|]. eexists.
    split; [reflexivity|]. intros c i _ _ _. reflexivity.
Qed.

(** ** Failures of the price-rule handlers and the retry policy *)

(** Splits the matches of a call that is known to raise and reads the
    class off the raise that is left. *)
Ltac raise_cases H :=
  repeat (match type of H with
          | context [match ?x with _ => _ end] => destruct x
          end; try discriminate H);
  injection H as <-; (split; [reflexivity | intro; reflexivity]).

Lemma py_get_default_raises obj key default e :
  py_get_default obj key default = Raise e -> permanent_failure e.
Proof. unfold py_get_default, attribute_error. intros H. raise_cases H. Qed.

Lemma py_get_raises obj key e : py_get obj key = Raise e -> permanent_failure e.
Proof. apply py_get_default_raises. Qed.

Lemma py_item_raises obj key e : py_item obj key = Raise e -> permanent_failure e.
Proof. unfold py_item. intros H. raise_cases H. Qed.

Lemma py_iter_raises v e : py_iter v = Raise e -> permanent_failure e.
Proof. unfold py_iter. intros H. raise_cases H. Qed.

Lemma py_float_raises v e : py_float v = Raise e -> permanent_failure e.
Proof. unfold py_float. intros H. raise_cases H. Qed.

Lemma py_decimal_raises v e : py_decimal v = Raise e -> permanent_failure e.
Proof. unfold py_decimal. intros H. raise_cases H. Qed.

Lemma py_int_of_number_raises x e : py_int_of_number x = Raise e -> permanent_failure e.
Proof. unfold py_int_of_number. intros H. raise_cases H. Qed.

Lemma decimal_rdiv_raises n d e : decimal_rdiv n d = Raise e -> permanent_failure e.
Proof. unfold decimal_rdiv. intros H. raise_cases H. Qed.

Lemma strptime_raises v e : Datetime.strptime v = Raise e -> permanent_failure e.
Proof. unfold Datetime.strptime. intros H. raise_cases H. Qed.

Lemma add_days_raises dt n e : Datetime.add_days dt n = Raise e -> permanent_failure e.
Proof. unfold Datetime.add_days. intros H. raise_cases H. Qed.

Create HintDb raises.
#[local] Hint Resolve py_get_default_raises py_get_raises py_item_raises py_iter_raises
  py_float_raises py_decimal_raises py_int_of_number_raises decimal_rdiv_raises
  strptime_raises add_days_raises : raises.

(** Goes through a chain of binds that is known to raise: the call that
    raised is one of the chain. *)
Ltac bind_raises H :=
  repeat match type of H with
         | bind ?r _ = Raise _ =>
             let E := fresh "E" in
             destruct r eqn:E; cbn [bind] in H;
             [| injection H as <-; eauto with raises]
         end.

Lemma get_start_datetime_raises v e :
  PromotionSync.get_start_datetime v = Raise e -> permanent_failure e.
Proof. apply strptime_raises. Qed.

Lemma get_end_datetime_raises v e :
  PromotionSync.get_end_datetime v = Raise e -> permanent_failure e.
Proof.
  unfold PromotionSync.get_end_datetime. intros H. bind_raises H. eauto with raises.
Qed.

Lemma priority_errors_permanent kind v e :
  PromotionSync.compute_evaluate_priority kind v = Raise e -> permanent_failure e.
Proof.
  unfold PromotionSync.compute_evaluate_priority, try_except. intros H.
  match type of H with
  | match ?body with _ => _ end = _ => destruct body as [a|e0] eqn:B; [discriminate|]
  end.
  destruct (existsb _ _); [discriminate|]. injection H as <-.
  destruct kind; bind_raises B; first [discriminate B | eauto with raises].
Qed.

#[local] Hint Resolve get_start_datetime_raises get_end_datetime_raises
  priority_errors_permanent : raises.

Lemma wrap_error_permanent_failure prefix e : permanent_failure (Resolver.wrap_error prefix e).
Proof. split; [reflexivity | intro; reflexivity]. Qed.

(** Whatever goes wrong inside a resolver leaves it as a plain
    [Exception]. *)
Lemma sku_loop_raises answers : forall url w ids skus e w',
  Resolver.get_products_sku_loop url answers w ids skus = (Done (Raise e), w') ->
  permanent_failure e.
Proof.
  induction answers as [|answer answers IH]; intros url w ids skus e w' H.
  - destruct ids; simpl in H; discriminate.
  - destruct ids as [|id rest]; [simpl in H; discriminate|].
    cbn [Resolver.get_products_sku_loop] in H.
    destruct answer as [status json|e0].
    + destruct (status =? 429); [exact (IH _ _ _ _ _ _ H)|].
      destruct (negb (status =? 200)); [exact (IH _ _ _ _ _ _ H)|].
      destruct (Resolver.product_barcodes json skus); [exact (IH _ _ _ _ _ _ H)|].
      injection H as <- _. apply wrap_error_permanent_failure.
    + injection H as <- _. apply wrap_error_permanent_failure.
Qed.

Lemma variants_loop_raises answers : forall url w ids skus e w',
  Resolver.get_sku_from_variants_loop url answers w ids skus = (Done (Raise e), w') ->
  permanent_failure e.
Proof.
  induction answers as [|answer answers IH]; intros url w ids skus e w' H.
  - destruct ids; simpl in H; discriminate.
  - destruct ids as [|id rest]; [simpl in H; discriminate|].
    cbn [Resolver.get_sku_from_variants_loop] in H.
    destruct answer as [status json|e0].
    + destruct (status =? 429); [exact (IH _ _ _ _ _ _ H)|].
      destruct (negb (status =? 200)); [exact (IH _ _ _ _ _ _ H)|].
      destruct (Resolver.variant_barcode json skus); [exact (IH _ _ _ _ _ _ H)|].
      injection H as <- _. apply wrap_error_permanent_failure.
    + injection H as <- _. apply wrap_error_permanent_failure.
Qed.

Lemma collections_loop_raises fuel : forall settings w ids product_ids skus e w',
  Resolver.get_products_from_collections_loop fuel settings w ids product_ids skus
  = (Done (Raise e), w') ->
  permanent_failure e.
Proof.
  induction fuel as [|fuel IH]; intros settings w ids product_ids skus e w' H.
  - discriminate.
  - destruct ids as [|id rest]; [simpl in H; discriminate|].
    cbn [Resolver.get_products_from_collections_loop] in H. cbv zeta in H.
    cbn [pending emit] in H.
    destruct (pending w) as [|[status json|e0] answers]; [discriminate| |].
    + destruct (status =? 429); [exact (IH _ _ _ _ _ _ _ H)|].
      destruct (negb (status =? 200)); [exact (IH _ _ _ _ _ _ _ H)|].
      destruct (Resolver.collection_product_ids json product_ids).
      * destruct (Resolver.get_products_sku _ _ _) as [[[sku|e1]| |] w1].
        -- exact (IH _ _ _ _ _ _ _ H).
        -- injection H as <- _. apply wrap_error_permanent_failure.
        -- discriminate.
        -- discriminate.
      * injection H as <- _. apply wrap_error_permanent_failure.
    + injection H as <- _. apply wrap_error_permanent_failure.
Qed.

Lemma resolve_entitled_skus_raises rule settings w e w' :
  Builder.resolve_entitled_skus rule settings w = (Done (Raise e), w') ->
  permanent_failure e.
Proof.
  unfold Builder.resolve_entitled_skus, Builder.failed,
    Resolver.get_products_sku, Resolver.get_sku_from_variants,
    Resolver.get_products_from_collections.
  intros H.
  destruct (py_get rule "entitled_product_ids") as [p|e0] eqn:P;
    [|injection H as <- _; eauto with raises].
  destruct (truthy p).
  { destruct (py_iter p) eqn:I; [|injection H as <- _; eauto with raises].
    exact (sku_loop_raises _ _ _ _ _ _ _ H). }
  destruct (py_get rule "entitled_variant_ids") as [v|e0] eqn:V;
    [|injection H as <- _; eauto with raises].
  destruct (truthy v).
  { destruct (py_iter v) eqn:I; [|injection H as <- _; eauto with raises].
    exact (variants_loop_raises _ _ _ _ _ _ _ H). }
  destruct (py_get rule "entitled_collection_ids") as [c|e0] eqn:C;
    [|injection H as <- _; eauto with raises].
  destruct (truthy c).
  { destruct (py_iter c) eqn:I; [|injection H as <- _; eauto with raises].
    exact (collections_loop_raises _ _ _ _ _ _ _ _ H). }
  injection H as <- _. split; [reflexivity | intro; reflexivity].
Qed.

(** The test of [value_type] that the two builders share raises a
    [ValueError] only. *)
Lemma value_type_raises (value_type : pyval) (e : pyexc) :
  match value_type with
  | VStr "percentage" => Ok PERCENT_OFF
  | VStr "fixed_amount" => Ok VALUE_OFF
  | other => Raise (Exc ValueError_ ("Unknown discount value_type: " ++ py_str other))
  end = Raise e ->
  permanent_failure e.
Proof. intros H. raise_cases H. Qed.

Lemma easy_head_raises rule config current_date e :
  Builder.build_easy_promotion_head rule config current_date = Raise e ->
  permanent_failure e.
Proof.
  unfold Builder.build_easy_promotion_head. intros H. bind_raises H.
  all: try discriminate H.
  match goal with
  | X : match _ with _ => _ end = Raise _ |- _ => exact (value_type_raises _ _ X)
  end.
Qed.

Lemma build_easy_promotion_raises rule config w e w' :
  Builder.build_easy_promotion rule config w = (Done (Raise e), w') ->
  permanent_failure e.
Proof.
  unfold Builder.build_easy_promotion, Builder.failed. intros H.
  destruct (Builder.build_easy_promotion_head rule config (now w)) as [head|e0] eqn:Hd.
  2: { injection H as <- _. exact (easy_head_raises _ _ _ _ Hd). }
  destruct (Builder.resolve_entitled_skus rule _ w) as [[[skus|e0]| |] w1] eqn:R;
    try discriminate.
  - destruct (py_item rule "id") eqn:I; [discriminate|].
    injection H as <- _. eauto with raises.
  - injection H as <- _. exact (resolve_entitled_skus_raises _ _ _ _ _ R).
Qed.

Lemma subtotal_minimum_raises rule e :
  Families.subtotal_minimum rule = Raise e -> permanent_failure e.
Proof.
  unfold Families.subtotal_minimum. intros H. bind_raises H.
  destruct (truthy _); [|discriminate]. bind_raises H.
  destruct (truthy _); [|discriminate]. eauto with raises.
Qed.

Lemma basket_threshold_raises rule config current_date e :
  Families.build_basket_threshold_promotion rule config current_date = Raise e ->
  permanent_failure e.
Proof.
  unfold Families.build_basket_threshold_promotion. intros H. bind_raises H.
  destruct (negb (truthy _)); [injection H as <-; (split; [reflexivity | intro; reflexivity])|].
  bind_raises H.
  all: try discriminate H.
  all: match goal with
       | X : Families.subtotal_minimum _ = Raise _ |- _ =>
           exact (subtotal_minimum_raises _ _ X)
       | X : match _ with _ => _ end = Raise _ |- _ =>
           exact (value_type_raises _ _ X)
       end.
Qed.

Lemma determine_family_raises rule e :
  Families.determine_family rule = Raise e -> permanent_failure e.
Proof.
  unfold Families.determine_family. intros H. bind_raises H.
  destruct (negb _); [discriminate|]. bind_raises H.
  destruct (py_eq_str _ "all"); [discriminate|].
  destruct (py_eq_str _ "entitled"); discriminate.
Qed.

Lemma build_for_price_rule_raises rule config w e w' :
  PromotionHandlers._build_promotion_for_price_rule rule config w = (Done (Raise e), w') ->
  permanent_failure e.
Proof.
  unfold PromotionHandlers._build_promotion_for_price_rule, Builder.failed. intros H.
  destruct (Families.determine_family rule) as [[[| |]|]|e0] eqn:D; try discriminate.
  - destruct (Builder.build_easy_promotion rule config w) as [[[easy|e0]| |] w1] eqn:B;
      try discriminate.
    injection H as <- _. exact (build_easy_promotion_raises _ _ _ _ _ B).
  - destruct (Families.build_basket_threshold_promotion rule config (now w))
      as [basket|e0] eqn:B; [discriminate|].
    injection H as <- _. exact (basket_threshold_raises _ _ _ _ B).
  - injection H as <- _. exact (determine_family_raises _ _ D).
Qed.

Lemma get_config_raises db store e :
  PromotionHandlers.get_config db store = Raise e -> permanent_failure e.
Proof.
  unfold PromotionHandlers.get_config. intros H.
  destruct (filter _ (Views.configs db)) as [|c [|]]; try discriminate;
    injection H as <-; (split; [reflexivity | intro; reflexivity]).
Qed.

Lemma app_one_neq {A : Type} (l : list A) (x : A) : (l ++ [x])%list <> l.
Proof.
  intros H. apply (f_equal (@List.length A)) in H. rewrite length_app in H.
  simpl in H. lia.
Qed.

(** A price-rule handler either hands one batch to [commit] and ends as
    [commit] ends, or hands over nothing and, when it raises, raises a
    permanent failure. *)
Lemma handler_commit_or_permanent
    (commit : PromotionHandlers.batch -> result unit) (store_attribute : string -> string)
    (handle : Processing.handler PromotionHandlers.downstream)
    (event : Views.WebhookEvent) (payload : pyval) (db : Views.database)
    (w : world) (committed : list PromotionHandlers.batch) :
  In handle [ PromotionHandlers.handle_price_rule_create commit;
              PromotionHandlers.handle_price_rule_update commit store_attribute;
              PromotionHandlers.handle_price_rule_delete commit store_attribute ] ->
  (snd (snd (handle event payload db (w, committed))) = committed /\
   forall e, fst (handle event payload db (w, committed)) = Done (Raise e) ->
             permanent_failure e) \/
  (exists b,
     snd (snd (handle event payload db (w, committed))) = (committed ++ [b])%list /\
     fst (handle event payload db (w, committed)) = Done (commit b)).
Proof.
  assert (Hplain : forall c msg, In c [ValueError_; AttributeError_] ->
                                 permanent_failure (Exc c msg)).
  { intros c msg [<-|[<-|[]]]; (split; [reflexivity | intro; reflexivity]). }
  intros Hin.
  destruct Hin as [<-|[<-|[<-|[]]]];
    unfold PromotionHandlers.handle_price_rule_create,
      PromotionHandlers.handle_price_rule_update,
      PromotionHandlers.handle_price_rule_delete,
      PromotionHandlers.raising, PromotionHandlers.committing,
      PromotionHandlers.event_store_id;
    (destruct (PromotionHandlers.get_config db (Views.ev_store event))
       as [config|e0] eqn:G;
     [|left; split; [reflexivity|]; simpl; intros x H; injection H as <-;
       exact (get_config_raises _ _ _ G)]).
  - destruct (PromotionHandlers._build_promotion_for_price_rule payload config w)
      as [[[[promo|]|e0]| |] w1] eqn:B; simpl.
    + destruct (PromotionHandlers._get_retailer_name config) eqn:R; simpl.
      * right. eexists. split; reflexivity.
      * left. split; [reflexivity|]. intros x H. injection H as <-.
        exact (py_get_default_raises _ _ _ _ R).
    + left. split; [reflexivity | discriminate].
    + left. split; [reflexivity|]. intros x H. injection H as <-.
      exact (build_for_price_rule_raises _ _ _ _ _ B).
    + left. split; [reflexivity | discriminate].
    + left. split; [reflexivity | discriminate].
  - destruct (PromotionHandlers._build_promotion_for_price_rule payload config w)
      as [[[[promo|]|e0]| |] w1] eqn:B; simpl.
    + destruct (Views.ev_store event); simpl.
      2: { left. split; [reflexivity|]. intros x H. injection H as <-.
           apply Hplain. simpl. auto. }
      destruct (PromotionHandlers._get_retailer_name config) eqn:R; simpl.
      2: { left. split; [reflexivity|]. intros x H. injection H as <-.
           exact (py_get_default_raises _ _ _ _ R). }
      destruct (py_item payload "id") eqn:I; simpl.
      2: { left. split; [reflexivity|]. intros x H. injection H as <-.
           exact (py_item_raises _ _ _ I). }
      right. eexists. split; reflexivity.
    + left. split; [reflexivity | discriminate].
    + left. split; [reflexivity|]. intros x H. injection H as <-.
      exact (build_for_price_rule_raises _ _ _ _ _ B).
    + left. split; [reflexivity | discriminate].
    + left. split; [reflexivity | discriminate].
  - destruct (py_get payload "id") as [id|e0] eqn:I; simpl.
    2: { left. split; [reflexivity|]. intros x H. injection H as <-.
         exact (py_get_raises _ _ _ I). }
    destruct (truthy id); simpl.
    2: { left. split; [reflexivity|]. intros x H. injection H as <-.
         apply Hplain. simpl. auto. }
    destruct (Views.ev_store event); simpl.
    2: { left. split; [reflexivity|]. intros x H. injection H as <-.
         apply Hplain. simpl. auto. }
    destruct (PromotionHandlers._get_retailer_name config) eqn:R; simpl.
    2: { left. split; [reflexivity|]. intros x H. injection H as <-.
         exact (py_get_default_raises _ _ _ _ R). }
    right. eexists. split; reflexivity.
Qed.



(** A run on the one row of the task ends as the registered handler ends
    and leaves the state the handler leaves. *)
Lemma process_event_handler {S : Type}
    (handlers : Registry.topic_handlers (Processing.handler S))
    started finished id payload db (s : S) metrics event handle :
  rows_with_id id db = [event] ->
  Registry.get_handler (Views.ev_topic event) handlers = Some handle ->
  let h := handle (Processing.set_status event Views.PROCESSING) payload
             (Processing.save_status (Processing.set_status event Views.PROCESSING) db) s in
  let run := Processing._process_event handlers started finished id payload db s metrics in
  fst run = fst h /\ snd (fst (snd run)) = snd h.
Proof.
  intros F G. cbv zeta. unfold rows_with_id in F.
  unfold Processing._process_event. rewrite F. cbv zeta.
  change (Views.ev_topic (Processing.set_status event Views.PROCESSING))
    with (Views.ev_topic event).
  rewrite G.
  destruct (handle _ payload _ s) as [[[[]|exc]| |] s'].
  - destruct (Processing.finish _ _ _ _ _ _). split; reflexivity.
  - destruct (Processing.finish _ _ _ _ _ _). split; reflexivity.
  - split; reflexivity.
  - split; reflexivity.
Qed.

Lemma price_rule_handler_registered
    (commit : PromotionHandlers.batch -> result unit) (store_attribute : string -> string)
    (topic : string) :
  In topic ["price_rules/create"; "price_rules/update"; "price_rules/delete"] ->
  exists handle,
    Registry.get_handler topic
      (PromotionHandlers.price_rule_handlers commit store_attribute) = Some handle /\
    In handle [ PromotionHandlers.handle_price_rule_create commit;
                PromotionHandlers.handle_price_rule_update commit store_attribute;
                PromotionHandlers.handle_price_rule_delete commit store_attribute ].
Proof.
  intros [<-|[<-|[<-|[]]]]; eexists; (split; [reflexivity|]); simpl; auto.
Qed.



(** ** The buy-X-get-Y builder *)

Lemma resolve_skus_from_edges_returns items settings w r w' :
  Builder.resolve_skus_from_edges items settings w = (Done (Ok r), w') ->
  exists used, pending w = (used ++ pending w')%list /\ Forall is_response used.
Proof.
  unfold Builder.resolve_skus_from_edges, Builder.failed. intros H.
  destruct (Builder.read_edges items) as [[[c p] v]|e]; [|discriminate].
  destruct (truthy c).
  { destruct (Builder.ids_of_edges c); [|discriminate].
    eapply get_products_from_collections_returns, H. }
  destruct (truthy p).
  { destruct (Builder.ids_of_edges p); [|discriminate].
    eapply get_products_sku_returns, H. }
  destruct (truthy v); [|discriminate].
  destruct (Builder.ids_of_edges v); [|discriminate].
  eapply get_sku_from_variants_returns, H.
Qed.

(** What the first part of [build_bxgy_promotion] reads and sets. *)
Lemma bxgy_head_fields automatic_discount config current_date h :
  Bxgy.build_bxgy_promotion_head automatic_discount config current_date = Ok h ->
  exists discount_values discount priority,
    py_item automatic_discount "customerGets" = Ok (Bxgy.customer_gets h) /\
    py_item automatic_discount "customerBuys" = Ok (Bxgy.customer_buys h) /\
    py_get_default (Bxgy.customer_gets h) "value" (VDict []) = Ok discount_values /\
    Bxgy.discount_of discount_values = Ok discount /\
    PromotionSync.compute_evaluate_priority (fst discount) (snd discount) = Ok priority /\
    Bxgy._extract_qty_or_value_min discount_values = Ok (Bxgy.target_qty_min h) /\
    forall gs,
      Bxgy.groups (Bxgy.promotion h gs) = gs /\
      Bxgy.family (Bxgy.promotion h gs) = REQUISITE_GROUPS_WITH_DISCOUNTED_TARGET /\
      Bxgy.target_discounted_group_name (Bxgy.promotion h gs) = "g2" /\
      Bxgy.target_discounted_group_qty_min (Bxgy.promotion h gs) = Bxgy.target_qty_min h /\
      Bxgy.discount_type (Bxgy.promotion h gs) = fst discount /\
      Bxgy.discount_value (Bxgy.promotion h gs) = snd discount /\
      Bxgy.evaluate_priority (Bxgy.promotion h gs) = priority.
Proof.
  unfold Bxgy.build_bxgy_promotion_head. intros H. bind_ok H. injection H as <-.
  simpl. eexists _, _, _.
  repeat (split; [first [eassumption | reflexivity]|]).
  all: repeat split.
Qed.

(** X18.  What [build_bxgy_promotion] returns, whenever it returns.  The
    SKUs of the target side ([customerGets.items]) are resolved first and
    those of the requisite side ([customerBuys.items]) second, each from
    answers of its own, all of them HTTP responses.  The promotion is of
    the requisite-groups family and has exactly two groups: "g1" with the
    non-empty SKUs of the requisite side and "g2" with the non-empty SKUs
    of the target side; "g2" is the group named as the discounted target,
    and its minimum is the target minimum of the promotion. *)
Theorem bxgy_promotion_shape (automatic_discount : pyval)
    (config : ShopifyWebhookConfig) (w w' : world) (promo : Bxgy.Promotion) :
  Bxgy.build_bxgy_promotion automatic_discount config w = (Done (Ok promo), w') ->
  exists gets buys gets_items buys_items targets requisites w1 requisite_min,
    py_item automatic_discount "customerGets" = Ok gets /\
    py_item automatic_discount "customerBuys" = Ok buys /\
    py_get_default gets "items" (VDict []) = Ok gets_items /\
    py_get_default buys "items" (VDict []) = Ok buys_items /\
    Builder.resolve_skus_from_edges gets_items
      (Builder.build_promotion_settings_from_config config) w = (Done (Ok targets), w1) /\
    Builder.resolve_skus_from_edges buys_items
      (Builder.build_promotion_settings_from_config config) w1
    = (Done (Ok requisites), w') /\
    (exists used_for_target used_for_requisite,
        pending w = (used_for_target ++ used_for_requisite ++ pending w')%list /\
        Forall is_response used_for_target /\ Forall is_response used_for_requisite) /\
    Bxgy.family promo = REQUISITE_GROUPS_WITH_DISCOUNTED_TARGET /\
    Bxgy.target_discounted_group_name promo = "g2" /\
    Bxgy.groups promo
    = [ {| Bxgy.name := "g1";
           Bxgy.qty_or_value_min := requisite_min;
           Bxgy.nodes := Builder.sku_nodes requisites |};
        {| Bxgy.name := "g2";
           Bxgy.qty_or_value_min := Bxgy.target_discounted_group_qty_min promo;
           Bxgy.nodes := Builder.sku_nodes targets |} ] /\
    Forall (fun g => Forall (fun n => truthy (node_id n) = true) (Bxgy.nodes g))
           (Bxgy.groups promo).
Proof.
  unfold Bxgy.build_bxgy_promotion, Builder.failed. cbv zeta. intros H.
  destruct (Bxgy.build_bxgy_promotion_head automatic_discount config (now w))
    as [h|e] eqn:Hd; [|discriminate].
  destruct (py_get_default (Bxgy.customer_gets h) "items" (VDict []))
    as [gets_items|e] eqn:Gi; [|discriminate].
  destruct (Builder.resolve_skus_from_edges gets_items _ w)
    as [[[targets|e]| |] w1] eqn:R1; try discriminate.
  destruct (py_get_default (Bxgy.customer_buys h) "items" (VDict []))
    as [buys_items|e] eqn:Bi; [|discriminate].
  destruct (Builder.resolve_skus_from_edges buys_items _ w1)
    as [[[requisites|e]| |] w2] eqn:R2; try discriminate.
  destruct (Bxgy.requisite_minimum (Bxgy.customer_buys h)) as [requisite_min|e];
    [|discriminate].
  injection H as <- <-.
  destruct (bxgy_head_fields _ _ _ _ Hd) as (dv & d & prio & Hg & Hb & _ & _ & _ & _ & Hf).
  match goal with
  | |- context [Bxgy.promotion h ?gs] => destruct (Hf gs) as (Fg & Ff & Fn & Fm & _)
  end.
  exists (Bxgy.customer_gets h), (Bxgy.customer_buys h), gets_items, buys_items,
    targets, requisites, w1, requisite_min.
  repeat (split; [first [assumption | reflexivity]|]).
  split.
  { destruct (resolve_skus_from_edges_returns _ _ _ _ _ R1) as (u1 & P1 & F1).
    destruct (resolve_skus_from_edges_returns _ _ _ _ _ R2) as (u2 & P2 & F2).
    exists u1, u2. rewrite P1, P2. repeat split; assumption. }
  split; [exact Ff|]. split; [exact Fn|]. rewrite Fg, Fm. split; [reflexivity|].
  repeat constructor; apply sku_nodes_truthy.
Qed.

Lemma bxgy_promotion_shape_witness :
  exists promo w',
    Bxgy.build_bxgy_promotion BxgyScenario.automatic_discount Scenario.config
      BxgyScenario.network = (Done (Ok promo), w') /\
    Bxgy.target_discounted_group_name promo = "g2" /\
    map Bxgy.name (Bxgy.groups promo) = ["g1"; "g2"] /\
    pending w' = [].
Proof.
  destruct (Bxgy.build_bxgy_promotion BxgyScenario.automatic_discount Scenario.config
              BxgyScenario.network) as [[[promo|e]| |] w'] eqn:B;
    try (vm_compute in B; discriminate B).
  exists promo, w'. split; [reflexivity|].
  destruct (bxgy_promotion_shape _ _ _ _ _ B)
    as (gets & buys & gi & bi & ts & rs & w1 & rmin & _ & _ & _ & _ & _ & _ & _ & _
        & Hname & Hgroups & _).
  split; [exact Hname|]. rewrite Hgroups. split; [reflexivity|].
  vm_compute in B. now injection B as _ <-.
Defined.

Lemma Qtrunc_below_one (p : Q) : (0 <= p)%Q -> (p < 1)%Q -> Qtrunc p = 0.
Proof.
  intros H0 H1. rewrite (Qtrunc_floor_nonneg p H0).
  assert (A : 0 <= Qfloor p).
  { change 0 with (Qfloor 0). now apply Qfloor_resp_le. }
  assert (B : Qfloor p < 1).
  { rewrite Zlt_Qlt. eapply Qle_lt_trans; [apply Qfloor_le | exact H1]. }
  lia.
Qed.



(** ** Priority of fixed amounts *)

Lemma value_priority_positive (v : pyval) (a : Q) :
  py_decimal v = Ok (Fin a) -> (0 < a)%Q ->
  PromotionSync.compute_evaluate_priority VALUE_OFF v
  = Ok (Qfloor (inject_Z 10000 / a)).
Proof.
  intros H Ha. rewrite (priority_value_finite v a H).
  - now rewrite Qtrunc_floor_nonneg by (apply Qdiv_pos, Ha).
  - intros E. rewrite E in Ha. discriminate Ha.
Qed.

Lemma quotient_antitone (a1 a2 : Q) :
  (0 < a1)%Q -> (a1 <= a2)%Q -> (inject_Z 10000 / a2 <= inject_Z 10000 / a1)%Q.
Proof.
  intros H1 Hle.
  assert (H2 : (0 < a2)%Q) by (eapply Qlt_le_trans; eassumption).
  apply Qle_shift_div_r; [exact H2|].
  assert (E : (inject_Z 10000 / a1 * a1 == inject_Z 10000)%Q).
  { rewrite Qmult_comm. apply Qmult_div_r. intros E. rewrite E in H1. discriminate H1. }
  rewrite <- E at 1.
  rewrite (Qmult_comm _ a1), (Qmult_comm _ a2).
  apply Qmult_le_compat_r; [exact Hle | apply Qdiv_pos, H1].
Qed.

Lemma quotient_below (a : Q) (n : Z) :
  (0 < a)%Q ->
  ((inject_Z 10000 / a < inject_Z n)%Q <-> (inject_Z 10000 < inject_Z n * a)%Q).
Proof.
  intros Ha.
  assert (E : (inject_Z 10000 / a * a == inject_Z 10000)%Q).
  { rewrite Qmult_comm. apply Qmult_div_r. intros E. rewrite E in Ha. discriminate Ha. }
  split; intros H.
  - rewrite <- E. now apply Qmult_lt_r.
  - now apply Qlt_shift_div_r.
Qed.


(** ** SKU resolution when every lookup succeeds *)

Lemma collect_barcodes_kept (variants : list (list (string * pyval))) :
  forall skus,
    Resolver.collect_barcodes (map VDict variants) skus
    = Ok (skus ++ kept_barcodes variants)%list.
Proof.
  induction variants as [|variant rest IH]; intros skus.
  - simpl. unfold kept_barcodes. simpl. now rewrite app_nil_r.
  - cbn [map Resolver.collect_barcodes].
    assert (G : py_get_default (VDict variant) "barcode" VNone = Ok (barcode_of variant))
      by reflexivity.
    assert (G' : py_get (VDict variant) "barcode" = Ok (barcode_of variant))
      by reflexivity.
    rewrite G. cbn [bind].
    unfold kept_barcodes. cbn [map filter]. fold (kept_barcodes rest).
    destruct (truthy (barcode_of variant)).
    + rewrite G'. cbn [bind]. rewrite IH, <- app_assoc. reflexivity.
    + apply IH.
Qed.

Lemma product_barcodes_found variants answer skus :
  product_found variants answer ->
  exists json,
    answer = Response 200 json /\
    Resolver.product_barcodes json skus = Ok (skus ++ kept_barcodes variants)%list.
Proof.
  intros (body & product & -> & Hp & Hv). eexists. split; [reflexivity|].
  unfold Resolver.product_barcodes, py_get, py_get_default. simpl.
  rewrite Hp. simpl. rewrite Hv. simpl. apply collect_barcodes_kept.
Qed.

Lemma sku_loop_all_found base ids :
  forall products answers rest w skus,
    Forall2 product_found products answers ->
    List.length ids = List.length products ->
    Resolver.get_products_sku_loop base (answers ++ rest) w ids skus
    = (Done (Ok (skus ++ flat_map kept_barcodes products)%list),
       with_pending (emit w (map (fun id => Get (product_url base id)) ids)) rest).
Proof.
  induction ids as [|id ids IH]; intros products answers rest w skus Hall Hlen.
  - destruct products; [|discriminate]. inversion Hall; subst. simpl.
    rewrite app_nil_r, emit_nil. destruct rest; reflexivity.
  - destruct products as [|variants products]; [discriminate|].
    inversion Hall as [|v a ps as' Hfound Hrest]; subst.
    destruct (product_barcodes_found _ _ skus Hfound) as (json & -> & Hb).
    cbn [app Resolver.get_products_sku_loop]. cbv zeta.
    change (200 =? 429) with false. change (negb (200 =? 200)) with false.
    cbv iota. rewrite Hb.
    rewrite (IH products as' rest _ _ Hrest) by (simpl in Hlen; lia).
    cbn [flat_map map]. rewrite emit_emit, <- app_assoc. reflexivity.
Qed.

(** X21.  [get_products_sku] when every product is found.  Given one 200
    answer per identifier, each holding a product with its variants, the
    call returns, in the order of the identifiers and of the variants,
    exactly the barcodes that are not empty; it makes one request per
    identifier, in order, and nothing else (no delay, no alert); and it
    leaves the answers that follow untouched. *)
Theorem get_products_sku_all_found (settings : promotion_settings) (w : world)
    (ids : list pyval) (products : list (list (list (string * pyval))))
    (answers rest : list net_event) :
  Forall2 product_found products answers ->
  List.length ids = List.length products ->
  pending w = (answers ++ rest)%list ->
  Resolver.get_products_sku ids settings w
  = (Done (Ok (flat_map kept_barcodes products)),
     with_pending (emit w (product_requests settings ids)) rest).
Proof.
  intros Hall Hlen Hp. unfold Resolver.get_products_sku. rewrite Hp.
  exact (sku_loop_all_found _ ids products answers rest w [] Hall Hlen).
Qed.

Lemma get_products_sku_all_found_witness :
  Resolver.get_products_sku [VInt 111; VInt 222] Scenario.settings
    (Scenario.world_with [ Scenario.product_answer [VStr "A1"; VNone; VStr "A2"];
                           Scenario.product_answer [VStr ""; VStr "B1"];
                           Scenario.not_found ])
  = (Done (Ok [VStr "A1"; VStr "A2"; VStr "B1"]),
     with_pending
       (emit (Scenario.world_with [ Scenario.product_answer [VStr "A1"; VNone; VStr "A2"];
                                    Scenario.product_answer [VStr ""; VStr "B1"];
                                    Scenario.not_found ])
             (product_requests Scenario.settings [VInt 111; VInt 222]))
       [Scenario.not_found]).
Proof.
  apply (get_products_sku_all_found Scenario.settings _ [VInt 111; VInt 222]
           [ [ [("barcode", VStr "A1")]; [("barcode", VNone)]; [("barcode", VStr "A2")] ];
             [ [("barcode", VStr "")]; [("barcode", VStr "B1")] ] ]
           [ Scenario.product_answer [VStr "A1"; VNone; VStr "A2"];
             Scenario.product_answer [VStr ""; VStr "B1"] ]
           [Scenario.not_found]).
  - repeat constructor; (eexists _, _; repeat split; reflexivity).
  - reflexivity.
  - reflexivity.
Defined.

Lemma collect_product_ids_found (products : list (list (string * pyval))) :
  forall ids,
    Resolver.collect_product_ids (map VDict products) ids
    = Ok (ids ++ map product_id_of products)%list.
Proof.
  induction products as [|product rest IH]; intros ids.
  - simpl. now rewrite app_nil_r.
  - cbn [map Resolver.collect_product_ids].
    assert (G : py_get (VDict product) "id" = Ok (product_id_of product)) by reflexivity.
    rewrite G. cbn [bind]. rewrite IH, <- app_assoc. reflexivity.
Qed.

Lemma with_pending_emit_twice (w : world) (a b : list effect)
    (between rest : list net_event) :
  with_pending (emit (with_pending (emit w a) between) b) rest
  = with_pending (emit w (a ++ b)) rest.
Proof. unfold with_pending, emit. simpl. now rewrite app_assoc. Qed.

(** X22.  The fan-out of [get_products_from_collections] for one
    collection when every lookup succeeds.  Given a 200 answer that lists
    the products of the collection, followed by one 200 answer per listed
    product, the call asks for the collection, then for each listed
    product in order (by the ["id"] of its entry), and returns the
    non-empty barcodes of their variants, each turned into a string with
    [str]; the answers that follow are left untouched. *)
Theorem collection_fan_out (settings : promotion_settings) (w : world)
    (collection_id : pyval) (products : list (list (string * pyval)))
    (variants : list (list (list (string * pyval))))
    (answer : net_event) (answers rest : list net_event) :
  collection_found products answer ->
  Forall2 product_found variants answers ->
  List.length products = List.length variants ->
  pending w = (answer :: answers ++ rest)%list ->
  Resolver.get_products_from_collections [collection_id] settings w
  = (Done (Ok (map (fun barcode => VStr (py_str barcode))
                 (flat_map kept_barcodes variants))),
     with_pending
       (emit w (Get (collection_url settings collection_id)
                  :: product_requests settings (map product_id_of products)))
       rest).
Proof.
  intros (body & -> & Hproducts) Hall Hlen Hp.
  unfold Resolver.get_products_from_collections. rewrite Hp.
  cbn [List.length Resolver.get_products_from_collections_loop]. cbv zeta.
  cbn [pending emit]. rewrite Hp.
  change (200 =? 429) with false. change (negb (200 =? 200)) with false. cbv iota.
  assert (Hids : Resolver.collection_product_ids (Ok (VDict body)) []
                 = Ok (map product_id_of products)).
  { unfold Resolver.collection_product_ids, py_get_default. simpl.
    rewrite Hproducts. simpl. apply collect_product_ids_found. }
  rewrite Hids.
  unfold Resolver.get_products_sku. cbn [pending with_pending].
  rewrite (sku_loop_all_found _ (map product_id_of products) variants answers rest _ []
             Hall) by (rewrite length_map; exact Hlen).
  cbn [app]. fold (product_requests settings (map product_id_of products)).
  fold (collection_url settings collection_id).
  rewrite with_pending_emit_twice. reflexivity.
Qed.

Lemma collection_fan_out_witness :
  let w := Scenario.world_with
             [ Response 200 (Ok (VDict [("products", VList [VDict [("id", VInt 7)]])]));
               Scenario.product_answer [VInt 4006381333931];
               Scenario.rate_limited ] in
  Resolver.get_products_from_collections [VInt 5] Scenario.settings w
  = (Done (Ok [VStr "4006381333931"]),
     with_pending
       (emit w (Get (collection_url Scenario.settings (VInt 5))
                  :: product_requests Scenario.settings [VInt 7]))
       [Scenario.rate_limited]).
Proof.
  cbv zeta.
  apply (collection_fan_out Scenario.settings _ (VInt 5) [[("id", VInt 7)]]
           [[[("barcode", VInt 4006381333931)]]]
           (Response 200 (Ok (VDict [("products", VList [VDict [("id", VInt 7)]])])))
           [Scenario.product_answer [VInt 4006381333931]]
           [Scenario.rate_limited]).
  - eexists. split; reflexivity.
  - repeat constructor. eexists _, _. repeat split; reflexivity.
  - reflexivity.
  - reflexivity.
Defined.

Lemma variants_loop_all_found base ids :
  forall variants answers rest w skus,
    Forall2 variant_found variants answers ->
    List.length ids = List.length variants ->
    Resolver.get_sku_from_variants_loop base (answers ++ rest) w ids skus
    = (Done (Ok (skus ++ map barcode_of variants)%list),
       with_pending
         (emit w (map (fun id => Get (base ++ "/" ++ py_str id ++ ".json")) ids)) rest).
Proof.
  induction ids as [|id ids IH]; intros variants answers rest w skus Hall Hlen.
  - destruct variants; [|discriminate]. inversion Hall; subst. simpl.
    rewrite app_nil_r, emit_nil. destruct rest; reflexivity.
  - destruct variants as [|variant variants]; [discriminate|].
    inversion Hall as [|v a vs as' (body & -> & Hv) Hrest]; subst.
    cbn [app Resolver.get_sku_from_variants_loop]. cbv zeta.
    change (200 =? 429) with false. change (negb (200 =? 200)) with false.
    cbv iota.
    assert (Hb : Resolver.variant_barcode (Ok (VDict body)) skus
                 = Ok (skus ++ [barcode_of variant])%list).
    { unfold Resolver.variant_barcode, py_get, py_get_default. simpl.
      rewrite Hv. reflexivity. }
    rewrite Hb.
    rewrite (IH variants as' rest _ _ Hrest) by (simpl in Hlen; lia).
    cbn [map]. rewrite emit_emit, <- app_assoc. reflexivity.
Qed.

(** X28.  [get_sku_from_variants] when every variant is found.  Given one
    200 answer per identifier, each holding the variant, the call returns
    one entry per identifier, in order: the barcode of the variant as it
    is, and [None] for a variant without one.  Unlike [get_products_sku]
    it filters nothing, so the list it returns is as long as the list of
    identifiers; it makes one request per identifier and nothing else. *)
Theorem get_sku_from_variants_all_found (settings : promotion_settings) (w : world)
    (ids : list pyval) (variants : list (list (string * pyval)))
    (answers rest : list net_event) :
  Forall2 variant_found variants answers ->
  List.length ids = List.length variants ->
  pending w = (answers ++ rest)%list ->
  Resolver.get_sku_from_variants ids settings w
  = (Done (Ok (map barcode_of variants)),
     with_pending (emit w (variant_requests settings ids)) rest) /\
  List.length (map barcode_of variants) = List.length ids.
Proof.
  intros Hall Hlen Hp. split.
  - unfold Resolver.get_sku_from_variants. rewrite Hp.
    exact (variants_loop_all_found _ ids variants answers rest w [] Hall Hlen).
  - rewrite length_map. now symmetry.
Qed.

Lemma get_sku_from_variants_all_found_witness :
  let w := Scenario.world_with
             [ Response 200 (Ok (VDict [("variant", VDict [("barcode", VStr "V1")])]));
               Scenario.variant_without_barcode ] in
  Resolver.get_sku_from_variants [VInt 332; VInt 333] Scenario.settings w
  = (Done (Ok [VStr "V1"; VNone]),
     with_pending (emit w (variant_requests Scenario.settings [VInt 332; VInt 333])) []).
Proof.
  cbv zeta.
  apply (get_sku_from_variants_all_found Scenario.settings _ [VInt 332; VInt 333]
           [ [("barcode", VStr "V1")]; [("id", VInt 333); ("title", VStr "Default")] ]
           [ Response 200 (Ok (VDict [("variant", VDict [("barcode", VStr "V1")])]));
             Scenario.variant_without_barcode ] []).
  - repeat constructor; (eexists; split; reflexivity).
  - reflexivity.
  - reflexivity.
Defined.

(** ** Identifiers: the GID helper and the payload hash *)

Lemma split_fields_no_sep (sep : ascii) (s : string) :
  Forall (fun field => contains_char sep field = false) (split sep s).
Proof.
  induction s as [|c rest IH]; simpl.
  - repeat constructor.
  - destruct (Ascii.eqb c sep) eqn:E.
    + constructor; [reflexivity | exact IH].
    + destruct (split sep rest) as [|field fields]; [repeat constructor; simpl|].
      * now rewrite E.
      * inversion IH as [|x xs Hfield Hfields]; subst.
        constructor; [simpl; now rewrite E | exact Hfields].
Qed.

Lemma last_in {A : Type} (l : list A) (d : A) : In (last l d) (d :: l).
Proof.
  revert d. induction l as [|x l IH]; intros d; [now left|].
  rewrite last_cons. right. apply IH.
Qed.

(** X23.  [extract_id] on any string.  It never raises, whatever the
    string (the list [split] gives is never empty); what it returns holds
    no "/"; applied to its own result it returns that result again; and a
    string without "/" comes back unchanged. *)
Theorem extract_id_total (gid_string : string) :
  exists id,
    Gid.extract_id gid_string = Ok id /\
    contains_char "/" id = false /\
    Gid.extract_id id = Ok id /\
    (contains_char "/" gid_string = false -> id = gid_string).
Proof.
  unfold Gid.extract_id, last_item.
  destruct (split "/" gid_string) as [|field fields] eqn:S;
    [destruct (split_nonempty "/" gid_string S)|].
  exists (last fields field).
  assert (Hno : contains_char "/" (last fields field) = false).
  { pose proof (split_fields_no_sep "/" gid_string) as Hall. rewrite S in Hall.
    rewrite Forall_forall in Hall. apply Hall. apply last_in. }
  split; [reflexivity|]. split; [exact Hno|]. split.
  - now rewrite (split_no_sep "/" _ Hno).
  - intros H. rewrite (split_no_sep "/" _ H) in S. injection S as <- <-. reflexivity.
Qed.

Lemma hex_length (bytes : list Z) :
  String.length (Codec.hex bytes) = (2 * List.length bytes)%nat.
Proof. induction bytes as [|b rest IH]; simpl; [reflexivity|]. rewrite IH. lia. Qed.

(** X24.  What the row records that [post] writes.  A row that is in the
    ledger after [post] and was not there before carries the delivery
    identifier and the topic of the request, the shop domain of the
    request, which is the domain of an active configuration, and the
    store of that configuration; its status is [received], its error
    message empty and its processing time unset; and its payload hash is
    the SHA-256 of the raw body in hexadecimal, 64 characters, which is
    the width of the column. *)
Theorem recorded_row_content (self : Views.view) (req : Views.request)
    (db : Views.database) (row : Views.WebhookEvent) :
  In row (Views.events (snd (Views.post self req db))) ->
  ~ In row (Views.events db) ->
  (exists config,
     In config (Views.configs db) /\ is_active config = true /\
     shopify_domain config = Views.ev_shop_domain row /\
     Views.meta_get (Views.META req) "HTTP_X_SHOPIFY_SHOP_DOMAIN"
     = Some (Views.ev_shop_domain row) /\
     Views.ev_store row = Some (store_id config)) /\
  Views.ev_webhook_id row = delivery_id req /\
  Views.ev_topic row = delivery_topic req /\
  Views.ev_status row = Views.RECEIVED /\
  Views.ev_error_message row = "" /\
  Views.ev_processing_time_ms row = None /\
  Views.ev_payload_hash row = Codec.hex (SHA256.digest (Views.body req)) /\
  String.length (Views.ev_payload_hash row) = 64%nat.
Proof.
  intros Hin Hnew.
  destruct (post_effect self req db) as [[Hsame _]|Hadded].
  { rewrite Hsame in Hin. contradiction. }
  destruct Hadded as (shop_domain & config & Hdom & _ & Hcfg & _ & _ & _ & _ & Hadded).
  cbv zeta in Hadded. destruct Hadded as (_ & He & _).
  rewrite He in Hin. apply in_app_or in Hin as [Hold|[<-|[]]]; [contradiction|].
  assert (Hc : In config (Views.active_configs db shop_domain))
    by (rewrite Hcfg; now left).
  apply filter_In in Hc as [Hc Hsel]. apply andb_prop in Hsel as [Hd Ha].
  apply String.eqb_eq in Hd.
  split.
  { exists config. simpl. repeat split; assumption. }
  simpl. repeat split.
  rewrite hex_length, digest_length. reflexivity.
Qed.

Lemma recorded_row_content_witness :
  let req := IntakeScenario.delivery "d-1" "price_rules/create" in
  let row := Views.new_event IntakeScenario.fresh "d-1" "price_rules/create"
               "test-shop.myshopify.com" (Some (store_id Scenario.config))
               Views.RECEIVED (Codec.hex (SHA256.digest IntakeScenario.body)) in
  In row (Views.events (snd (Views.post Views.ShopifyPromotionWebhookView req
                               IntakeScenario.fresh))) /\
  Views.ev_payload_hash row = Codec.hex (SHA256.digest (Views.body req)) /\
  String.length (Views.ev_payload_hash row) = 64%nat.
Proof.
  cbv zeta.
  assert (Hin : In (Views.new_event IntakeScenario.fresh "d-1" "price_rules/create"
                      "test-shop.myshopify.com" (Some (store_id Scenario.config))
                      Views.RECEIVED (Codec.hex (SHA256.digest IntakeScenario.body)))
                   (Views.events
                      (snd (Views.post Views.ShopifyPromotionWebhookView
                              (IntakeScenario.delivery "d-1" "price_rules/create")
                              IntakeScenario.fresh)))).
  { vm_compute. left. reflexivity. }
  split; [exact Hin|].
  destruct (recorded_row_content Views.ShopifyPromotionWebhookView
              (IntakeScenario.delivery "d-1" "price_rules/create")
              IntakeScenario.fresh _ Hin (fun H => H))
    as (_ & _ & _ & _ & _ & _ & Hhash & Hlen).
  split; [exact Hhash | exact Hlen].
Defined.

(** ** The two price-rule builders side by side *)

(** X25.  The Easy and the Basket Threshold builder read a price rule the
    same way.  When both accept a rule, the promotions they build agree on
    identifier, retailer, stores, start and end of the window, activity,
    application limit, title, discount type, discount value, priority,
    availability, the price the discount applies to and the evaluation
    criterion, whatever the groups; they differ in family, in layer ("1"
    against 100) and in the item the discount goes to (least against most
    expensive). *)
Theorem builders_agree (price_rule : pyval) (config : ShopifyWebhookConfig)
    (current_date : Datetime.datetime)
    (easy : list Group -> Promotion) (basket : Basket.Promotion) :
  Builder.build_easy_promotion_head price_rule config current_date = Ok easy ->
  Families.build_basket_threshold_promotion price_rule config current_date = Ok basket ->
  forall gs,
    (promo_id (easy gs) = Basket.promo_id basket /\
     retailer (easy gs) = Basket.retailer basket /\
     stores (easy gs) = Basket.stores basket /\
     date_start (easy gs) = Basket.date_start basket /\
     date_end (easy gs) = Basket.date_end basket /\
     promo_is_active (easy gs) = Basket.promo_is_active basket /\
     max_application_limit (easy gs) = Basket.max_application_limit basket /\
     title (easy gs) = Basket.title basket /\
     discount_type (easy gs) = Basket.discount_type basket /\
     discount_value (easy gs) = Basket.discount_value basket /\
     evaluate_priority (easy gs) = Basket.evaluate_priority basket /\
     availability (easy gs) = Basket.availability basket /\
     discount_value_on (easy gs) = Basket.discount_value_on basket /\
     evaluate_criteria (easy gs) = Basket.evaluate_criteria basket) /\
    (family (easy gs) = EASY /\ Basket.family basket = BASKET_THRESHOLD) /\
    (layer (easy gs) = VStr "1" /\ Basket.layer basket = VInt 100) /\
    (discounted_group_item_selection_criteria (easy gs) = LEAST_EXPENSIVE /\
     Basket.discounted_group_item_selection_criteria basket = MOST_EXPENSIVE).
Proof.
  unfold Builder.build_easy_promotion_head, Families.build_basket_threshold_promotion.
  intros H1.
  repeat match type of H1 with
         | bind ?r _ = Ok _ =>
             let E := fresh "E" in
             destruct r eqn:E; cbn [bind] in H1 |- *; [|discriminate H1]
         end.
  injection H1 as <-. intros H2.
  destruct (negb (truthy _)); [discriminate H2|].
  bind_ok H2. injection H2 as <-.
  intros gs. simpl. repeat split.
Qed.

Lemma builders_agree_witness :
  exists easy basket,
    Builder.build_easy_promotion_head PromotionScenario.basket_rule Scenario.config
      Scenario.noon = Ok easy /\
    Families.build_basket_threshold_promotion PromotionScenario.basket_rule
      Scenario.config Scenario.noon = Ok basket /\
    evaluate_priority (easy []) = Basket.evaluate_priority basket /\
    discount_value (easy []) = Basket.discount_value basket.
Proof.
  destruct (Builder.build_easy_promotion_head PromotionScenario.basket_rule
              Scenario.config Scenario.noon) as [easy|e] eqn:E;
    [|vm_compute in E; discriminate E].
  destruct (Families.build_basket_threshold_promotion PromotionScenario.basket_rule
              Scenario.config Scenario.noon) as [basket|e] eqn:B;
    [|vm_compute in B; discriminate B].
  exists easy, basket. split; [reflexivity|]. split; [reflexivity|].
  destruct (builders_agree _ _ _ _ _ E B [])
    as ((_ & _ & _ & _ & _ & _ & _ & _ & _ & Hv & Hp & _) & _).
  split; [exact Hp | exact Hv].
Defined.

(** ** The Easy builder when every product is found *)

Lemma sku_nodes_of_kept (barcodes : list pyval) :
  Forall (fun b => truthy b = true) barcodes ->
  Builder.sku_nodes barcodes
  = map (fun b => {| node_type := ITEM; node_id := b |}) barcodes.
Proof.
  induction 1 as [|b rest Hb _ IH]; simpl; [reflexivity|]. now rewrite Hb, IH.
Qed.

Lemma kept_barcodes_truthy (products : list (list (list (string * pyval)))) :
  Forall (fun b => truthy b = true) (flat_map kept_barcodes products).
Proof.
  rewrite Forall_forall. intros b Hin. apply in_flat_map in Hin as (variants & _ & Hb).
  unfold kept_barcodes in Hb. apply filter_In in Hb. tauto.
Qed.

(** X26.  [build_easy_promotion] from the rule to the groups, when every
    entitled product is found.  For a rule that passes the first part of
    the builder and lists its products under [entitled_product_ids], and
    given one 200 answer per product, the builder returns the promotion of
    the first part with exactly one group: named [str(price_rule["id"])],
    minimum 1, no maximum, and one item node per non-empty barcode of the
    variants of the products, in order.  It asks Shopify once per product
    and for nothing else. *)
Theorem easy_promotion_of_found_products (price_rule : pyval)
    (config : ShopifyWebhookConfig) (w : world)
    (promo : list Group -> Promotion) (id : pyval) (ids : list pyval)
    (products : list (list (list (string * pyval))))
    (answers rest : list net_event) :
  Builder.build_easy_promotion_head price_rule config (now w) = Ok promo ->
  py_item price_rule "id" = Ok id ->
  py_get price_rule "entitled_product_ids" = Ok (VList ids) ->
  ids <> [] ->
  Forall2 product_found products answers ->
  List.length ids = List.length products ->
  pending w = (answers ++ rest)%list ->
  Builder.build_easy_promotion price_rule config w
  = (Done (Ok (promo
                 [ {| group_name := py_str id;
                      qty_or_value_min := VInt 1;
                      qty_or_value_max := VNone;
                      nodes := map (fun b => {| node_type := ITEM; node_id := b |})
                                 (flat_map kept_barcodes products) |} ])),
     with_pending
       (emit w (product_requests (Builder.build_promotion_settings_from_config config) ids))
       rest).
Proof.
  intros Hhead Hid Hids Hne Hall Hlen Hp.
  unfold Builder.build_easy_promotion. cbv zeta. rewrite Hhead.
  unfold Builder.resolve_entitled_skus. rewrite Hids.
  destruct ids as [|first more]; [contradiction|].
  cbn [truthy py_iter].
  unfold Resolver.get_products_sku. rewrite Hp.
  rewrite (sku_loop_all_found _ (first :: more) products answers rest w [] Hall Hlen).
  rewrite Hid. cbn [app]. unfold Builder.build_promo_groups.
  rewrite (sku_nodes_of_kept _ (kept_barcodes_truthy products)). reflexivity.
Qed.

Lemma easy_promotion_of_found_products_witness :
  exists promo,
    Builder.build_easy_promotion_head Scenario.price_rule Scenario.config Scenario.noon
    = Ok promo /\
    fst (Builder.build_easy_promotion Scenario.price_rule Scenario.config
           (Scenario.world_with [ Scenario.product_answer [VStr "A1"; VNone];
                                  Scenario.product_answer [VStr "B1"] ]))
    = Done (Ok (promo
                  [ {| group_name := "12345";
                       qty_or_value_min := VInt 1;
                       qty_or_value_max := VNone;
                       nodes := [ {| node_type := ITEM; node_id := VStr "A1" |};
                                  {| node_type := ITEM; node_id := VStr "B1" |} ] |} ])).
Proof.
  destruct (Builder.build_easy_promotion_head Scenario.price_rule Scenario.config
              Scenario.noon) as [promo|e] eqn:H;
    [|vm_compute in H; discriminate H].
  exists promo. split; [reflexivity|].
  rewrite (easy_promotion_of_found_products Scenario.price_rule Scenario.config
             (Scenario.world_with [ Scenario.product_answer [VStr "A1"; VNone];
                                    Scenario.product_answer [VStr "B1"] ])
             promo (VInt 12345) [VInt 111; VInt 222]
             [ [ [("barcode", VStr "A1")]; [("barcode", VNone)] ];
               [ [("barcode", VStr "B1")] ] ]
             [ Scenario.product_answer [VStr "A1"; VNone];
               Scenario.product_answer [VStr "B1"] ] []).
  - reflexivity.
  - exact H.
  - reflexivity.
  - reflexivity.
  - discriminate.
  - repeat constructor; (eexists _, _; repeat split; reflexivity).
  - reflexivity.
  - reflexivity.
Defined.

(** ** What a run reports to statsd *)

(** X27.  The metrics of a run of [_process_event] on the one row of its
    task, tagged with the topic and the shop domain of the row.  Every
    run first counts the delivery as received.  A run that comes to its
    end then counts it once as processed (a handler returned) or once as
    failed (no handler, or an exception of [Exception]), and last reports
    the elapsed milliseconds, both with the final status as a further
    tag; after an exception outside [Exception] only the time is reported,
    with the status [processing].  A run whose handler never comes back
    reports nothing more. *)
Theorem process_event_metrics {S : Type}
    (handlers : Registry.topic_handlers (Processing.handler S))
    (started finished : Q) (id : Z) (payload : pyval) (db : Views.database)
    (s : S) (metrics : list Processing.metric) (event : Views.WebhookEvent) :
  rows_with_id id db = [event] ->
  let run := Processing._process_event handlers started finished id payload db s metrics in
  let tags := [ ("topic:" ++ Views.ev_topic event)%string;
                ("shop_domain:" ++ Views.ev_shop_domain event)%string ] in
  let received := Processing.Increment "shopify.webhook.received" tags in
  let elapsed := Qtrunc ((finished - started) * 1000) in
  let reported (counter : list string -> list Processing.metric) (status : string) :=
    (metrics ++ received
       :: counter (tags ++ [("status:" ++ status)%string])
       ++ [Processing.Histogram "shopify.webhook.processing_time_ms" elapsed
             (tags ++ [("status:" ++ status)%string])])%list in
  let processed result_tags := [Processing.Increment "shopify.webhook.processed" result_tags] in
  let failed result_tags := [Processing.Increment "shopify.webhook.failed" result_tags] in
  snd (snd run)
  = match fst run with
    | Done (Ok _) =>
        match Registry.get_handler (Views.ev_topic event) handlers with
        | Some _ => reported processed "success"
        | None => reported failed "failed"
        end
    | Done (Raise exc) =>
        if issubclass (exc_cls exc) Exception_
        then reported failed "failed"
        else reported (fun _ => []) "processing"
    | NoAnswer | OutOfFuel => (metrics ++ [received])%list
    end.
Proof.
  intros F. unfold rows_with_id in F. cbv zeta.
  unfold Processing._process_event. rewrite F. cbv zeta.
  change (Views.ev_topic (Processing.set_status event Views.PROCESSING))
    with (Views.ev_topic event).
  change (Views.ev_shop_domain (Processing.set_status event Views.PROCESSING))
    with (Views.ev_shop_domain event).
  destruct (Registry.get_handler (Views.ev_topic event) handlers) as [handle|].
  - destruct (handle _ payload _ s) as [[[u|exc]| |] s'].
    + unfold Processing.finish. simpl. now rewrite <- app_assoc.
    + unfold Processing.finish.
      destruct (issubclass (exc_cls exc) Exception_) eqn:X; simpl; rewrite ?X;
        now rewrite <- app_assoc.
    + reflexivity.
    + reflexivity.
  - unfold Processing.finish. simpl. now rewrite <- app_assoc.
Qed.

Lemma process_event_metrics_witness :
  snd (snd ProcessingScenario.first_run)
  = [ Processing.Increment "shopify.webhook.received"
        [ "topic:price_rules/create"; "shop_domain:test-shop.myshopify.com" ];
      Processing.Increment "shopify.webhook.failed"
        [ "topic:price_rules/create"; "shop_domain:test-shop.myshopify.com";
          "status:failed" ];
      Processing.Histogram "shopify.webhook.processing_time_ms" 250
        [ "topic:price_rules/create"; "shop_domain:test-shop.myshopify.com";
          "status:failed" ] ].
Proof.
  pose proof (process_event_metrics ProcessingScenario.handlers 10 10.25 7
                IntakeScenario.payload ProcessingScenario.ledger O []
                ProcessingScenario.row eq_refl) as H.
  cbv zeta in H. exact H.
Defined.

(** ** Deduplication key and configuration flags *)

(** X29.  The delivery identifier is the only key of the deduplication.
    Once an accepted request has been submitted, every later request with
    the same delivery identifier that passes the checks of its endpoint
    is answered 200 and dropped, whatever its topic, its body or the
    endpoint it is sent to: no row, no task. *)
Theorem same_id_is_dropped (self self' : Views.view) (req req' : Views.request)
    (db : Views.database) :
  intake_accepts self req db = true ->
  let db1 := snd (Views.post self req db) in
  intake_accepts self' req' db1 = true ->
  delivery_id req' = delivery_id req ->
  Views.post self' req' db1 = (Ok (Views.empty_response 200), db1).
Proof.
  intros Hacc. cbv zeta. intros Hacc' Hid.
  assert (Hex : Views.event_exists (snd (Views.post self req db)) (delivery_id req) = true).
  { destruct (post_accepted self req db Hacc)
      as [[E ->]|(_ & ev & db' & -> & Hd & _ & _ & He & _)].
    - exact E.
    - simpl. exact (event_exists_app db _ ev db' He Hd). }
  destruct (post_accepted self' req' _ Hacc')
    as [[_ H]|(E & _)]; [exact H|].
  rewrite Hid in E. congruence.
Qed.

Lemma same_id_is_dropped_witness :
  let db1 := snd (Views.post Views.ShopifyPromotionWebhookView
                    (IntakeScenario.delivery "d-1" "price_rules/create")
                    IntakeScenario.fresh) in
  Views.post Views.ShopifyInventoryWebhookView
    (IntakeScenario.delivery "d-1" "products/create") db1
  = (Ok (Views.empty_response 200), db1).
Proof.
  cbv zeta.
  apply (same_id_is_dropped Views.ShopifyPromotionWebhookView
           Views.ShopifyInventoryWebhookView
           (IntakeScenario.delivery "d-1" "price_rules/create")
           (IntakeScenario.delivery "d-1" "products/create")
           IntakeScenario.fresh).
  - vm_compute. reflexivity.
  - vm_compute. reflexivity.
  - reflexivity.
Defined.

Lemma filter_map_same {A : Type} (f : A -> A) (p : A -> bool) (l : list A) :
  (forall x, p (f x) = p x) -> filter p (map f l) = map f (filter p l).
Proof.
  intros H. induction l as [|x l IH]; simpl; [reflexivity|].
  rewrite H. destruct (p x); simpl; now rewrite IH.
Qed.

Lemma get_config_reconfigured change db store :
  changes_flags_only change ->
  PromotionHandlers.get_config (reconfigure change db) store
  = match PromotionHandlers.get_config db store with
    | Ok config => Ok (change config)
    | Raise e => Raise e
    end.
Proof.
  intros Hc. unfold PromotionHandlers.get_config, reconfigure. simpl.
  rewrite filter_map_same.
  - destruct (filter _ (Views.configs db)) as [|c [|]]; reflexivity.
  - intros c. destruct (Hc c) as (i & p & o & a & ->). reflexivity.
Qed.

(** X30.  The flags of a configuration that nothing consults.  The
    intake endpoint does not look at [sync_inventory], [sync_promotions]
    or [sync_orders_to_shopify]: with these flags changed in any way it
    gives the same answer and writes the same row and task.  The
    price-rule handlers look at none of the four flags, [is_active]
    included: with the flags changed in any way they make the same
    requests, hand over the same batch and end the same way, so a
    delivery is processed although promotion sync is switched off or the
    configuration was deactivated after intake. *)
Theorem flags_not_consulted :
  (forall change self req db,
     changes_sync_flags_only change ->
     Views.post self req (reconfigure change db)
     = (fst (Views.post self req db), reconfigure change (snd (Views.post self req db)))) /\
  (forall change commit store_attribute handle event payload db s,
     changes_flags_only change ->
     In handle [ PromotionHandlers.handle_price_rule_create commit;
                 PromotionHandlers.handle_price_rule_update commit store_attribute;
                 PromotionHandlers.handle_price_rule_delete commit store_attribute ] ->
     handle event payload (reconfigure change db) s = handle event payload db s).
Proof.
  split.
  - intros change self req db Hc. unfold Views.post.
    destruct (Views.meta_get (Views.META req) "HTTP_X_SHOPIFY_SHOP_DOMAIN")
      as [[|ch shop_domain]|]; try reflexivity.
    assert (Ha : Views.active_configs (reconfigure change db) (String ch shop_domain)
                 = map change (Views.active_configs db (String ch shop_domain))).
    { unfold Views.active_configs, reconfigure. simpl. apply filter_map_same.
      intros c. destruct (Hc c) as (i & p & o & ->). reflexivity. }
    rewrite Ha.
    destruct (Views.active_configs db (String ch shop_domain)) as [|config [|]];
      try reflexivity.
    cbn [map]. cbv zeta.
    assert (Hs : webhook_secret (change config) = webhook_secret config)
      by (destruct (Hc config) as (i & p & o & ->); reflexivity).
    assert (Hst : store_id (change config) = store_id config)
      by (destruct (Hc config) as (i & p & o & ->); reflexivity).
    rewrite Hs, Hst.
    destruct (Middleware.verify_shopify_hmac _ _ _) as [[|]|e]; try reflexivity.
    destruct (String.eqb _ ""); [reflexivity|].
    destruct (Views.topic_refused self _); [reflexivity|].
    change (Views.event_exists (reconfigure change db))
      with (Views.event_exists db).
    destruct (Views.event_exists db _) eqn:E; [reflexivity|].
    unfold Views.create_event.
    change (Views.event_exists (reconfigure change db))
      with (Views.event_exists db).
    rewrite E.
    destruct (Views.task_actor self) as [a|]; [|reflexivity].
    destruct (Views.body_json req); reflexivity.
  - intros change commit store_attribute handle event payload db [w committed] Hc Hin.
    assert (Hbuild : forall config,
               PromotionHandlers._build_promotion_for_price_rule payload (change config) w
               = PromotionHandlers._build_promotion_for_price_rule payload config w).
    { intros config. destruct (Hc config) as (i & p & o & a & ->). reflexivity. }
    assert (Hname : forall config,
               PromotionHandlers._get_retailer_name (change config)
               = PromotionHandlers._get_retailer_name config).
    { intros config. destruct (Hc config) as (i & p & o & a & ->). reflexivity. }
    destruct Hin as [<-|[<-|[<-|[]]]];
      unfold PromotionHandlers.handle_price_rule_create,
        PromotionHandlers.handle_price_rule_update,
        PromotionHandlers.handle_price_rule_delete;
      rewrite (get_config_reconfigured change db _ Hc);
      destruct (PromotionHandlers.get_config db (Views.ev_store event)) as [config|e];
      try reflexivity;
      rewrite ?Hbuild, ?Hname; reflexivity.
Qed.
